(** * The COVID-19 dashboard of [dashboards-2.ipynb]

    A shallow embedding of the notebook's loader ([country_alpha3],
    [get_covid_data]), of the class [GreatCovidDashboard] and of the simple
    [CovidDashboard] before it, followed by the properties of the
    specification that were checked against it and by further properties
    of the code.

    Conventions of the embedding.
    - A date is its proleptic Gregorian ordinal (Python's [date.toordinal]),
      an integer.  The CSV holds plain dates, so every [Timestamp] of the
      [Date] column is a midnight and is represented by its day.
    - An empty CSV cell (NaN, NaT) is [None]; this holds of the key cells
      [Country] and [Date] as well, and [groupby] drops the lines that lack
      one of them.
    - A count is read as a 64-bit integer.  A column of counts has dtype
      [int64] when none of its cells is empty, and its sums wrap around; a
      column with an empty cell has dtype [float64], and the arithmetic of
      its sums is left to the library.
    - A [DataFrame] is immutable, as every pandas operation the notebook
      uses ([groupby], [agg], [reset_index], [assign], [loc], [set_index])
      returns a new frame.  The frame of a file without lines is told
      apart: [read_csv] parses no date there, and its [Date] column has
      dtype [object].
    - A Python object attribute is a record field; methods run in a monad
      that threads the object and a journal of observable events, and in
      which a raised exception keeps the mutations made before it. *)

From Stdlib Require Import ZArith.
From stdpp Require Import base decidable numbers list strings sorting relations.

Local Open Scope string_scope.
Local Open Scope Z_scope.
Local Open Scope list_scope.

(** ** Exceptions and results *)

Inductive exn : Type :=
  | KeyError (key : string)
  | ValueError (msg : string)
  | TypeError (msg : string)
  | AttributeError (msg : string)
  | IndexingError (msg : string)
  | IOError (msg : string).

Inductive result (A : Type) : Type :=
  | Ok (a : A)
  | Raise (e : exn).
Arguments Ok {A} a.
Arguments Raise {A} e.

Definition result_bind {A B} (r : result A) (k : A → result B) : result B :=
  match r with
  | Ok a => k a
  | Raise e => Raise e
  end.

(** [Series.map(f)] for an [f] that may raise: the first exception aborts. *)
Fixpoint result_map {A B} (f : A → result B) (l : list A) : result (list B) :=
  match l with
  | [] => Ok []
  | x :: l' =>
      result_bind (f x) (λ y,
      result_bind (result_map f l') (λ ys, Ok (y :: ys)))
  end.

(** ** 64-bit integers

    [read_csv] stores a column of integer literals as [int64]: an integer
    within the 64-bit range.  Additions wrap around in two's complement. *)

Definition in_int64 (z : Z) : bool := (- 2 ^ 63 <=? z) && (z <? 2 ^ 63).

Record int64 : Type := {
  int64_val : Z;
  int64_range : in_int64 int64_val = true;
}.

Definition wrap64 (z : Z) : Z := (z + 2 ^ 63) mod 2 ^ 64 - 2 ^ 63.

Definition wrap64_in_int64 (z : Z) : in_int64 (wrap64 z) = true.
Proof.
  unfold in_int64, wrap64.
  pose proof (Z.mod_pos_bound (z + 2 ^ 63) (2 ^ 64) ltac:(done)) as Hm.
  revert Hm. generalize ((z + 2 ^ 63) mod 2 ^ 64). intros r Hr.
  change (2 ^ 64) with (2 ^ 63 + 2 ^ 63) in Hr.
  apply andb_true_intro. split; [apply Z.leb_le|apply Z.ltb_lt]; lia.
Qed.

(** A proof of [b = true] that computes to [eq_refl] once [b] does to
    [true], so that two equal integers are equal with their proofs. *)
Definition canonical {b : bool} : b = true → b = true :=
  match b with
  | true => λ _, eq_refl
  | false => λ Hb, Hb
  end.

Definition i64 (z : Z) : int64 :=
  {| int64_val := wrap64 z; int64_range := canonical (wrap64_in_int64 z) |}.

Definition int64_add (a b : int64) : int64 := i64 (int64_val a + int64_val b).

(** A cell of a numeric column: of dtype [int64], or of dtype [float64]
    for floats [F]. *)
Inductive number (F : Type) : Type :=
  | Int (i : int64)
  | Float (x : F).
Arguments Int {F} i.
Arguments Float {F} x.

(** ** Libraries the notebook calls

    [iso3166.countries.get], [numpy.log10] and the floating-point
    arithmetic of pandas are not part of the repository; they are
    parameters of the development.  [iso3166_table] is the lookup of
    [iso3166.countries]: [None] stands for the key not being found, on
    which [get] raises [KeyError].  [csv_float] is the float that
    [read_csv] stores for an integer literal in a column of dtype
    [float64]; [float64_sum] is what ["sum"] answers on the cells of one
    group that are not NaN, taken in the order of the lines; [np_log10] is
    [numpy.log10] on one cell of either dtype. *)

Record iso3166_Country : Type := {
  name : string;
  alpha2 : string;
  alpha3 : string;
  numeric : string;
}.

Class Libraries : Type := {
  float64 : Type;
  csv_float : int64 → float64;
  float64_sum : list float64 → float64;
  np_log10 : number float64 → float64;
  iso3166_table : string → option iso3166_Country;
}.

(** ** Calendar: [datetime.date(y, m, d).toordinal()] *)

Definition is_leap (y : Z) : bool :=
  (y mod 4 =? 0) && (negb (y mod 100 =? 0) || (y mod 400 =? 0)).

Definition days_before_year (y : Z) : Z :=
  let y1 := y - 1 in
  y1 * 365 + y1 / 4 - y1 / 100 + y1 / 400.

Definition days_in_month (y m : Z) : Z :=
  if m =? 2 then (if is_leap y then 29 else 28)
  else if (m =? 4) || (m =? 6) || (m =? 9) || (m =? 11) then 30
  else 31.

Definition days_before_month (y m : Z) : Z :=
  foldr (λ k acc, days_in_month y k + acc) 0
        (Z.of_nat <$> seq 1 (Z.to_nat (m - 1))).

Definition date (y m d : Z) : Z :=
  days_before_year y + days_before_month y m + d.

(** ** Data model *)

(** A line of the CSV after [rename(columns=...)]; any cell may be
    empty. *)
Record RawRow `{Libraries} : Type := {
  raw_Date : option Z;
  raw_Country : option string;
  raw_State : option string;
  raw_Confirmed : option int64;
  raw_Recovered : option int64;
  raw_Deaths : option int64;
  raw_Lat : option float64;
  raw_Long : option float64;
}.

(** A row of the aggregated frame returned by [get_covid_data]. *)
Record Row `{Libraries} : Type := {
  Country : string;
  Date : Z;
  Confirmed : number float64;
  Recovered : number float64;
  Deaths : number float64;
  Lat : option float64;
  Long : option float64;
  iso_alpha : option string;
}.

(** A frame with the columns of [get_covid_data]: its rows and the float
    columns added by [assign].  [Frame] is a frame whose [Date] column
    holds dates (dtype [datetime64]), with or without rows; [Unparsed] is
    the frame of a file without lines, which has no rows and whose [Date]
    column has dtype [object]. *)
Inductive DataFrame `{Libraries} : Type :=
  | Frame (rs : list Row) (cols : list (string * list float64))
  | Unparsed (cols : list (string * list float64)).

Definition rows `{Libraries} (df : DataFrame) : list Row :=
  match df with
  | Frame rs _ => rs
  | Unparsed _ => []
  end.

Definition derived `{Libraries} (df : DataFrame) : list (string * list float64) :=
  match df with
  | Frame _ cols => cols
  | Unparsed cols => cols
  end.

Inductive Metric : Type := MConfirmed | MRecovered | MDeaths.

Definition metric_name (v : Metric) : string :=
  match v with
  | MConfirmed => "Confirmed"
  | MRecovered => "Recovered"
  | MDeaths => "Deaths"
  end.

Inductive PlotKind : Type := px_bar | px_line.

Global Instance Metric_eq_dec : EqDecision Metric.
Proof. solve_decision. Defined.
Global Instance PlotKind_eq_dec : EqDecision PlotKind.
Proof. solve_decision. Defined.

(** ** The order of [groupby] keys and of [sorted] *)

Definition key_le (k1 k2 : string * Z) : Prop :=
  if decide (k1.1 = k2.1) then k1.2 ≤ k2.2 else String.le k1.1 k2.1.

Global Instance key_le_dec : RelDecision key_le.
Proof. intros k1 k2. unfold key_le. destruct (decide (k1.1 = k2.1)); apply _. Defined.

(** [Series.unique()]: distinct values in order of first appearance. *)
Definition unique `{EqDecision A} (l : list A) : list A :=
  reverse (remove_dups (reverse l)).

Definition sorted (l : list string) : list string := merge_sort String.le l.

Section Loader.
Context `{Libraries}.

(** *** [country_alpha3] *)

Definition iso3166_countries_get (key : string) : result iso3166_Country :=
  match iso3166_table key with
  | Some c => Ok c
  | None => Raise (KeyError key)
  end.

(** [try: return iso3166.countries.get(country).alpha3]
    [except KeyError: return None] *)
Definition country_alpha3 (country : string) : result (option string) :=
  match iso3166_countries_get country with
  | Ok c => Ok (Some (alpha3 c))
  | Raise (KeyError _) => Ok None
  | Raise e => Raise e
  end.

(** *** The aggregation of [get_covid_data] *)

(** The key of a line, when it has both cells. *)
Definition raw_key (r : RawRow) : option (string * Z) :=
  c ← raw_Country r; d ← raw_Date r; Some (c, d).

Definition row_key (r : Row) : string * Z := (Country r, Date r).

(** The sum of an [int64] column, one addition after the other. *)
Definition int64_sum (l : list int64) : int64 := foldl int64_add (i64 0) l.

(** ["sum"] on the cells of one group, given the whole column, which
    decides the dtype.  It skips NaN and is zero on a group without
    numbers. *)
Definition agg_sum (column cells : list (option int64)) : number float64 :=
  if bool_decide (Forall is_Some column)
  then Int (int64_sum (omap id cells))
  else Float (float64_sum (csv_float <$> omap id cells)).

(** ["first"] is the first cell that is not NaN. *)
Fixpoint agg_first {A} (cells : list (option A)) : option A :=
  match cells with
  | [] => None
  | Some a :: _ => Some a
  | None :: cells' => agg_first cells'
  end.

(** [groupby(["Country", "Date"])]: the groups, in the order of their
    keys.  A line without country or without date is in no group. *)
Definition group_of (k : string * Z) (raw : list RawRow) : list RawRow :=
  filter (λ r, raw_key r = Some k) raw.

Definition group_keys (raw : list RawRow) : list (string * Z) :=
  merge_sort key_le (unique (omap raw_key raw)).

(** [.agg({"Confirmed": "sum", "Recovered": "sum", "Deaths": "sum",
           "Lat": "first", "Long": "first"})] on one group; the column
    [iso_alpha] does not exist yet. *)
Definition agg_row (raw : list RawRow) (k : string * Z) (g : list RawRow) : Row :=
  {| Country := k.1;
     Date := k.2;
     Confirmed := agg_sum (raw_Confirmed <$> raw) (raw_Confirmed <$> g);
     Recovered := agg_sum (raw_Recovered <$> raw) (raw_Recovered <$> g);
     Deaths := agg_sum (raw_Deaths <$> raw) (raw_Deaths <$> g);
     Lat := agg_first (raw_Lat <$> g);
     Long := agg_first (raw_Long <$> g);
     iso_alpha := None |}.

Definition groupby_agg (raw : list RawRow) : list Row :=
  (λ k, agg_row raw k (group_of k raw)) <$> group_keys raw.

Definition set_iso_alpha (r : Row) (iso : option string) : Row :=
  {| Country := Country r; Date := Date r; Confirmed := Confirmed r;
     Recovered := Recovered r; Deaths := Deaths r; Lat := Lat r;
     Long := Long r; iso_alpha := iso |}.

(** [.assign(iso_alpha=lambda df: df["Country"].map(country_alpha3))] *)
Definition assign_iso_alpha (rs : list Row) : result (list Row) :=
  result_map (λ r, result_bind (country_alpha3 (Country r))
                               (λ iso, Ok (set_iso_alpha r iso))) rs.

(** The body of [get_covid_data] after [read_csv(...).rename(...)].  On a
    file without lines [read_csv] parses no date, and the frame is the
    one without rows whose [Date] column has dtype [object]. *)
Definition aggregate (raw : list RawRow) : result DataFrame :=
  result_bind (assign_iso_alpha (groupby_agg raw)) (λ rs,
  Ok match raw with
     | [] => Unparsed []
     | _ :: _ => Frame rs []
     end).

End Loader.

(** ** The object, the world around it, and the method monad *)

(** The instance attributes of a [GreatCovidDashboard]: the values of its
    five parameters, the two parameter slots that [update_covid_data]
    rewrites ([self.param.countries.objects] and
    [self.param.map_plot_date.bounds]), and the hidden [_covid_data]. *)
Record GreatCovidDashboard `{Libraries} : Type := {
  countries : list string;
  countries_objects : list string;
  plotted_variable : Metric;
  use_log_scale : bool;
  plot_type : PlotKind;
  map_plot_date : Z;
  map_plot_date_bounds : Z * Z;
  _covid_data : DataFrame;
}.

(** What a method can observe outside the object: the clock
    ([dt.date.today()]) and what [pd.read_csv] on the fixed URL answers.
    Both are constant while one handler runs. *)
Record World `{Libraries} : Type := {
  today : Z;
  remote : result (list RawRow);
}.

Inductive event : Type :=
  | LogInfo (logger msg : string)
  | HttpGet (url : string).

Global Instance event_eq_dec : EqDecision event.
Proof. solve_decision. Defined.

Record Session `{Libraries} : Type := {
  self : GreatCovidDashboard;
  journal : list event;
}.

Definition M `{Libraries} (A : Type) : Type := Session → result A * Session.

Section Monad.
Context `{Libraries}.

Definition ret {A} (a : A) : M A := λ s, (Ok a, s).

Definition bind {A B} (m : M A) (k : A → M B) : M B :=
  λ s, match m s with
       | (Ok a, s') => k a s'
       | (Raise e, s') => (Raise e, s')
       end.

Definition lift {A} (r : result A) : M A := λ s, (r, s).

Definition gets {A} (f : GreatCovidDashboard → A) : M A :=
  λ s, (Ok (f (self s)), s).

Definition modify (f : GreatCovidDashboard → GreatCovidDashboard) : M unit :=
  λ s, (Ok tt, {| self := f (self s); journal := journal s |}).

Definition emit (e : event) : M unit :=
  λ s, (Ok tt, {| self := self s; journal := journal s ++ [e] |}).

Global Instance M_ret : MRet M := @ret.
Global Instance M_bind : MBind M := λ A B k m, bind m k.

End Monad.

(** ** The class [GreatCovidDashboard] *)

Definition csv_url : string :=
  "https://raw.githubusercontent.com/datasets/covid-19/master/data/time-series-19-covid-combined.csv".

Definition logger_name : string := "GreatCovidDashboard".

Section Dashboard.
Context `{Libraries}.

Definition info (msg : string) : M unit := emit (LogInfo logger_name msg).

(** [get_covid_data()]: one [read_csv], which may fail, then the
    aggregation. *)
Definition get_covid_data (w : World) : M DataFrame :=
  emit (HttpGet csv_url);;
  raw ← lift (remote w);
  lift (aggregate raw).

(** The least and the greatest date of the rows, if there are rows. *)
Definition Date_min (df : DataFrame) : option Z :=
  foldr (λ r acc, Some (from_option (Z.min (Date r)) (Date r) acc)) None (rows df).

Definition Date_max (df : DataFrame) : option Z :=
  foldr (λ r acc, Some (from_option (Z.max (Date r)) (Date r) acc)) None (rows df).

(** What [Series.min()] and [Series.max()] answer on the [Date] column: a
    [Timestamp]; on a column of dates without rows, [NaT]; on the empty
    column of dtype [object], the float [nan]. *)
Inductive Scalar : Type :=
  | Timestamp (d : Z)
  | NaT
  | nan.

Definition Series_min (df : DataFrame) : Scalar :=
  match df with
  | Frame _ _ => from_option Timestamp NaT (Date_min df)
  | Unparsed _ => nan
  end.

Definition Series_max (df : DataFrame) : Scalar :=
  match df with
  | Frame _ _ => from_option Timestamp NaT (Date_max df)
  | Unparsed _ => nan
  end.

(** [.date()] on such an answer: [NaT] refuses, a float has no such
    method. *)
Definition to_date (t : Scalar) : result Z :=
  match t with
  | Timestamp d => Ok d
  | NaT => Raise (ValueError "NaTType does not support date")
  | nan => Raise (AttributeError "'float' object has no attribute 'date'")
  end.

Definition set__covid_data (df : DataFrame) (o : GreatCovidDashboard) : GreatCovidDashboard :=
  {| countries := countries o; countries_objects := countries_objects o;
     plotted_variable := plotted_variable o; use_log_scale := use_log_scale o;
     plot_type := plot_type o; map_plot_date := map_plot_date o;
     map_plot_date_bounds := map_plot_date_bounds o; _covid_data := df |}.

Definition set_bounds (b : Z * Z) (o : GreatCovidDashboard) : GreatCovidDashboard :=
  {| countries := countries o; countries_objects := countries_objects o;
     plotted_variable := plotted_variable o; use_log_scale := use_log_scale o;
     plot_type := plot_type o; map_plot_date := map_plot_date o;
     map_plot_date_bounds := b; _covid_data := _covid_data o |}.

Definition set_objects (l : list string) (o : GreatCovidDashboard) : GreatCovidDashboard :=
  {| countries := countries o; countries_objects := l;
     plotted_variable := plotted_variable o; use_log_scale := use_log_scale o;
     plot_type := plot_type o; map_plot_date := map_plot_date o;
     map_plot_date_bounds := map_plot_date_bounds o; _covid_data := _covid_data o |}.

Definition update_covid_data (w : World) : M unit :=
  info "Loading COVID data";;
  df ← get_covid_data w;
  modify (set__covid_data df);;
  df_min ← gets _covid_data;
  lo ← lift (to_date (Series_min df_min));
  df_max ← gets _covid_data;
  hi ← lift (to_date (Series_max df_max));
  modify (set_bounds (lo, hi));;
  df_c ← gets _covid_data;
  modify (set_objects (sorted (unique (Country <$> rows df_c)))).

(** The test of the property [covid_data]:
    [self._covid_data["Date"].max() < dt.date.today() - dt.timedelta(days=1)].
    The left side is a midnight [Timestamp], the right side a [date]; the
    pandas of the notebook compares the two by calendar day.  A comparison
    with [NaT] is false; a float cannot be compared with a [date]. *)
Definition is_stale (w : World) (df : DataFrame) : result bool :=
  match Series_max df with
  | Timestamp m => Ok (bool_decide (m < today w - 1))
  | NaT => Ok false
  | nan => Raise (TypeError "'<' not supported between instances of 'float' and 'datetime.date'")
  end.

Definition covid_data (w : World) : M DataFrame :=
  df ← gets _covid_data;
  stale ← lift (is_stale w df);
  (if stale : bool then update_covid_data w else mret tt);;
  gets _covid_data.

(** *** Frames: boolean masks, [loc], [assign] *)

(** [a & b] on two boolean Series with a [RangeIndex]: positions present
    in only one of them come out [False]. *)
Fixpoint mask_and (a b : list bool) : list bool :=
  match a, b with
  | x :: a', y :: b' => (x && y) :: mask_and a' b'
  | [], _ => (λ _, false) <$> b
  | _, [] => (λ _, false) <$> a
  end.

Fixpoint take_mask {A} (l : list A) (mask : list bool) : list A :=
  match l, mask with
  | x :: l', b :: mask' =>
      if b then x :: take_mask l' mask' else take_mask l' mask'
  | _, _ => []
  end.

(** [df.loc[mask]]: the mask is reindexed on the frame's index, which
    fails when it lacks a position of the frame. *)
Definition with_rows (df : DataFrame) (rs : list Row)
    (cols : list (string * list float64)) : DataFrame :=
  match df with
  | Frame _ _ => Frame rs cols
  | Unparsed _ => Unparsed cols
  end.

Definition loc (df : DataFrame) (mask : list bool) : result DataFrame :=
  if decide (length (rows df) ≤ length mask)%nat
  then Ok (with_rows df (take_mask (rows df) mask)
                     ((λ c, (c.1, take_mask c.2 mask)) <$> derived df))
  else Raise (IndexingError "Unalignable boolean Series provided as indexer").

(** [df.assign] with one keyword: a new frame with the column added
    (replaced when it exists). *)
Definition assign (df : DataFrame) (col : string) (values : list float64) : DataFrame :=
  with_rows df (rows df) (filter (λ c, c.1 ≠ col) (derived df) ++ [(col, values)]).

(** [df["Date"].dt.date]: the [dt] accessor exists on a column of dates
    only. *)
Definition dt_date (df : DataFrame) : result (list Z) :=
  match df with
  | Frame rs _ => Ok (Date <$> rs)
  | Unparsed _ => Raise (AttributeError "Can only use .dt accessor with datetimelike values")
  end.

(** [df[v]] for a metric column. *)
Definition metric (v : Metric) (r : Row) : number float64 :=
  match v with
  | MConfirmed => Confirmed r
  | MRecovered => Recovered r
  | MDeaths => Deaths r
  end.

(** *** What the views return *)

Record Trace : Type := {
  trace_name : string;
  trace_points : list (Z * number float64);
}.

(** [px.bar] / [px.line] with [x="Date"], [color="Country"]: one trace
    for each distinct value of the colour column, in order of first
    appearance, holding that value's rows. *)
Record TimeSeries : Type := {
  ts_kind : PlotKind;
  ts_traces : list Trace;
  ts_y : string;
  ts_log_y : bool;
}.

Definition px_plot (kind : PlotKind) (df : DataFrame) (y : Metric) (log_y : bool)
  : TimeSeries :=
  {| ts_kind := kind;
     ts_traces :=
       (λ c, {| trace_name := c;
                trace_points :=
                  (λ r, (Date r, metric y r)) <$>
                    filter (λ r, Country r = c) (rows df) |})
         <$> unique (Country <$> rows df);
     ts_y := metric_name y;
     ts_log_y := log_y |}.

Record Choropleth : Type := {
  ch_data : DataFrame;
  ch_locations : string;
  ch_color : string;
  ch_hover_name : string;
  ch_hover_data : list string;
}.

Definition px_choropleth (df : DataFrame) (color : string) : Choropleth :=
  {| ch_data := df;
     ch_locations := "iso_alpha";
     ch_color := color;
     ch_hover_name := "Country";
     ch_hover_data := ["Confirmed"; "Recovered"; "Deaths"] |}.

(** [pn.Column(pn.pane.HTML(f"Situation on {date}"), pn.pane.DataFrame(...))]:
    the date of the caption and the table, indexed by country. *)
Record Overview : Type := {
  ov_date : Z;
  ov_table : list (string * (number float64 * number float64 * number float64));
}.

(** *** The three views *)

Definition plot (w : World) : M TimeSeries :=
  kind ← gets plot_type;
  df ← covid_data w;
  df' ← covid_data w;
  cs ← gets countries;
  data ← lift (loc df ((λ r, bool_decide (Country r ∈ cs)) <$> rows df'));
  y ← gets plotted_variable;
  log_y ← gets use_log_scale;
  mret (px_plot kind data y log_y).

Definition map_plot (w : World) : M Choropleth :=
  df ← covid_data w;
  df' ← covid_data w;
  dates ← lift (dt_date df');
  d ← gets map_plot_date;
  data ← lift (loc df ((λ x, bool_decide (x = d)) <$> dates));
  on ← gets use_log_scale;
  if on : bool then
    v ← gets plotted_variable;
    let color_column := "log(" +:+ metric_name v +:+ ")" in
    v' ← gets plotted_variable;
    let data' := assign data color_column (np_log10 <$> (metric v' <$> rows data)) in
    mret (px_choropleth data' color_column)
  else
    v ← gets plotted_variable;
    mret (px_choropleth data (metric_name v)).

Definition selected_day_numbers (w : World) : M Overview :=
  df ← covid_data w;
  df' ← covid_data w;
  dates ← lift (dt_date df');
  d ← gets map_plot_date;
  df'' ← covid_data w;
  cs ← gets countries;
  data ← lift (loc df (mask_and ((λ x, bool_decide (x = d)) <$> dates)
                                ((λ r, bool_decide (Country r ∈ cs)) <$> rows df'')));
  d' ← gets map_plot_date;
  mret {| ov_date := d';
          ov_table := (λ r, (Country r, (Confirmed r, Recovered r, Deaths r)))
                        <$> rows data |}.

(** *** The declared parameters

    The class declares five parameters; assigning to one goes through
    the validation of its declaration ([ListSelector] and [Selector] with
    [objects], [Boolean], [Date] with inclusive [bounds]). *)

Inductive ParamName : Type :=
  | p_countries | p_plotted_variable | p_use_log_scale | p_plot_type
  | p_map_plot_date.

Global Instance ParamName_eq_dec : EqDecision ParamName.
Proof. solve_decision. Defined.

(** An assignment [self.<param> = value]. *)
Inductive Assignment : Type :=
  | SetCountries (value : list string)
  | SetPlottedVariable (value : string)
  | SetUseLogScale (value : bool)
  | SetPlotType (value : PlotKind)
  | SetMapPlotDate (value : Z).

Definition assigned (a : Assignment) : ParamName :=
  match a with
  | SetCountries _ => p_countries
  | SetPlottedVariable _ => p_plotted_variable
  | SetUseLogScale _ => p_use_log_scale
  | SetPlotType _ => p_plot_type
  | SetMapPlotDate _ => p_map_plot_date
  end.

(** [objects=["Confirmed", "Recovered", "Deaths"]] *)
Definition plotted_variable_objects : list Metric := [MConfirmed; MRecovered; MDeaths].

Definition metric_of_name (s : string) : option Metric :=
  list_find (λ v, metric_name v = s) plotted_variable_objects ≫= λ p, Some p.2.

Definition set_countries (l : list string) (o : GreatCovidDashboard) : GreatCovidDashboard :=
  {| countries := l; countries_objects := countries_objects o;
     plotted_variable := plotted_variable o; use_log_scale := use_log_scale o;
     plot_type := plot_type o; map_plot_date := map_plot_date o;
     map_plot_date_bounds := map_plot_date_bounds o; _covid_data := _covid_data o |}.

Definition set_plotted_variable (v : Metric) (o : GreatCovidDashboard) : GreatCovidDashboard :=
  {| countries := countries o; countries_objects := countries_objects o;
     plotted_variable := v; use_log_scale := use_log_scale o;
     plot_type := plot_type o; map_plot_date := map_plot_date o;
     map_plot_date_bounds := map_plot_date_bounds o; _covid_data := _covid_data o |}.

Definition set_use_log_scale (b : bool) (o : GreatCovidDashboard) : GreatCovidDashboard :=
  {| countries := countries o; countries_objects := countries_objects o;
     plotted_variable := plotted_variable o; use_log_scale := b;
     plot_type := plot_type o; map_plot_date := map_plot_date o;
     map_plot_date_bounds := map_plot_date_bounds o; _covid_data := _covid_data o |}.

Definition set_plot_type (k : PlotKind) (o : GreatCovidDashboard) : GreatCovidDashboard :=
  {| countries := countries o; countries_objects := countries_objects o;
     plotted_variable := plotted_variable o; use_log_scale := use_log_scale o;
     plot_type := k; map_plot_date := map_plot_date o;
     map_plot_date_bounds := map_plot_date_bounds o; _covid_data := _covid_data o |}.

Definition set_map_plot_date (d : Z) (o : GreatCovidDashboard) : GreatCovidDashboard :=
  {| countries := countries o; countries_objects := countries_objects o;
     plotted_variable := plotted_variable o; use_log_scale := use_log_scale o;
     plot_type := plot_type o; map_plot_date := d;
     map_plot_date_bounds := map_plot_date_bounds o; _covid_data := _covid_data o |}.

(** Modelled from the spec: the validating assignment of the [param]
    library is not part of the repository.  Following section 4.2
    ([update(field, value)] fails if the value is outside the declared
    domain) and section 7 (the previous state is retained), a value
    outside the domain declared in the class, with the bounds and the
    choice list the object currently holds, raises and stores nothing. *)
Definition validate (o : GreatCovidDashboard) (a : Assignment)
  : result (GreatCovidDashboard → GreatCovidDashboard) :=
  match a with
  | SetCountries l =>
      if decide (Forall (λ c, c ∈ countries_objects o) l)
      then Ok (set_countries l)
      else Raise (ValueError "not in Parameter countries's list of possible objects")
  | SetPlottedVariable s =>
      match metric_of_name s with
      | Some v => Ok (set_plotted_variable v)
      | None => Raise (ValueError "not in Parameter plotted_variable's list of possible objects")
      end
  | SetUseLogScale b => Ok (set_use_log_scale b)
  | SetPlotType k => Ok (set_plot_type k)
  | SetMapPlotDate d =>
      if decide ((map_plot_date_bounds o).1 ≤ d ≤ (map_plot_date_bounds o).2)
      then Ok (set_map_plot_date d)
      else Raise (ValueError "Parameter map_plot_date must be within its bounds")
  end.

(** Modelled from the spec: [self.<param> = value], the assignment that
    the [param] library validates. *)
Definition param_set (a : Assignment) : M unit :=
  o ← gets id;
  f ← lift (validate o a);
  modify f.

(** *** Construction *)

(** The [None] that [__init__] stores in [_covid_data] before the first
    load.  Nothing reads it in between; it stands here as the frame
    without rows and without dates, on which a read raises [TypeError] as
    it does on [None]. *)
Definition empty_frame : DataFrame := Unparsed [].

(** The class attributes.  [plot_type] has no [default]: a [Selector]
    then takes the first of its objects. *)
Definition class_defaults : GreatCovidDashboard :=
  {| countries := ["Czechia"];
     countries_objects := ["Czechia"];
     plotted_variable := MConfirmed;
     use_log_scale := false;
     plot_type := px_bar;
     map_plot_date := date 2020 4 1;
     map_plot_date_bounds := (date 2020 1 1, date 2020 5 1);
     _covid_data := empty_frame |}.

Fixpoint set_params (params : list Assignment) : M unit :=
  match params with
  | [] => mret tt
  | a :: params' => param_set a;; set_params params'
  end.

Definition __init__ (w : World) (params : list Assignment) : M unit :=
  info "Initializing";;
  set_params params;;
  modify (set__covid_data empty_frame);;
  update_covid_data w;;
  df ← gets _covid_data;
  d ← lift (to_date (Series_max df));
  param_set (SetMapPlotDate d);;
  info "Initialized".

(** The call [GreatCovidDashboard(...)], with the journal so far. *)
Definition new (w : World) (params : list Assignment) (log : list event)
  : result unit * Session :=
  __init__ w params {| self := class_defaults; journal := log |}.

(** *** Dependencies and layout *)

Inductive View : Type := v_plot | v_map_plot | v_selected_day_numbers.

Global Instance View_eq_dec : EqDecision View.
Proof. solve_decision. Defined.

(** The [@param.depends(...)] decorators. *)
Definition depends (v : View) : list ParamName :=
  match v with
  | v_plot => [p_countries; p_plotted_variable; p_use_log_scale; p_plot_type]
  | v_map_plot => [p_plotted_variable; p_use_log_scale; p_map_plot_date]
  | v_selected_day_numbers => [p_map_plot_date; p_countries]
  end.

Inductive Pane : Type :=
  | HTML (text : string)
  | Method (v : View)
  | Widgets (ps : list ParamName).

Inductive Layout : Type :=
  | Item (p : Pane)
  | Row_ (items : list Pane).

(** [view] returns a [pn.Column]; its children, in order. *)
Definition view : M (list Layout) :=
  info "Creating dashboard view";;
  mret [Item (HTML "<h1>Great COVID-19 Dashboard</h1>");
        Item (Method v_selected_day_numbers);
        Row_ [Widgets [p_countries; p_plotted_variable; p_use_log_scale;
                       p_plot_type; p_map_plot_date];
              Method v_plot];
        Item (Method v_map_plot)].

Definition pane_method (p : Pane) : list View :=
  match p with
  | Method v => [v]
  | _ => []
  end.

Definition methods_of (column : list Layout) : list View :=
  column ≫= λ l,
    match l with
    | Item p => pane_method p
    | Row_ items => items ≫= pane_method
    end.

Inductive Rendering : Type :=
  | RTimeSeries (fig : TimeSeries)
  | RChoropleth (fig : Choropleth)
  | ROverview (tab : Overview).

Definition call (w : World) (v : View) : M Rendering :=
  match v with
  | v_plot => fig ← plot w; mret (RTimeSeries fig)
  | v_map_plot => fig ← map_plot w; mret (RChoropleth fig)
  | v_selected_day_numbers => tab ← selected_day_numbers w; mret (ROverview tab)
  end.

(** Calling a view on its own: an exception is caught and reported as
    the view's outcome (section 7: a view either renders fully or is not
    updated). *)
Definition attempt {A} (m : M A) : M (result A) :=
  λ s, let '(r, s') := m s in (Ok r, s').

(** Modelled from the spec: the re-invocation of views is done by the
    [panel] library, which is not part of the repository.  Each of the
    given views is called again, in order, each on its own. *)
Fixpoint recompute (w : World) (vs : list View) : M (list (View * result Rendering)) :=
  match vs with
  | [] => mret []
  | v :: vs' =>
      r ← attempt (call w v);
      rs ← recompute w vs';
      mret ((v, r) :: rs)
  end.

(** The views of a layout that declare a parameter among their
    dependencies. *)
Definition watchers (layout : list Layout) (p : ParamName) : list View :=
  filter (λ v, p ∈ depends v) (methods_of layout).

(** Whether an assignment gives its parameter another value. *)
Definition changes (o : GreatCovidDashboard) (a : Assignment) : bool :=
  match a with
  | SetCountries l => bool_decide (countries o ≠ l)
  | SetPlottedVariable s => bool_decide (Some (plotted_variable o) ≠ metric_of_name s)
  | SetUseLogScale b => bool_decide (use_log_scale o ≠ b)
  | SetPlotType k => bool_decide (plot_type o ≠ k)
  | SetMapPlotDate d => bool_decide (map_plot_date o ≠ d)
  end.

(** Modelled from the spec: what happens when the user edits a field is
    decided by the [param] and [panel] libraries, which are not part of
    the repository.  Following sections 4.2 and 9, the assignment is
    validated; once accepted, if it changed the value, the views of the
    layout whose declared dependencies contain the assigned parameter are
    called again, and no other. *)
Definition update (w : World) (layout : list Layout) (a : Assignment)
  : M (list (View * result Rendering)) :=
  old ← gets id;
  param_set a;;
  if changes old a then recompute w (watchers layout (assigned a))
  else mret [].

(** *** What a view reads

    The value of a parameter, and the three views as functions of the
    object's parameters and of the frame they draw from. *)

Inductive ParamValue : Type :=
  | VCountries (l : list string)
  | VMetric (v : Metric)
  | VBool (b : bool)
  | VPlotKind (k : PlotKind)
  | VDate (d : Z).

Definition param_value (p : ParamName) (o : GreatCovidDashboard) : ParamValue :=
  match p with
  | p_countries => VCountries (countries o)
  | p_plotted_variable => VMetric (plotted_variable o)
  | p_use_log_scale => VBool (use_log_scale o)
  | p_plot_type => VPlotKind (plot_type o)
  | p_map_plot_date => VDate (map_plot_date o)
  end.

End Dashboard.

(** ** Notions used in the statements *)

Section Notions.
Context `{Libraries}.

(** The code a country name is given: the table's, or nothing. *)
Definition code_of (country : string) : option string :=
  alpha3 <$> iso3166_table country.

(** The frame [get_covid_data] returns on a CSV that was read. *)
Definition loaded (raw : list RawRow) : DataFrame :=
  match raw with
  | [] => Unparsed []
  | _ :: _ =>
      Frame ((λ r, set_iso_alpha r (code_of (Country r))) <$> groupby_agg raw) []
  end.

(** The exception of [.date()] on a frame without rows. *)
Definition no_date (df : DataFrame) : exn :=
  match df with
  | Frame _ _ => ValueError "NaTType does not support date"
  | Unparsed _ => AttributeError "'float' object has no attribute 'date'"
  end.

Definition reload_events : list event :=
  [LogInfo logger_name "Loading COVID data"; HttpGet csv_url].

(** The object after a reload that went through. *)
Definition reloaded (df : DataFrame) (lo hi : Z) (o : GreatCovidDashboard)
  : GreatCovidDashboard :=
  set_objects (sorted (unique (Country <$> rows df)))
    (set_bounds (lo, hi) (set__covid_data df o)).

(** What the user has selected. *)
Definition selection (o : GreatCovidDashboard)
  : list string * Metric * bool * PlotKind * Z :=
  (countries o, plotted_variable o, use_log_scale o, plot_type o, map_plot_date o).

(** [df.loc[mask]] for a mask computed row by row on [df] itself. *)
Definition where_ (df : DataFrame) (P : Row → bool) : DataFrame :=
  with_rows df (take_mask (rows df) (P <$> rows df))
            ((λ c, (c.1, take_mask c.2 (P <$> rows df))) <$> derived df).

(** A further read of [covid_data] answers the cached frame and leaves
    the object as it is. *)
Definition settled (w : World) (o : GreatCovidDashboard) : Prop :=
  ∀ j, ∃ j', covid_data w {| self := o; journal := j |}
             = (Ok (_covid_data o), {| self := o; journal := j' |}).

(** The two ways a read of [covid_data] ends. *)
Inductive read_outcome (w : World) (s : Session) : result DataFrame * Session → Prop :=
  | read_ok (s' : Session) :
      settled w (self s') →
      selection (self s') = selection (self s) →
      read_outcome w s (Ok (_covid_data (self s')), s')
  | read_raise (e : exn) (s' : Session) :
      selection (self s') = selection (self s) →
      read_outcome w s (Raise e, s').

(** The views as functions of the object's selection and of the frame
    they draw from. *)
Definition plot_of (o : GreatCovidDashboard) (df : DataFrame) : TimeSeries :=
  px_plot (plot_type o)
          (where_ df (λ r, bool_decide (Country r ∈ countries o)))
          (plotted_variable o) (use_log_scale o).

Definition on_date (o : GreatCovidDashboard) (df : DataFrame) : DataFrame :=
  where_ df (λ r, bool_decide (Date r = map_plot_date o)).

Definition log_column (o : GreatCovidDashboard) : string :=
  "log(" +:+ metric_name (plotted_variable o) +:+ ")".

Definition map_plot_of (o : GreatCovidDashboard) (df : DataFrame) : Choropleth :=
  if use_log_scale o then
    px_choropleth
      (assign (on_date o df) (log_column o)
              (np_log10 <$> (metric (plotted_variable o) <$> rows (on_date o df))))
      (log_column o)
  else px_choropleth (on_date o df) (metric_name (plotted_variable o)).

Definition selected_day_numbers_of (o : GreatCovidDashboard) (df : DataFrame)
  : Overview :=
  {| ov_date := map_plot_date o;
     ov_table :=
       (λ r, (Country r, (Confirmed r, Recovered r, Deaths r))) <$>
         rows (where_ df (λ r, bool_decide (Date r = map_plot_date o)
                               && bool_decide (Country r ∈ countries o))) |}.

Definition view_of (v : View) (o : GreatCovidDashboard) (df : DataFrame) : Rendering :=
  match v with
  | v_plot => RTimeSeries (plot_of o df)
  | v_map_plot => RChoropleth (map_plot_of o df)
  | v_selected_day_numbers => ROverview (selected_day_numbers_of o df)
  end.

(** The choices of [countries] are those of the cached frame, as
    [update_covid_data] sets them. *)
Definition choices_current (o : GreatCovidDashboard) : Prop :=
  countries_objects o = sorted (unique (Country <$> rows (_covid_data o))).


(** *** The wording of the specification *)

(** Section 3: the dataset is stale if its most recent date is more than
    one day older than the current date. *)
Definition more_than_one_day_older (w : World) (df : DataFrame) : Prop :=
  ∃ m, Date_max df = Some m ∧ 1 < today w - m.

Global Instance more_than_one_day_older_dec (w : World) (df : DataFrame) :
  Decision (more_than_one_day_older w df).
Proof.
  unfold more_than_one_day_older.
  destruct (Date_max df) as [m|].
  - destruct (decide (1 < today w - m)) as [Hm|Hm].
    + left. by exists m.
    + right. intros (m' & [= <-] & Hm'). by apply Hm.
  - right. intros (m' & [=] & _).
Defined.

(** The cached frame has dates, the most recent one at most one day
    older than today. *)
Definition fresh (w : World) (df : DataFrame) : Prop :=
  ∃ m, Date_max df = Some m ∧ today w - m ≤ 1.

(** The data can be read: the cache is fresh, or it is stale and the file
    is there and gives a frame with rows. *)
Definition readable (w : World) (s : Session) : Prop :=
  fresh w (_covid_data (self s)) ∨
  more_than_one_day_older w (_covid_data (self s)) ∧
  ∃ raw, remote w = Ok raw ∧ rows (loaded raw) ≠ [].

(** Section 3: a value outside new bounds is clamped. *)
Definition clamp (bounds : Z * Z) (d : Z) : Z :=
  Z.max bounds.1 (Z.min bounds.2 d).

Definition within (bounds : Z * Z) (d : Z) : Prop :=
  bounds.1 ≤ d ≤ bounds.2.

(** Sections 4.2 and 7: a value outside the declared domain of its field. *)
Definition outside_domain (o : GreatCovidDashboard) (a : Assignment) : Prop :=
  match a with
  | SetCountries l => ∃ c, c ∈ l ∧ c ∉ countries_objects o
  | SetPlottedVariable s => s ∉ metric_name <$> plotted_variable_objects
  | SetUseLogScale _ => False
  | SetPlotType _ => False
  | SetMapPlotDate d => ¬ within (map_plot_date_bounds o) d
  end.

(** Section 3: one row per (country, date). *)
Definition one_row_per_key (df : DataFrame) : Prop :=
  NoDup (row_key <$> rows df).

Definition with_log_scale (b : bool) (s : Session) : Session :=
  {| self := set_use_log_scale b (self s); journal := journal s |}.

(** A method keeps a property of the cached frame. *)
Definition keeps (P : DataFrame → Prop) {A} (m : M A) : Prop :=
  ∀ s, P (_covid_data (self s)) → P (_covid_data (self (m s).2)).

(** *** The states a dashboard goes through *)

Inductive Call : Type :=
  | call_update_covid_data
  | call_covid_data
  | call_plot
  | call_map_plot
  | call_selected_day_numbers
  | call_view
  | call_param_set (a : Assignment)
  | call_update (layout : list Layout) (a : Assignment).

(** The session after a call; an exception leaves what was done. *)
Definition after (w : World) (c : Call) (s : Session) : Session :=
  match c with
  | call_update_covid_data => (update_covid_data w s).2
  | call_covid_data => (covid_data w s).2
  | call_plot => (plot w s).2
  | call_map_plot => (map_plot w s).2
  | call_selected_day_numbers => (selected_day_numbers w s).2
  | call_view => (view s).2
  | call_param_set a => (param_set a s).2
  | call_update layout a => (update w layout a s).2
  end.

Inductive reachable : Session → Prop :=
  | reachable_new w params log s :
      new w params log = (Ok tt, s) → reachable s
  | reachable_after w c s :
      reachable s → reachable (after w c s).

End Notions.

(** ** The simple dashboard [CovidDashboard]

    The first half of the notebook: the frame [covid_data] built once when
    the cell runs, and the class [CovidDashboard] that plots it. *)

Module CovidDashboard.
Section Simple.
Context `{Libraries}.

(** A row of the module-level frame: the keys and the three sums. *)
Record Row : Type := {
  Country : string;
  Date : Z;
  Confirmed : number float64;
  Recovered : number float64;
  Deaths : number float64;
}.

(** [covid_data_raw.groupby(["Country", "Date"])
      [["Confirmed", "Recovered", "Deaths"]].agg("sum").reset_index()],
    on the parsed CSV. *)
Definition covid_data (covid_data_raw : list RawRow) : list Row :=
  (λ k, {| Country := k.1;
           Date := k.2;
           Confirmed := agg_sum (raw_Confirmed <$> covid_data_raw)
                                (raw_Confirmed <$> group_of k covid_data_raw);
           Recovered := agg_sum (raw_Recovered <$> covid_data_raw)
                                (raw_Recovered <$> group_of k covid_data_raw);
           Deaths := agg_sum (raw_Deaths <$> covid_data_raw)
                             (raw_Deaths <$> group_of k covid_data_raw) |})
    <$> group_keys covid_data_raw.

(** The parameter values of an instance. *)
Record t : Type := {
  countries : list string;
  plotted_variable : Metric;
  use_log_scale : bool;
  plot_type : PlotKind;
}.

(** [objects=sorted(covid_data["Country"].unique())], fixed when the class
    is created. *)
Definition countries_objects (covid_data : list Row) : list string :=
  sorted (unique (Country <$> covid_data)).

Definition defaults : t :=
  {| countries := ["Czechia"];
     plotted_variable := MConfirmed;
     use_log_scale := false;
     plot_type := px_bar |}.

Definition metric (v : Metric) (r : Row) : number float64 :=
  match v with
  | MConfirmed => Confirmed r
  | MRecovered => Recovered r
  | MDeaths => Deaths r
  end.

(** [px.bar] / [px.line] on this frame, as for the other class. *)
Definition px_plot (kind : PlotKind) (df : list Row) (y : Metric) (log_y : bool)
  : TimeSeries :=
  {| ts_kind := kind;
     ts_traces :=
       (λ c, {| trace_name := c;
                trace_points :=
                  (λ r, (Date r, metric y r)) <$> filter (λ r, Country r = c) df |})
         <$> unique (Country <$> df);
     ts_y := metric_name y;
     ts_log_y := log_y |}.

(** [plot]: the frame and the mask are the same module-level frame, so
    the mask always fits. *)
Definition plot (covid_data : list Row) (self : t) : TimeSeries :=
  px_plot (plot_type self)
          (take_mask covid_data
             ((λ r, bool_decide (Country r ∈ countries self)) <$> covid_data))
          (plotted_variable self)
          (use_log_scale self).

End Simple.
End CovidDashboard.

(** ** Further notions used in the statements *)

Section MoreNotions.
Context `{Libraries}.

(** The sum of a list of integers, without bound. *)
Definition column_total (l : list Z) : Z := foldr Z.add 0 l.

(** The lines that [groupby] keeps: those with a country and a date. *)
Definition keyed (raw : list RawRow) : list RawRow :=
  filter (λ x, is_Some (raw_key x)) raw.

(** The cells of an [int64] column of a frame. *)
Definition int64_cells (l : list (number float64)) : list int64 :=
  omap (λ n, match n with Int i => Some i | Float _ => None end) l.

(** The requests recorded in a journal. *)
Definition requests (j : list event) : nat :=
  length (filter (λ e, e = HttpGet csv_url) j).

(** The ways an object changes: a reload that goes through, a load of a
    file that gives no rows (the cache is replaced, then [date()] raises), and an
    accepted assignment. *)
Inductive step : GreatCovidDashboard → GreatCovidDashboard → Prop :=
  | step_reload o raw lo hi :
      Date_min (loaded raw) = Some lo →
      Date_max (loaded raw) = Some hi →
      step o (reloaded (loaded raw) lo hi o)
  | step_blank o raw :
      rows (loaded raw) = [] →
      step o (set__covid_data (loaded raw) o)
  | step_assign o a f :
      validate o a = Ok f →
      step o (f o).

(** A method changes the object only by such steps. *)
Definition moves {A} (m : M A) : Prop :=
  ∀ s, rtc step (self s) (self (m s).2).

(** The simple and the enhanced object show the same selection. *)
Definition same_selection (o : CovidDashboard.t) (g : GreatCovidDashboard) : Prop :=
  CovidDashboard.countries o = countries g ∧
  CovidDashboard.plotted_variable o = plotted_variable g ∧
  CovidDashboard.use_log_scale o = use_log_scale g ∧
  CovidDashboard.plot_type o = plot_type g.

(** The columns the two frames share. *)
Definition basic (r : Row) : CovidDashboard.Row :=
  {| CovidDashboard.Country := Country r;
     CovidDashboard.Date := Date r;
     CovidDashboard.Confirmed := Confirmed r;
     CovidDashboard.Recovered := Recovered r;
     CovidDashboard.Deaths := Deaths r |}.

End MoreNotions.

(** ** Sample data

    A small instance of the libraries and two states of the remote file,
    used by the examples below. *)

Module Sample.

(** Floats written as decimals.  Whole numbers are added as such; other
    sums and [log10] are left symbolic. *)
Inductive float : Type :=
  | Dec (digits exponent : Z)
  | Plus (a b : float)
  | Log10 (x : float).

Definition plus (a b : float) : float :=
  match a, b with
  | Dec m 0, Dec n 0 => Dec (m + n) 0
  | _, _ => Plus a b
  end.

Definition log10 (n : number float) : float :=
  match n with
  | Int i => Log10 (Dec (int64_val i) 0)
  | Float x => Log10 x
  end.

Definition table (key : string) : option iso3166_Country :=
  if decide (key = "Czechia") then
    Some {| name := "Czechia"; alpha2 := "CZ"; alpha3 := "CZE"; numeric := "203" |}
  else if decide (key = "Slovakia") then
    Some {| name := "Slovakia"; alpha2 := "SK"; alpha3 := "SVK"; numeric := "703" |}
  else if decide (key = "Australia") then
    Some {| name := "Australia"; alpha2 := "AU"; alpha3 := "AUS"; numeric := "036" |}
  else None.

Definition libraries : Libraries :=
  {| float64 := float;
     csv_float := λ i, Dec (int64_val i) 0;
     float64_sum := foldl plus (Dec 0 0);
     np_log10 := log10;
     iso3166_table := table |}.

Section Data.
Local Existing Instance libraries.

Definition line (d : Z) (country : string) (state : option string)
    (confirmed : Z) (recovered : option Z) (deaths : Z) (lat long : float) : RawRow :=
  {| raw_Date := Some d; raw_Country := Some country; raw_State := state;
     raw_Confirmed := Some (i64 confirmed); raw_Recovered := i64 <$> recovered;
     raw_Deaths := Some (i64 deaths); raw_Lat := Some lat; raw_Long := Some long |}.

(** The file in April: two days, a country split in two states, a name
    ([Diamond Princess]) that has no ISO code, and one empty cell in the
    column [Recovered], which is therefore a column of floats. *)
Definition csv_april : list RawRow :=
  [ line (date 2020 4 1) "Slovakia" None 500 (Some 3) 1 (Dec 48669 (-3)) (Dec 19699 (-3));
    line (date 2020 4 1) "Czechia" None 1000 (Some 61) 39 (Dec 498175 (-4)) (Dec 15473 (-3));
    line (date 2020 4 1) "Australia" (Some "New South Wales") 2182 None 9
         (Dec (-338688) (-4)) (Dec 1512093 (-4));
    line (date 2020 4 1) "Australia" (Some "Victoria") 968 (Some 343) 4
         (Dec (-378136) (-4)) (Dec 1449631 (-4));
    line (date 2020 4 1) "Diamond Princess" None 712 (Some 603) 11 (Dec 0 0) (Dec 0 0);
    line (date 2020 4 2) "Slovakia" None 550 (Some 3) 1 (Dec 48669 (-3)) (Dec 19699 (-3));
    line (date 2020 4 2) "Czechia" None 1100 (Some 71) 44 (Dec 498175 (-4)) (Dec 15473 (-3)) ].

(** The file in June, after its history was cut to the last two days. *)
Definition csv_june : list RawRow :=
  [ line (date 2020 6 1) "Czechia" None 9302 (Some 6586) 321 (Dec 498175 (-4)) (Dec 15473 (-3));
    line (date 2020 6 2) "Czechia" None 9364 (Some 6642) 323 (Dec 498175 (-4)) (Dec 15473 (-3));
    line (date 2020 6 2) "Slovakia" None 1522 (Some 1372) 28 (Dec 48669 (-3)) (Dec 19699 (-3)) ].

(** The file two days later: one more day of data. *)
Definition csv_april_3 : list RawRow :=
  csv_april ++
  [ line (date 2020 4 3) "Slovakia" None 600 (Some 5) 1 (Dec 48669 (-3)) (Dec 19699 (-3));
    line (date 2020 4 3) "Czechia" None 1200 (Some 78) 53 (Dec 498175 (-4)) (Dec 15473 (-3)) ].

Definition april : World := {| today := date 2020 4 3; remote := Ok csv_april |}.
Definition april_5 : World := {| today := date 2020 4 5; remote := Ok csv_april_3 |}.
Definition june : World := {| today := date 2020 6 3; remote := Ok csv_june |}.

(** The dashboard created in April with the notebook's call
    [GreatCovidDashboard()]. *)
Definition dashboard : Session := (new april [] []).2.

Definition layout : list Layout :=
  match (view dashboard).1 with
  | Ok l => l
  | Raise _ => []
  end.

(** The figure of the specification's example: Czechia alone, by
    confirmed cases. *)
Definition czechia_confirmed : TimeSeries :=
  {| ts_kind := px_bar;
     ts_traces := [ {| trace_name := "Czechia";
                       trace_points := [(date 2020 4 1, Int (i64 1000));
                                        (date 2020 4 2, Int (i64 1100))] |} ];
     ts_y := "Confirmed";
     ts_log_y := false |}.

(** The table of 2 April for Czechia and Slovakia. *)
Definition both : Session :=
  (param_set (SetCountries ["Slovakia"; "Czechia"]) dashboard).2.

Definition table_2_april : Overview :=
  {| ov_date := date 2020 4 2;
     ov_table := [("Czechia", (Int (i64 1100), Float (Dec 71 0), Int (i64 44)));
                  ("Slovakia", (Int (i64 550), Float (Dec 3 0), Int (i64 1)))] |}.

(** The map of 2 April with the log scale on. *)
Definition row_2_april (country iso : string) (confirmed recovered deaths : Z)
    (lat long : float) : Row :=
  {| Country := country; Date := date 2020 4 2; Confirmed := Int (i64 confirmed);
     Recovered := Float (Dec recovered 0); Deaths := Int (i64 deaths);
     Lat := Some lat; Long := Some long; iso_alpha := Some iso |}.

Definition rows_2_april : list Row :=
  [ row_2_april "Czechia" "CZE" 1100 71 44 (Dec 498175 (-4)) (Dec 15473 (-3));
    row_2_april "Slovakia" "SVK" 550 3 1 (Dec 48669 (-3)) (Dec 19699 (-3)) ].

Definition log_map_2_april : Choropleth :=
  {| ch_data := Frame rows_2_april
                      [("log(Confirmed)", [Log10 (Dec 1100 0); Log10 (Dec 550 0)])];
     ch_locations := "iso_alpha";
     ch_color := "log(Confirmed)";
     ch_hover_name := "Country";
     ch_hover_data := ["Confirmed"; "Recovered"; "Deaths"] |}.

End Data.
End Sample.

(** More states of the world: no network, a file without lines, a file
    that stays behind, and files with empty cells. *)
Module More.
Section Data.
Local Existing Instance Sample.libraries.

Definition offline : World :=
  {| today := date 2020 6 3; remote := Raise (IOError "URLError") |}.

Definition blank : World := {| today := date 2020 6 3; remote := Ok [] |}.

Definition behind : World :=
  {| today := date 2020 6 3; remote := Ok Sample.csv_april |}.

(** A file without Czechia. *)
Definition csv_slovakia : list RawRow :=
  [ Sample.line (date 2020 4 1) "Slovakia" None 500 (Some 3) 1
      (Sample.Dec 48669 (-3)) (Sample.Dec 19699 (-3)) ].

Definition slovakia_only : World :=
  {| today := date 2020 4 2; remote := Ok csv_slovakia |}.

(** The dashboard of April after a reload, in June, of a file without
    lines. *)
Definition dateless : Session := (update_covid_data blank Sample.dashboard).2.

(** The selection of Australia and Czechia, made in April among the
    countries then known. *)
Definition two_countries : Session :=
  (param_set (SetCountries ["Australia"; "Czechia"]) Sample.dashboard).2.

(** A file with a line that has no country and a line that has no date. *)
Definition csv_gaps : list RawRow :=
  [ Sample.line (date 2020 6 2) "Czechia" None 9364 (Some 6642) 323
      (Sample.Dec 498175 (-4)) (Sample.Dec 15473 (-3));
    {| raw_Date := Some (date 2020 6 2); raw_Country := None; raw_State := None;
       raw_Confirmed := Some (i64 5); raw_Recovered := Some (i64 0);
       raw_Deaths := Some (i64 0); raw_Lat := None; raw_Long := None |};
    {| raw_Date := None; raw_Country := Some "Slovakia"; raw_State := None;
       raw_Confirmed := Some (i64 7); raw_Recovered := Some (i64 0);
       raw_Deaths := Some (i64 0); raw_Lat := None; raw_Long := None |} ].

(** Two provinces whose counts add up beyond the 64-bit range. *)
Definition csv_large : list RawRow :=
  [ Sample.line (date 2020 6 2) "Czechia" (Some "A") (2 ^ 62) (Some 1) 0
      (Sample.Dec 498175 (-4)) (Sample.Dec 15473 (-3));
    Sample.line (date 2020 6 2) "Czechia" (Some "B") (2 ^ 62) (Some 1) 0
      (Sample.Dec 498175 (-4)) (Sample.Dec 15473 (-3)) ].

End Data.
End More.

Global Arguments Series_min : simpl never.
Global Arguments Series_max : simpl never.
Global Arguments Date_min : simpl never.
Global Arguments Date_max : simpl never.
Global Arguments loaded : simpl never.
Global Arguments sorted : simpl never.
Global Arguments unique : simpl never.
Global Arguments aggregate : simpl never.
Global Arguments is_stale : simpl never.
Global Arguments where_ : simpl never.
Global Arguments get_covid_data : simpl never.
Global Arguments update_covid_data : simpl never.
Global Arguments covid_data : simpl never.
Global Arguments plot : simpl never.
Global Arguments map_plot : simpl never.
Global Arguments selected_day_numbers : simpl never.
Global Arguments plot_of : simpl never.
Global Arguments map_plot_of : simpl never.
Global Arguments selected_day_numbers_of : simpl never.

(** * Properties *)

(** ** Lists *)

Section Lists.
Context {A : Type} `{EqDecision A}.

Lemma elem_of_unique (l : list A) (x : A) : x ∈ unique l ↔ x ∈ l.
Proof.
  unfold unique. rewrite elem_of_reverse, elem_of_remove_dups.
  apply elem_of_reverse.
Qed.

Lemma NoDup_unique (l : list A) : NoDup (unique l).
Proof. unfold unique. rewrite reverse_Permutation. apply NoDup_remove_dups. Qed.

Lemma take_mask_fmap (P : A → bool) (l : list A) :
  take_mask l (P <$> l) = filter (λ x, P x = true) l.
Proof.
  induction l as [|x l IH]; [done|].
  cbn [fmap list_fmap take_mask]. rewrite IH.
  destruct (P x) eqn:HP.
  - by rewrite filter_cons_True.
  - rewrite filter_cons_False; [done|]. by rewrite HP.
Qed.

Lemma mask_and_fmap (P Q : A → bool) (l : list A) :
  mask_and (P <$> l) (Q <$> l) = (λ x, P x && Q x) <$> l.
Proof. induction l as [|x l IH]; [done|]. cbn. by rewrite IH. Qed.

(** With distinct images under [f], at most one element has a given image. *)
Lemma NoDup_fmap_filter_length {B} `{EqDecision B} (f : A → B) (l : list A) (b : B) :
  NoDup (f <$> l) → (length (filter (λ x, f x = b) l) ≤ 1)%nat.
Proof.
  induction l as [|x l IH]; [cbn; lia|].
  rewrite fmap_cons, NoDup_cons. intros [Hx Hl].
  destruct (decide (f x = b)) as [Hb|Hb].
  - rewrite filter_cons_True by done. cbn.
    assert (filter (λ y, f y = b) l = []) as ->; [|cbn; lia].
    destruct (filter (λ y, f y = b) l) as [|y l'] eqn:Hf; [done|].
    exfalso. apply Hx.
    assert (y ∈ filter (λ y, f y = b) l) as Hy by (rewrite Hf; left).
    apply list_elem_of_filter in Hy as [Hy1 Hy2].
    rewrite Hb, <- Hy1. by apply list_elem_of_fmap_2.
  - rewrite filter_cons_False by done. by apply IH.
Qed.

Lemma filter_fmap {B} (f : A → B) (P : B → Prop) `{∀ b, Decision (P b)} (l : list A) :
  filter P (f <$> l) = f <$> filter (λ x, P (f x)) l.
Proof.
  induction l as [|x l IH]; [done|].
  rewrite fmap_cons, !filter_cons, IH. by destruct (decide (P (f x))).
Qed.

End Lists.

(** ** The loader *)

Section LoaderFacts.
Context `{Libraries}.

Lemma country_alpha3_ok (country : string) :
  country_alpha3 country = Ok (code_of country).
Proof.
  unfold country_alpha3, iso3166_countries_get, code_of.
  by destruct (iso3166_table country).
Qed.

Lemma assign_iso_alpha_ok (rs : list Row) :
  assign_iso_alpha rs = Ok ((λ r, set_iso_alpha r (code_of (Country r))) <$> rs).
Proof.
  unfold assign_iso_alpha. induction rs as [|r rs IH]; [done|].
  cbn [result_map]. rewrite IH, country_alpha3_ok. done.
Qed.

Lemma aggregate_ok (raw : list RawRow) : aggregate raw = Ok (loaded raw).
Proof. unfold aggregate. rewrite assign_iso_alpha_ok. by destruct raw. Qed.

Lemma rows_loaded (raw : list RawRow) :
  rows (loaded raw)
  = (λ r, set_iso_alpha r (code_of (Country r))) <$> groupby_agg raw.
Proof. by destruct raw. Qed.

Lemma NoDup_group_keys (raw : list RawRow) : NoDup (group_keys raw).
Proof.
  unfold group_keys. rewrite merge_sort_Permutation. apply NoDup_unique.
Qed.

Lemma elem_of_group_keys (raw : list RawRow) (k : string * Z) :
  k ∈ group_keys raw ↔ Some k ∈ raw_key <$> raw.
Proof.
  unfold group_keys.
  rewrite merge_sort_Permutation, elem_of_unique, list_elem_of_omap, list_elem_of_fmap.
  split; intros (x & Hx1 & Hx2); by exists x.
Qed.

Lemma loaded_keys (raw : list RawRow) :
  row_key <$> rows (loaded raw) = group_keys raw.
Proof.
  rewrite rows_loaded. unfold groupby_agg.
  rewrite <- !list_fmap_compose.
  rewrite <- (list_fmap_id (group_keys raw)) at 2.
  apply list_fmap_ext. intros _ [c d] _. done.
Qed.

Lemma loaded_iso_alpha (raw : list RawRow) (r : Row) :
  r ∈ rows (loaded raw) → iso_alpha r = code_of (Country r).
Proof.
  rewrite rows_loaded. intros (r' & -> & _)%list_elem_of_fmap. done.
Qed.

Lemma loaded_derived (raw : list RawRow) : derived (loaded raw) = [].
Proof. by destruct raw. Qed.

Lemma get_covid_data_eq (w : World) (s : Session) :
  get_covid_data w s =
    let s' := {| self := self s; journal := journal s ++ [HttpGet csv_url] |} in
    match remote w with
    | Ok raw => (Ok (loaded raw), s')
    | Raise e => (Raise e, s')
    end.
Proof.
  unfold get_covid_data, mbind, M_bind, bind, emit, lift. cbn.
  destruct (remote w) as [raw|e]; [|done]. by rewrite aggregate_ok.
Qed.

End LoaderFacts.

(** ** Reloading and reading the data *)

Section DataFacts.
Context `{Libraries}.

Lemma Date_min_None (df : DataFrame) : Date_min df = None ↔ rows df = [].
Proof. unfold Date_min. by destruct (rows df). Qed.

Lemma Date_max_None (df : DataFrame) : Date_max df = None ↔ rows df = [].
Proof. unfold Date_max. by destruct (rows df). Qed.

Lemma to_date_min (df : DataFrame) :
  to_date (Series_min df)
  = match Date_min df with Some lo => Ok lo | None => Raise (no_date df) end.
Proof.
  unfold Series_min. destruct df as [rs cols|cols]; [|done].
  by destruct (Date_min _).
Qed.

Lemma to_date_max (df : DataFrame) :
  to_date (Series_max df)
  = match Date_max df with Some hi => Ok hi | None => Raise (no_date df) end.
Proof.
  unfold Series_max. destruct df as [rs cols|cols]; [|done].
  by destruct (Date_max _).
Qed.

Lemma update_covid_data_eq (w : World) (s : Session) :
  update_covid_data w s =
    let j := journal s ++ reload_events in
    match remote w with
    | Raise e => (Raise e, {| self := self s; journal := j |})
    | Ok raw =>
        match Date_min (loaded raw), Date_max (loaded raw) with
        | Some lo, Some hi =>
            (Ok tt, {| self := reloaded (loaded raw) lo hi (self s); journal := j |})
        | _, _ =>
            (Raise (no_date (loaded raw)),
             {| self := set__covid_data (loaded raw) (self s); journal := j |})
        end
    end.
Proof.
  unfold update_covid_data, mbind, M_bind, bind at 1.
  unfold info at 1, emit at 1. unfold bind at 1.
  rewrite get_covid_data_eq. cbn [self journal].
  rewrite <- app_assoc. cbn [app]. fold reload_events.
  destruct (remote w) as [raw|e]; [|done].
  cbn. rewrite to_date_min.
  destruct (Date_min (loaded raw)) as [lo|] eqn:Hlo; cbn.
  - rewrite to_date_max.
    destruct (Date_max (loaded raw)) as [hi|] eqn:Hhi; cbn.
    + done.
    + done.
  - done.
Qed.

Lemma covid_data_eq (w : World) (s : Session) :
  covid_data w s =
    match is_stale w (_covid_data (self s)) with
    | Ok true =>
        match update_covid_data w s with
        | (Ok _, s') => (Ok (_covid_data (self s')), s')
        | (Raise e, s') => (Raise e, s')
        end
    | Ok false => (Ok (_covid_data (self s)), s)
    | Raise e => (Raise e, s)
    end.
Proof.
  unfold covid_data, mbind, M_bind, bind, gets, lift. cbn.
  destruct (is_stale w (_covid_data (self s))) as [[]|e]; [|done..].
  by destruct (update_covid_data w s) as [[[]|e] s'].
Qed.

(** The test on a frame that has dates. *)
Lemma is_stale_dated (w : World) (df : DataFrame) (m : Z) :
  Date_max df = Some m → is_stale w df = Ok (bool_decide (m < today w - 1)).
Proof.
  unfold is_stale, Series_max. destruct df as [rs cols|cols]; [|done].
  by intros ->.
Qed.

Lemma is_stale_spec (w : World) (df : DataFrame) :
  is_stale w df = Ok true ↔ more_than_one_day_older w df.
Proof.
  unfold more_than_one_day_older. split.
  - unfold is_stale, Series_max. destruct df as [rs cols|cols]; [|done].
    destruct (Date_max _) as [m|]; [|done]. cbn.
    intros [= Hm%bool_decide_eq_true]. exists m. split; [done|lia].
  - intros (m & Hm & Hlt). rewrite (is_stale_dated w df m Hm).
    f_equal. apply bool_decide_eq_true. lia.
Qed.

Lemma is_stale_fresh (w : World) (df : DataFrame) :
  fresh w df → is_stale w df = Ok false.
Proof.
  intros (m & Hm & Hle). rewrite (is_stale_dated w df m Hm).
  f_equal. apply bool_decide_eq_false. lia.
Qed.

(** Without dates more than a day old, the test answers no or raises. *)
Lemma is_stale_not_older (w : World) (df : DataFrame) :
  ¬ more_than_one_day_older w df →
  is_stale w df = Ok false ∨ ∃ e, is_stale w df = Raise e.
Proof.
  intros Hn. destruct (is_stale w df) as [[]|e] eqn:Hst.
  - by apply is_stale_spec in Hst.
  - by left.
  - right. by exists e.
Qed.

(** Where the test does not raise, the cached frame holds dates. *)
Lemma is_stale_Ok_dt_date (w : World) (df : DataFrame) (b : bool) :
  is_stale w df = Ok b → dt_date df = Ok (Date <$> rows df).
Proof. by destruct df. Qed.

Lemma covid_data_fresh (w : World) (s : Session) :
  is_stale w (_covid_data (self s)) = Ok false →
  covid_data w s = (Ok (_covid_data (self s)), s).
Proof. intros Hf. by rewrite covid_data_eq, Hf. Qed.

(** A read that raises at the test changes nothing. *)
Lemma covid_data_unreadable (w : World) (s : Session) (e : exn) :
  is_stale w (_covid_data (self s)) = Raise e →
  covid_data w s = (Raise e, s).
Proof. intros Hf. by rewrite covid_data_eq, Hf. Qed.

Lemma settled_fresh (w : World) (o : GreatCovidDashboard) :
  is_stale w (_covid_data o) = Ok false → settled w o.
Proof. intros Hf j. exists j. by rewrite covid_data_fresh. Qed.

Lemma settled_reloaded (w : World) (raw : list RawRow) (lo hi : Z)
    (o : GreatCovidDashboard) :
  remote w = Ok raw →
  Date_min (loaded raw) = Some lo → Date_max (loaded raw) = Some hi →
  settled w (reloaded (loaded raw) lo hi o).
Proof.
  intros Hr Hlo Hhi j. rewrite covid_data_eq.
  cbn [self reloaded set_objects set_bounds set__covid_data _covid_data].
  rewrite (is_stale_dated w _ hi Hhi).
  destruct (bool_decide _); [|by eexists].
  rewrite update_covid_data_eq, Hr. cbn zeta. rewrite Hlo, Hhi. by eexists.
Qed.

Lemma settled_dt_date (w : World) (o : GreatCovidDashboard) :
  settled w o → dt_date (_covid_data o) = Ok (Date <$> rows (_covid_data o)).
Proof.
  intros Hset. destruct (Hset []) as [j Hj]. rewrite covid_data_eq in Hj.
  cbn [self] in Hj.
  destruct (is_stale w (_covid_data o)) as [b|e] eqn:Hst; [|done].
  by eapply is_stale_Ok_dt_date.
Qed.

Lemma covid_data_outcome (w : World) (s : Session) :
  read_outcome w s (covid_data w s).
Proof.
  rewrite covid_data_eq.
  destruct (is_stale w (_covid_data (self s))) as [[]|e] eqn:Hst.
  - rewrite update_covid_data_eq. cbn zeta.
    destruct (remote w) as [raw|e] eqn:Hr; [|by constructor].
    destruct (Date_min (loaded raw)) as [lo|] eqn:Hlo;
      [destruct (Date_max (loaded raw)) as [hi|] eqn:Hhi|];
      [|by constructor..].
    apply (read_ok w s (Build_Session _ _ _)); [|done].
    by apply settled_reloaded.
  - constructor; [by apply settled_fresh|done].
  - by constructor.
Qed.

Lemma Date_min_spec (df : DataFrame) (lo : Z) :
  Date_min df = Some lo →
  lo ∈ Date <$> rows df ∧ ∀ r, r ∈ rows df → lo ≤ Date r.
Proof.
  unfold Date_min. revert lo.
  induction (rows df) as [|r l IH]; intros lo; [done|].
  cbn [foldr]. intros [= <-].
  destruct (foldr _ None l) as [m|] eqn:Hm; cbn [from_option].
  - destruct (IH m eq_refl) as [Hin Hle]. split.
    + rewrite fmap_cons.
      destruct (Z.min_spec (Date r) m) as [[_ ->]|[_ ->]]; [left|by right].
    + intros r' [->|Hr']%elem_of_cons; [lia|]. specialize (Hle r' Hr'). lia.
  - destruct l; [|done]. split; [rewrite fmap_cons; left|].
    by intros r' ->%list_elem_of_singleton.
Qed.

Lemma Date_max_spec (df : DataFrame) (hi : Z) :
  Date_max df = Some hi →
  hi ∈ Date <$> rows df ∧ ∀ r, r ∈ rows df → Date r ≤ hi.
Proof.
  unfold Date_max. revert hi.
  induction (rows df) as [|r l IH]; intros hi; [done|].
  cbn [foldr]. intros [= <-].
  destruct (foldr _ None l) as [m|] eqn:Hm; cbn [from_option].
  - destruct (IH m eq_refl) as [Hin Hle]. split.
    + rewrite fmap_cons.
      destruct (Z.max_spec (Date r) m) as [[_ ->]|[_ ->]]; [by right|left].
    + intros r' [->|Hr']%elem_of_cons; [lia|]. specialize (Hle r' Hr'). lia.
  - destruct l; [|done]. split; [rewrite fmap_cons; left|].
    by intros r' ->%list_elem_of_singleton.
Qed.

Lemma covid_data_returns_cache (w : World) (s s' : Session) (df : DataFrame) :
  covid_data w s = (Ok df, s') → df = _covid_data (self s').
Proof.
  intros Heq. pose proof (covid_data_outcome w s) as Ho.
  rewrite Heq in Ho. by inversion Ho.
Qed.

(** A line with a country and a date has its key among the rows. *)
Lemma loaded_covers (raw : list RawRow) (x : RawRow) (k : string * Z) :
  x ∈ raw → raw_key x = Some k →
  ∃ r, r ∈ rows (loaded raw) ∧ row_key r = k.
Proof.
  intros Hx Hk.
  assert (k ∈ row_key <$> rows (loaded raw)) as Hin.
  { rewrite loaded_keys, elem_of_group_keys, <- Hk. by apply list_elem_of_fmap_2. }
  apply list_elem_of_fmap in Hin as (r & Hr & Hin). by exists r.
Qed.

Lemma loaded_dated (raw : list RawRow) :
  rows (loaded raw) ≠ [] →
  ∃ lo hi, Date_min (loaded raw) = Some lo ∧ Date_max (loaded raw) = Some hi.
Proof.
  intros Hrows.
  destruct (Date_min (loaded raw)) as [lo|] eqn:Hlo.
  2:{ by apply Date_min_None in Hlo. }
  destruct (Date_max (loaded raw)) as [hi|] eqn:Hhi.
  2:{ by apply Date_max_None in Hhi. }
  by exists lo, hi.
Qed.

(** Where the data can be read, a read of [covid_data] returns. *)
Lemma covid_data_returns (w : World) (s : Session) :
  readable w s → ∃ df s', covid_data w s = (Ok df, s').
Proof.
  intros [Hf|[Hst (raw & Hr & Hne)]]; rewrite covid_data_eq.
  - rewrite (is_stale_fresh _ _ Hf). by eexists _, _.
  - apply is_stale_spec in Hst. rewrite Hst.
    rewrite update_covid_data_eq, Hr. cbn zeta.
    destruct (loaded_dated raw Hne) as (lo & hi & -> & ->).
    by eexists _, _.
Qed.

Lemma one_row_per_key_loaded (raw : list RawRow) : one_row_per_key (loaded raw).
Proof. unfold one_row_per_key. rewrite loaded_keys. apply NoDup_group_keys. Qed.

End DataFacts.

(** ** The views *)

Section ViewFacts.
Context `{Libraries}.

Lemma loc_where_ (df : DataFrame) (P : Row → bool) :
  loc df (P <$> rows df) = Ok (where_ df P).
Proof.
  unfold loc. rewrite length_fmap. by rewrite decide_True by lia.
Qed.

Lemma rows_where_mask (df : DataFrame) (P : Row → bool) :
  rows (where_ df P) = take_mask (rows df) (P <$> rows df).
Proof. by destruct df. Qed.

Lemma rows_where_ (df : DataFrame) (P : Row → bool) :
  rows (where_ df P) = filter (λ r, P r = true) (rows df).
Proof. rewrite rows_where_mask. apply take_mask_fmap. Qed.

Lemma rows_assign (df : DataFrame) (col : string) (values : list float64) :
  rows (assign df col values) = rows df.
Proof. by destruct df. Qed.

Lemma derived_assign (df : DataFrame) (col : string) (values : list float64) :
  derived (assign df col values)
  = filter (λ c, c.1 ≠ col) (derived df) ++ [(col, values)].
Proof. by destruct df. Qed.

Lemma loc_on_date (df : DataFrame) (d : Z) :
  loc df ((λ x, bool_decide (x = d)) <$> (Date <$> rows df))
  = Ok (where_ df (λ r, bool_decide (Date r = d))).
Proof. rewrite <- list_fmap_compose. apply loc_where_. Qed.

Lemma selection_inv (o o' : GreatCovidDashboard) :
  selection o' = selection o →
  countries o' = countries o ∧ plotted_variable o' = plotted_variable o ∧
  use_log_scale o' = use_log_scale o ∧ plot_type o' = plot_type o ∧
  map_plot_date o' = map_plot_date o.
Proof. unfold selection. intros [= -> -> -> -> ->]. done. Qed.

(** After a first read, the next one answers the same frame. *)
Ltac read_again Hset o1 j1 :=
  let j2 := fresh "j" in
  let Hj := fresh "Hj" in
  destruct (Hset j1) as [j2 Hj]; cbn [self journal] in Hj |- *;
  rewrite ?Hj; clear Hj; cbn [self journal].

Lemma plot_eq (w : World) (s : Session) :
  match covid_data w s with
  | (Ok df, s1) =>
      ∃ j, plot w s = (Ok (plot_of (self s) df), {| self := self s1; journal := j |})
  | (Raise e, s1) => plot w s = (Raise e, s1)
  end.
Proof.
  unfold plot, mbind, M_bind, bind, gets, lift, mret, M_ret, ret.
  destruct (covid_data_outcome w s) as [[o1 j1] Hset Hsel|e s1 Hsel]; [|done].
  cbn [self journal] in *.
  apply selection_inv in Hsel as (Hc & Hv & Hl & Hk & Hd).
  read_again Hset o1 j1.
  rewrite loc_where_. unfold plot_of. eexists. rewrite Hc, Hv, Hl. reflexivity.
Qed.

Lemma map_plot_eq (w : World) (s : Session) :
  match covid_data w s with
  | (Ok df, s1) =>
      ∃ j, map_plot w s
           = (Ok (map_plot_of (self s) df), {| self := self s1; journal := j |})
  | (Raise e, s1) => map_plot w s = (Raise e, s1)
  end.
Proof.
  unfold map_plot, mbind, M_bind, bind, gets, lift, mret, M_ret, ret.
  destruct (covid_data_outcome w s) as [[o1 j1] Hset Hsel|e s1 Hsel]; [|done].
  cbn [self journal] in *.
  apply selection_inv in Hsel as (Hc & Hv & Hl & Hk & Hd).
  read_again Hset o1 j1.
  rewrite (settled_dt_date w o1 Hset). cbn beta iota.
  rewrite loc_on_date. unfold map_plot_of, on_date, log_column.
  rewrite Hd, Hl. cbn [self journal].
  destruct (use_log_scale (self s)); eexists; cbn [self journal]; rewrite ?Hv; reflexivity.
Qed.

Lemma selected_day_numbers_eq (w : World) (s : Session) :
  match covid_data w s with
  | (Ok df, s1) =>
      ∃ j, selected_day_numbers w s
           = (Ok (selected_day_numbers_of (self s) df),
              {| self := self s1; journal := j |})
  | (Raise e, s1) => selected_day_numbers w s = (Raise e, s1)
  end.
Proof.
  unfold selected_day_numbers, mbind, M_bind, bind, gets, lift, mret, M_ret, ret.
  destruct (covid_data_outcome w s) as [[o1 j1] Hset Hsel|e s1 Hsel]; [|done].
  cbn [self journal] in *.
  apply selection_inv in Hsel as (Hc & Hv & Hl & Hk & Hd).
  read_again Hset o1 j1.
  rewrite (settled_dt_date w o1 Hset). cbn beta iota.
  destruct (Hset j) as [j' Hj]. rewrite Hj. cbn [self journal].
  rewrite <- list_fmap_compose, mask_and_fmap, loc_where_.
  unfold selected_day_numbers_of. eexists. rewrite Hc, Hd. reflexivity.
Qed.

Lemma plot_self (w : World) (s : Session) :
  self (plot w s).2 = self (covid_data w s).2.
Proof.
  pose proof (plot_eq w s) as Hp.
  destruct (covid_data w s) as [[df|e] s1]; [destruct Hp as [j ->]|rewrite Hp]; done.
Qed.

Lemma map_plot_self (w : World) (s : Session) :
  self (map_plot w s).2 = self (covid_data w s).2.
Proof.
  pose proof (map_plot_eq w s) as Hp.
  destruct (covid_data w s) as [[df|e] s1]; [destruct Hp as [j ->]|rewrite Hp]; done.
Qed.

Lemma selected_day_numbers_self (w : World) (s : Session) :
  self (selected_day_numbers w s).2 = self (covid_data w s).2.
Proof.
  pose proof (selected_day_numbers_eq w s) as Hp.
  destruct (covid_data w s) as [[df|e] s1]; [destruct Hp as [j ->]|rewrite Hp]; done.
Qed.

(** On a fresh cache the views are functions of the object. *)
Lemma plot_fresh (w : World) (s : Session) :
  is_stale w (_covid_data (self s)) = Ok false →
  plot w s = (Ok (plot_of (self s) (_covid_data (self s))), s).
Proof.
  intros Hf. unfold plot, mbind, M_bind, bind, gets, lift, mret, M_ret, ret.
  rewrite (covid_data_fresh w s Hf). cbn beta iota.
  rewrite (covid_data_fresh w s Hf). cbn beta iota.
  by rewrite loc_where_.
Qed.

Lemma map_plot_fresh (w : World) (s : Session) :
  is_stale w (_covid_data (self s)) = Ok false →
  map_plot w s = (Ok (map_plot_of (self s) (_covid_data (self s))), s).
Proof.
  intros Hf. unfold map_plot, mbind, M_bind, bind, gets, lift, mret, M_ret, ret.
  rewrite (covid_data_fresh w s Hf). cbn beta iota.
  rewrite (covid_data_fresh w s Hf). cbn beta iota.
  rewrite (is_stale_Ok_dt_date _ _ _ Hf). cbn beta iota.
  rewrite loc_on_date. unfold map_plot_of, on_date, log_column.
  by destruct (use_log_scale (self s)).
Qed.

Lemma selected_day_numbers_fresh (w : World) (s : Session) :
  is_stale w (_covid_data (self s)) = Ok false →
  selected_day_numbers w s
    = (Ok (selected_day_numbers_of (self s) (_covid_data (self s))), s).
Proof.
  intros Hf.
  unfold selected_day_numbers, mbind, M_bind, bind, gets, lift, mret, M_ret, ret.
  rewrite (covid_data_fresh w s Hf). cbn beta iota.
  rewrite (covid_data_fresh w s Hf). cbn beta iota.
  rewrite (is_stale_Ok_dt_date _ _ _ Hf). cbn beta iota.
  rewrite (covid_data_fresh w s Hf). cbn beta iota.
  by rewrite <- list_fmap_compose, mask_and_fmap, loc_where_.
Qed.

(** Where the data can be read, the views return. *)
Lemma plot_returns (w : World) (s : Session) :
  readable w s → ∃ fig s', plot w s = (Ok fig, s').
Proof.
  intros (df & s1 & Hread)%covid_data_returns.
  pose proof (plot_eq w s) as Hv. rewrite Hread in Hv.
  destruct Hv as [j ->]. by eexists _, _.
Qed.

Lemma map_plot_returns (w : World) (s : Session) :
  readable w s → ∃ fig s', map_plot w s = (Ok fig, s').
Proof.
  intros (df & s1 & Hread)%covid_data_returns.
  pose proof (map_plot_eq w s) as Hv. rewrite Hread in Hv.
  destruct Hv as [j ->]. by eexists _, _.
Qed.

Lemma selected_day_numbers_returns (w : World) (s : Session) :
  readable w s → ∃ tab s', selected_day_numbers w s = (Ok tab, s').
Proof.
  intros (df & s1 & Hread)%covid_data_returns.
  pose proof (selected_day_numbers_eq w s) as Hv. rewrite Hread in Hv.
  destruct Hv as [j ->]. by eexists _, _.
Qed.

Lemma covid_data_selection (w : World) (s : Session) :
  selection (self (covid_data w s).2) = selection (self s).
Proof. by destruct (covid_data_outcome w s). Qed.

End ViewFacts.

(** ** What every reachable state satisfies

    The cached frame is only ever written by [update_covid_data], with a
    frame that [get_covid_data] returned.  A property of all such frames
    (and of the empty placeholder) therefore holds of the cache in every
    reachable state. *)

Section CacheInvariant.
Context `{Libraries}.
Variable P : DataFrame → Prop.
Hypothesis P_loaded : ∀ raw, P (loaded raw).
Hypothesis P_empty : P empty_frame.

Local Abbreviation keeps := (keeps P).

Lemma keeps_bind {A B} (m : M A) (k : A → M B) :
  keeps m → (∀ a, keeps (k a)) → keeps (m ≫= k).
Proof.
  intros Hm Hk s Hs. unfold mbind, M_bind, bind.
  specialize (Hm s Hs). destruct (m s) as [[a|e] s']; [|done].
  by apply Hk.
Qed.

Lemma keeps_ret {A} (a : A) : keeps (mret a).
Proof. by intros s. Qed.

Lemma keeps_gets {A} (f : GreatCovidDashboard → A) : keeps (gets f).
Proof. by intros s. Qed.

Lemma keeps_lift {A} (r : result A) : keeps (lift r).
Proof. by intros s. Qed.

Lemma keeps_info (msg : string) : keeps (info msg).
Proof. by intros s. Qed.

Lemma keeps_attempt {A} (m : M A) : keeps m → keeps (attempt m).
Proof.
  intros Hm s Hs. unfold attempt. specialize (Hm s Hs).
  by destruct (m s).
Qed.

Lemma keeps_update_covid_data (w : World) : keeps (update_covid_data w).
Proof.
  intros s Hs. rewrite update_covid_data_eq. cbn zeta.
  destruct (remote w) as [raw|e]; [|done].
  destruct (Date_min (loaded raw)); [destruct (Date_max (loaded raw))|];
    cbn; apply P_loaded.
Qed.

Lemma keeps_covid_data (w : World) : keeps (covid_data w).
Proof.
  intros s Hs. rewrite covid_data_eq.
  destruct (is_stale w _) as [[]|e]; [|done..].
  pose proof (keeps_update_covid_data w s Hs) as Hu.
  by destruct (update_covid_data w s) as [[[]|e] s'].
Qed.

Lemma keeps_plot (w : World) : keeps (plot w).
Proof. intros s Hs. rewrite plot_self. by apply keeps_covid_data. Qed.

Lemma keeps_map_plot (w : World) : keeps (map_plot w).
Proof. intros s Hs. rewrite map_plot_self. by apply keeps_covid_data. Qed.

Lemma keeps_selected_day_numbers (w : World) : keeps (selected_day_numbers w).
Proof. intros s Hs. rewrite selected_day_numbers_self. by apply keeps_covid_data. Qed.

Lemma keeps_call (w : World) (v : View) : keeps (call w v).
Proof.
  destruct v; cbn [call]; apply keeps_bind;
    auto using keeps_plot, keeps_map_plot, keeps_selected_day_numbers, keeps_ret.
Qed.

Lemma keeps_recompute (w : World) (vs : list View) : keeps (recompute w vs).
Proof.
  induction vs as [|v vs IH]; cbn [recompute]; [apply keeps_ret|].
  apply keeps_bind; [apply keeps_attempt, keeps_call|]. intros r.
  apply keeps_bind; [done|]. intros rs. apply keeps_ret.
Qed.

Lemma validate_cache (o : GreatCovidDashboard) (a : Assignment) f :
  validate o a = Ok f → ∀ o', _covid_data (f o') = _covid_data o'.
Proof.
  destruct a; cbn [validate]; repeat case_match; intros [= <-]; done.
Qed.

Lemma param_set_eq (a : Assignment) (s : Session) :
  param_set a s =
    match validate (self s) a with
    | Ok f => (Ok tt, {| self := f (self s); journal := journal s |})
    | Raise e => (Raise e, s)
    end.
Proof.
  unfold param_set, mbind, M_bind, bind, gets, lift, modify. cbn.
  by destruct (validate (self s) a).
Qed.

Lemma keeps_param_set (a : Assignment) : keeps (param_set a).
Proof.
  intros s Hs. rewrite param_set_eq.
  destruct (validate (self s) a) as [f|e] eqn:Hv; [|done].
  cbn. by rewrite (validate_cache _ _ _ Hv).
Qed.

Lemma keeps_set_params (params : list Assignment) : keeps (set_params params).
Proof.
  induction params as [|a params IH]; cbn [set_params]; [apply keeps_ret|].
  apply keeps_bind; [apply keeps_param_set|done].
Qed.

Lemma keeps_update (w : World) (layout : list Layout) (a : Assignment) :
  keeps (update w layout a).
Proof.
  unfold update. apply keeps_bind; [apply keeps_gets|]. intros old.
  apply keeps_bind; [apply keeps_param_set|]. intros _.
  destruct (changes old a); [apply keeps_recompute|apply keeps_ret].
Qed.

Lemma keeps___init__ (w : World) (params : list Assignment) :
  keeps (__init__ w params).
Proof.
  unfold __init__.
  apply keeps_bind; [apply keeps_info|]. intros _.
  apply keeps_bind; [apply keeps_set_params|]. intros _.
  apply keeps_bind; [by intros s _|]. intros _.
  apply keeps_bind; [apply keeps_update_covid_data|]. intros _.
  apply keeps_bind; [apply keeps_gets|]. intros df.
  apply keeps_bind; [apply keeps_lift|]. intros d.
  apply keeps_bind; [apply keeps_param_set|]. intros _.
  apply keeps_info.
Qed.

Lemma reachable_cache (s : Session) : reachable s → P (_covid_data (self s)).
Proof.
  induction 1 as [w params log s Hnew|w c s Hs IH].
  - unfold new in Hnew.
    pose proof (keeps___init__ w params
                  {| self := class_defaults; journal := log |} P_empty) as Hk.
    by rewrite Hnew in Hk.
  - destruct c; cbn [after].
    + by apply keeps_update_covid_data.
    + by apply keeps_covid_data.
    + by apply keeps_plot.
    + by apply keeps_map_plot.
    + by apply keeps_selected_day_numbers.
    + done.
    + by apply keeps_param_set.
    + by apply keeps_update.
Qed.

End CacheInvariant.

(** ** The claims of the specification *)

Section Claims.
Context `{Libraries}.

(** C8.  A country name whose ISO lookup fails does not stop the load:
    [country_alpha3] catches the [KeyError] and answers [None].  Whenever
    the CSV was read, [get_covid_data] returns a frame; every country of
    a CSV line that has its country and its date has rows in it; and the
    [iso_alpha] of a row is the alpha-3 code of its country when the
    lookup finds one, and empty when the lookup raises. *)
Theorem country_code_failure_is_recovered (w : World) (raw : list RawRow)
    (s : Session) :
  remote w = Ok raw →
  (∀ country,
     country_alpha3 country =
       match iso3166_countries_get country with
       | Ok c => Ok (Some (alpha3 c))
       | Raise _ => Ok None
       end) ∧
  ∃ df,
    get_covid_data w s
      = (Ok df, {| self := self s; journal := journal s ++ [HttpGet csv_url] |}) ∧
    (∀ x c d, x ∈ raw → raw_Country x = Some c → raw_Date x = Some d →
       ∃ r, r ∈ rows df ∧ Country r = c) ∧
    (∀ r, r ∈ rows df →
       match iso3166_countries_get (Country r) with
       | Ok c => iso_alpha r = Some (alpha3 c)
       | Raise _ => iso_alpha r = None
       end).
Proof.
  intros Hr. split.
  - intros country. unfold country_alpha3, iso3166_countries_get.
    by destruct (iso3166_table country).
  - exists (loaded raw). split; [|split].
    + rewrite get_covid_data_eq, Hr. done.
    + intros x c d Hx Hc Hd.
      destruct (loaded_covers raw x (c, d) Hx) as (r & Hin & Hk).
      { unfold raw_key. by rewrite Hc, Hd. }
      exists r. split; [done|]. by injection Hk.
    + intros r Hin. rewrite (loaded_iso_alpha raw r Hin).
      unfold code_of, iso3166_countries_get.
      by destruct (iso3166_table (Country r)).
Qed.

(** C6.  A read of [covid_data] reloads exactly when the most recent
    date of the cached frame is more than one day older than today: then
    the journal grows by one reload (its log line and its request).
    Otherwise nothing is loaded and the session is as it was: the read
    answers the cached frame when that frame holds dates, and on the frame
    of a file without lines, where there is no date to compare, the test
    itself raises [TypeError]. *)
Theorem reload_exactly_when_stale (w : World) (s : Session) :
  if decide (more_than_one_day_older w (_covid_data (self s)))
  then journal (covid_data w s).2 = journal s ++ reload_events
  else (covid_data w s).2 = s ∧
       (∀ m, Date_max (_covid_data (self s)) = Some m →
             (covid_data w s).1 = Ok (_covid_data (self s))) ∧
       (∀ cols, _covid_data (self s) = Unparsed cols →
                ∃ msg, (covid_data w s).1 = Raise (TypeError msg)).
Proof.
  destruct (decide _) as [Hst|Hst].
  - apply is_stale_spec in Hst.
    rewrite covid_data_eq, Hst, update_covid_data_eq. cbn zeta.
    destruct (remote w) as [raw|e]; [|done].
    by destruct (Date_min (loaded raw)); [destruct (Date_max (loaded raw))|].
  - rewrite covid_data_eq.
    destruct (is_stale w (_covid_data (self s))) as [[]|e] eqn:Hs.
    + by apply is_stale_spec in Hs.
    + split; [done|]. split; [done|]. intros cols Hc. by rewrite Hc in Hs.
    + split; [done|]. split.
      * intros m Hm. by rewrite (is_stale_dated w _ m Hm) in Hs.
      * intros cols Hc. rewrite Hc in Hs. injection Hs as <-. by eexists.
Qed.

(** C3.  With a cached frame whose most recent date is at most one day
    older than today, at both reads, reading [covid_data] twice gives the
    cached frame both times and leaves the session, and so its journal,
    as it was: nothing is loaded. *)
Theorem read_twice_is_idempotent (w1 w2 : World) (s : Session) (m : Z) :
  Date_max (_covid_data (self s)) = Some m →
  today w1 - m ≤ 1 →
  today w2 - m ≤ 1 →
  covid_data w1 s = (Ok (_covid_data (self s)), s) ∧
  covid_data w2 (covid_data w1 s).2 = (Ok (_covid_data (self s)), s).
Proof.
  intros Hm H1 H2.
  assert (∀ w, today w - m ≤ 1 → is_stale w (_covid_data (self s)) = Ok false) as Hf.
  { intros w Hw. apply is_stale_fresh. by exists m. }
  rewrite (covid_data_fresh w1 s (Hf w1 H1)). split; [done|].
  cbn [snd]. apply covid_data_fresh, Hf, H2.
Qed.

Lemma reachable_one_row_per_key (s : Session) :
  reachable s → one_row_per_key (_covid_data (self s)).
Proof.
  apply (reachable_cache one_row_per_key).
  - apply one_row_per_key_loaded.
  - apply NoDup_nil_2.
Qed.

Lemma at_most_one_row (l : list Row) (Q : Row → Prop) `{∀ r, Decision (Q r)}
    (d : Z) (c : string) :
  NoDup (row_key <$> l) →
  (∀ r, Q r → Date r = d) →
  (length (filter (λ r, Country r = c) (filter Q l)) ≤ 1)%nat.
Proof.
  intros Hnd HQ. rewrite list_filter_filter.
  rewrite <- (list_filter_filter_l _ (λ r, row_key r = (c, d))).
  - etrans; [apply length_filter|].
    by apply NoDup_fmap_filter_length.
  - intros r [Hc Hq]. unfold row_key. by rewrite Hc, (HQ r Hq).
Qed.

(** C9.  The frame [get_covid_data] builds has exactly one row for each
    (country, date) pair of the CSV, and so has the cached frame of every
    reachable state.  Hence the table of [selected_day_numbers], which is
    returned wherever the data can be read (the cache holds dates and is
    fresh, or it is stale and the file gives a frame with rows), has for
    any selected date and countries at most one row per country, and none
    for a country that is not selected. *)
Theorem summary_has_at_most_one_row_per_country (w : World) (s : Session) :
  reachable s →
  (∀ raw df, aggregate raw = Ok df →
     NoDup (row_key <$> rows df) ∧
     ∀ k, k ∈ row_key <$> rows df ↔ Some k ∈ raw_key <$> raw) ∧
  one_row_per_key (_covid_data (self s)) ∧
  (readable w s → ∃ tab s', selected_day_numbers w s = (Ok tab, s')) ∧
  ∀ tab s', selected_day_numbers w s = (Ok tab, s') →
    ∀ c, (length (filter (λ e, e.1 = c) (ov_table tab)) ≤ 1)%nat ∧
         (c ∉ countries (self s) → filter (λ e, e.1 = c) (ov_table tab) = []).
Proof.
  intros Hs. split; [|split; [|split; [apply selected_day_numbers_returns|]]].
  - intros raw df. rewrite aggregate_ok. intros [= <-]. split.
    + apply one_row_per_key_loaded.
    + intros k. by rewrite loaded_keys, elem_of_group_keys.
  - by apply reachable_one_row_per_key.
  - intros tab s' Hrun c.
    pose proof (selected_day_numbers_eq w s) as Hv.
    pose proof (keeps_covid_data one_row_per_key one_row_per_key_loaded w s
                  (reachable_one_row_per_key s Hs)) as Hk.
    destruct (covid_data w s) as [[df|e] s1] eqn:Hread.
    2:{ rewrite Hv in Hrun. discriminate. }
    destruct Hv as [j Hv]. rewrite Hv in Hrun. injection Hrun as Htab Hs'. subst tab s'.
    apply covid_data_returns_cache in Hread as ->. cbn [snd] in Hk.
    unfold selected_day_numbers_of. cbn [ov_table].
    rewrite rows_where_, (filter_fmap _ (λ e, e.1 = c)). cbn [fst].
    split.
    + rewrite length_fmap.
      apply (at_most_one_row _ _ (map_plot_date (self s))); [done|].
      intros r [Hd _]%andb_true_iff. by apply bool_decide_eq_true in Hd.
    + intros Hc.
      assert (filter (λ r, Country r = c)
                (filter (λ r, bool_decide (Date r = map_plot_date (self s))
                              && bool_decide (Country r ∈ countries (self s)) = true)
                        (rows (_covid_data (self s1)))) = []) as ->; [|done].
      rewrite list_filter_filter.
      destruct (filter _ _) as [|r l] eqn:Hf; [done|]. exfalso.
      assert (r ∈ r :: l) as Hr by left. rewrite <- Hf in Hr.
      apply list_elem_of_filter in Hr as [[Hrc [_ Hin]%andb_true_iff] _].
      apply bool_decide_eq_true in Hin. by rewrite Hrc in Hin.
Qed.

Lemma choices_current_elem (o : GreatCovidDashboard) (c : string) :
  choices_current o →
  c ∈ countries_objects o ↔ c ∈ Country <$> rows (_covid_data o).
Proof.
  unfold choices_current, sorted. intros ->.
  rewrite merge_sort_Permutation. apply elem_of_unique.
Qed.

Lemma covid_data_choices (w : World) (s s' : Session) (df : DataFrame) :
  choices_current (self s) →
  covid_data w s = (Ok df, s') →
  choices_current (self s').
Proof.
  intros Hc. rewrite covid_data_eq.
  destruct (is_stale w (_covid_data (self s))) as [[]|e];
    [|by intros [= _ <-]|done].
  rewrite update_covid_data_eq. cbn zeta.
  destruct (remote w) as [raw|e]; [|done].
  destruct (Date_min (loaded raw)); [destruct (Date_max (loaded raw))|];
    [|done..].
  by intros [= _ <-].
Qed.

(** C4 (amended).  When [plot] returns, the figure has no trace for a
    country that is not selected and exactly one trace for each selected
    country that has rows in the frame the view has read: the trace names
    are pairwise distinct, and each trace holds the (date, value) points
    of its country's rows.  Take a dashboard whose country choices are
    those of its cached frame, as every load leaves them, and a selection
    made among these known countries.  If the cached frame is fresh, no
    reload intervenes: the view changes nothing and the figure has one
    trace for each selected country and no other. *)
Theorem one_series_per_selected_country (w : World) (s : Session)
    (fig : TimeSeries) (s' : Session) :
  plot w s = (Ok fig, s') →
  NoDup (trace_name <$> ts_traces fig) ∧
  (∀ c, c ∈ trace_name <$> ts_traces fig ↔
        c ∈ countries (self s) ∧ c ∈ Country <$> rows (_covid_data (self s'))) ∧
  (choices_current (self s) →
   (∀ c, c ∈ countries (self s) → c ∈ countries_objects (self s)) →
   fresh w (_covid_data (self s)) →
   s' = s ∧ ∀ c, c ∈ trace_name <$> ts_traces fig ↔ c ∈ countries (self s)) ∧
  (∀ t, t ∈ ts_traces fig →
     trace_points t =
       (λ r, (Date r, metric (plotted_variable (self s)) r)) <$>
         filter (λ r, Country r = trace_name t) (rows (_covid_data (self s')))).
Proof.
  intros Hrun.
  assert (fresh w (_covid_data (self s)) → self s' = self s ∧ s' = s) as Hsame.
  { intros Hf. rewrite (plot_fresh w s (is_stale_fresh _ _ Hf)) in Hrun.
    by injection Hrun as _ ->. }
  pose proof (plot_eq w s) as Hv.
  destruct (covid_data w s) as [[df|e] s1] eqn:Hread.
  2:{ rewrite Hv in Hrun. discriminate. }
  destruct Hv as [j Hv]. rewrite Hv in Hrun. injection Hrun as Hfig Hs'. subst fig s'.
  apply covid_data_returns_cache in Hread as ->.
  cbn [self] in *.
  unfold plot_of, px_plot. cbn [ts_traces].
  set (cs := countries (self s)) in *.
  set (data := where_ _ _).
  assert (∀ c, c ∈ unique (Country <$> rows data) ↔
               c ∈ cs ∧ c ∈ Country <$> rows (_covid_data (self s1))) as Hnames.
  { intros c. rewrite elem_of_unique, !list_elem_of_fmap. unfold data.
    setoid_rewrite rows_where_. setoid_rewrite list_elem_of_filter.
    setoid_rewrite bool_decide_eq_true. split.
    - intros (r & -> & Hin & Hr). split; [done|by exists r].
    - intros (Hc & r & -> & Hr). by exists r. }
  rewrite <- list_fmap_compose.
  assert (trace_name ∘ (λ c, {| trace_name := c;
            trace_points := (λ r, (Date r, metric (plotted_variable (self s)) r))
                              <$> filter (λ r, Country r = c) (rows data) |})
          = id) as -> by done.
  rewrite list_fmap_id. split; [apply NoDup_unique|]. split; [done|]. split.
  - intros Hcur Hknown Hf. destruct (Hsame Hf) as [Ho Hs]. split; [done|].
    intros c. rewrite Hnames, Ho. split; [by intros [Hc _]|]. intros Hc.
    split; [done|]. apply (choices_current_elem _ _ Hcur). by apply Hknown.
  - intros t (c & -> & Hc)%list_elem_of_fmap. cbn [trace_points trace_name].
    f_equal. unfold data. rewrite rows_where_.
    apply list_filter_filter_l. intros r ->.
    apply bool_decide_eq_true. by apply Hnames in Hc as [Hc _].
Qed.

(** Where the test of [covid_data] raises, so does each view, and nothing
    changes. *)
Lemma views_unreadable (w : World) (s : Session) (e : exn) :
  is_stale w (_covid_data (self s)) = Raise e →
  plot w s = (Raise e, s) ∧
  map_plot w s = (Raise e, s) ∧
  selected_day_numbers w s = (Raise e, s).
Proof.
  intros He%(covid_data_unreadable w s).
  pose proof (plot_eq w s) as Hp.
  pose proof (map_plot_eq w s) as Hm.
  pose proof (selected_day_numbers_eq w s) as Hn.
  rewrite He in Hp, Hm, Hn. done.
Qed.

(** The test on a frame that is not stale does not depend on the day. *)
Lemma is_stale_not_older_eq (w w' : World) (df : DataFrame) :
  ¬ more_than_one_day_older w df → ¬ more_than_one_day_older w' df →
  is_stale w' df = is_stale w df.
Proof.
  intros Hn Hn'.
  destruct (is_stale w df) as [[]|e] eqn:Hs; [by apply is_stale_spec in Hs|..];
    destruct (is_stale w' df) as [[]|e'] eqn:Hs';
    try (by apply is_stale_spec in Hs'); try done;
    unfold is_stale in Hs, Hs'; destruct (Series_max df); congruence.
Qed.

(** C2 (amended).  No view ever changes what the user has selected.
    When the cached frame is not stale, a view changes nothing at all
    (neither the cached frame, nor the bounds, nor the choice lists, nor
    the journal), and its outcome is the same whatever the day and the
    journal: it depends on the object alone.  When the frame holds dates,
    that outcome is the figure or table computed from the selection and
    the cached frame.  When the cached frame is stale, the view first
    reloads through the property [covid_data]: it leaves the object as
    [update_covid_data] does, which, when the reload goes through, has
    replaced the cached frame, the date bounds and the country choices by
    those of the file. *)
Theorem views_are_pure_on_fresh_data (w : World) (s : Session) :
  (selection (self (plot w s).2) = selection (self s) ∧
   selection (self (map_plot w s).2) = selection (self s) ∧
   selection (self (selected_day_numbers w s).2) = selection (self s)) ∧
  (¬ more_than_one_day_older w (_covid_data (self s)) →
   ((plot w s).2 = s ∧ (map_plot w s).2 = s ∧ (selected_day_numbers w s).2 = s) ∧
   (∀ w' s', self s' = self s →
      ¬ more_than_one_day_older w' (_covid_data (self s')) →
      (plot w' s').1 = (plot w s).1 ∧
      (map_plot w' s').1 = (map_plot w s).1 ∧
      (selected_day_numbers w' s').1 = (selected_day_numbers w s).1) ∧
   (∀ m, Date_max (_covid_data (self s)) = Some m →
      (plot w s).1 = Ok (plot_of (self s) (_covid_data (self s))) ∧
      (map_plot w s).1 = Ok (map_plot_of (self s) (_covid_data (self s))) ∧
      (selected_day_numbers w s).1
        = Ok (selected_day_numbers_of (self s) (_covid_data (self s))))) ∧
  (more_than_one_day_older w (_covid_data (self s)) →
   let o' := self (update_covid_data w s).2 in
   self (plot w s).2 = o' ∧
   self (map_plot w s).2 = o' ∧
   self (selected_day_numbers w s).2 = o' ∧
   ∀ raw lo hi,
     remote w = Ok raw →
     Date_min (loaded raw) = Some lo → Date_max (loaded raw) = Some hi →
     _covid_data o' = loaded raw ∧
     map_plot_date_bounds o' = (lo, hi) ∧
     countries_objects o' = sorted (unique (Country <$> rows (loaded raw)))).
Proof.
  assert (∀ w s, ¬ more_than_one_day_older w (_covid_data (self s)) →
            ∃ r1 r2 r3,
              plot w s = (r1, s) ∧ map_plot w s = (r2, s) ∧
              selected_day_numbers w s = (r3, s) ∧
              (r1, r2, r3)
              = match is_stale w (_covid_data (self s)) with
                | Ok _ => (Ok (plot_of (self s) (_covid_data (self s))),
                           Ok (map_plot_of (self s) (_covid_data (self s))),
                           Ok (selected_day_numbers_of (self s) (_covid_data (self s))))
                | Raise e => (Raise e, Raise e, Raise e)
                end) as Hrun.
  { intros w0 s0 Hn. destruct (is_stale_not_older _ _ Hn) as [Hok|[e He]].
    - rewrite Hok, (plot_fresh w0 s0 Hok), (map_plot_fresh w0 s0 Hok),
        (selected_day_numbers_fresh w0 s0 Hok). by eexists _, _, _.
    - rewrite He. destruct (views_unreadable w0 s0 e He) as (-> & -> & ->).
      by eexists _, _, _. }
  split; [|split].
  - rewrite plot_self, map_plot_self, selected_day_numbers_self.
    auto using covid_data_selection.
  - intros Hn. destruct (Hrun w s Hn) as (r1 & r2 & r3 & Hp & Hm & Ht & Hr).
    rewrite Hp, Hm, Ht. cbn [fst snd]. split; [done|]. split.
    + intros w' s' Hself Hn'.
      destruct (Hrun w' s' Hn') as (r1' & r2' & r3' & -> & -> & -> & Hr').
      cbn [fst]. rewrite Hself in Hr', Hn'.
      rewrite (is_stale_not_older_eq w w' _ Hn Hn'), <- Hr in Hr'.
      by injection Hr' as -> -> ->.
    + intros m Hm'. rewrite (is_stale_dated w _ m Hm') in Hr.
      by injection Hr as -> -> ->.
  - intros Hst%is_stale_spec. cbn zeta.
    rewrite plot_self, map_plot_self, selected_day_numbers_self.
    assert (self (covid_data w s).2 = self (update_covid_data w s).2) as ->.
    { rewrite covid_data_eq, Hst.
      by destruct (update_covid_data w s) as [[[]|e] s']. }
    repeat (split; [done|]).
    intros raw lo hi Hr Hlo Hhi.
    rewrite update_covid_data_eq, Hr. cbn zeta. by rewrite Hlo, Hhi.
Qed.

Lemma covid_data_with_log_scale (b : bool) (w : World) (s : Session) :
  covid_data w (with_log_scale b s) =
    ((covid_data w s).1, with_log_scale b (covid_data w s).2).
Proof.
  rewrite !covid_data_eq. cbn [with_log_scale self set_use_log_scale _covid_data].
  destruct (is_stale w (_covid_data (self s))) as [[]|e]; [|done..].
  rewrite !update_covid_data_eq. cbn zeta.
  destruct (remote w) as [raw|e]; [|done].
  by destruct (Date_min (loaded raw)); [destruct (Date_max (loaded raw))|].
Qed.

Lemma reachable_no_derived (s : Session) :
  reachable s → derived (_covid_data (self s)) = [].
Proof.
  apply (reachable_cache (λ df, derived df = [])); [apply loaded_derived|done].
Qed.

(** C5.  Enabling the log scale does not touch the stored values.  With
    the flag on or off, the cached frame after [map_plot] is the one a
    plain read of [covid_data] leaves: the very same frame when it is not
    stale, and never one with a derived column in a reachable state.
    When [map_plot] returns with the flag on, the frame it passes to the
    map has the rows of the selected date as they are cached, untouched,
    and one more column, named [log(<metric>)], that holds [log10] of the
    metric of each of these rows and is the colour; with the flag off the
    same rows are coloured by the metric itself. *)
Theorem log_scale_leaves_stored_values (w : World) (s : Session) :
  let on := with_log_scale true s in
  let off := with_log_scale false s in
  let v := plotted_variable (self s) in
  let col := "log(" +:+ metric_name v +:+ ")" in
  (_covid_data (self (map_plot w on).2) = _covid_data (self (covid_data w s).2) ∧
   _covid_data (self (map_plot w off).2) = _covid_data (self (covid_data w s).2)) ∧
  (¬ more_than_one_day_older w (_covid_data (self s)) →
   _covid_data (self (map_plot w on).2) = _covid_data (self s)) ∧
  (reachable s → derived (_covid_data (self (map_plot w on).2)) = []) ∧
  (∀ fig s', map_plot w on = (Ok fig, s') →
     let data := on_date (self s) (_covid_data (self s')) in
     rows data = filter (λ r, Date r = map_plot_date (self s))
                        (rows (_covid_data (self s'))) ∧
     (map_plot w off).1 = Ok (px_choropleth data (metric_name v)) ∧
     ch_color fig = col ∧
     rows (ch_data fig) = rows data ∧
     derived (ch_data fig) =
       filter (λ c, c.1 ≠ col) (derived data)
       ++ [(col, np_log10 <$> (metric v <$> rows data))]).
Proof.
  intros on off v col. subst on off.
  assert (∀ b, _covid_data (self (map_plot w (with_log_scale b s)).2)
               = _covid_data (self (covid_data w s).2)) as Hcache.
  { intros b. by rewrite map_plot_self, covid_data_with_log_scale. }
  split; [by split; apply Hcache|]. split; [|split].
  - intros Hf. rewrite Hcache.
    destruct (is_stale_not_older _ _ Hf) as [Hok|[e He]].
    + by rewrite (covid_data_fresh w s Hok).
    + by rewrite (covid_data_unreadable w s e He).
  - intros Hs. rewrite Hcache.
    apply (reachable_no_derived _ (reachable_after w call_covid_data s Hs)).
  - intros fig s' Hrun data.
    pose proof (map_plot_eq w (with_log_scale true s)) as Hon.
    pose proof (map_plot_eq w (with_log_scale false s)) as Hoff.
    rewrite !covid_data_with_log_scale in Hon, Hoff.
    destruct (covid_data w s) as [[df|e] s1] eqn:Hread; cbn [fst snd] in Hon, Hoff.
    2:{ rewrite Hon in Hrun. discriminate. }
    destruct Hon as [j Hon]. destruct Hoff as [j' Hoff].
    rewrite Hon in Hrun. injection Hrun as Hfig Hs'. subst fig s'.
    apply covid_data_returns_cache in Hread as ->.
    rewrite Hoff. cbn [fst self with_log_scale set_use_log_scale _covid_data] in *.
    split; [|split].
    + unfold data, on_date. rewrite rows_where_.
      apply list_filter_iff. intros r. apply bool_decide_eq_true.
    + done.
    + unfold map_plot_of, log_column.
      cbn [use_log_scale plotted_variable map_plot_date set_use_log_scale
           ch_color ch_data px_choropleth].
      by rewrite rows_assign, derived_assign.
Qed.

Lemma validate_outside (o : GreatCovidDashboard) (a : Assignment) :
  outside_domain o a ↔ ∃ msg, validate o a = Raise (ValueError msg).
Proof.
  destruct a as [l|n|b|k|d]; cbn [outside_domain validate].
  - destruct (decide (Forall _ l)) as [Hall|Hall].
    + split; [|by intros [? [=]]]. intros (c & Hc & Hn).
      rewrite Forall_forall in Hall. destruct (Hn (Hall c Hc)).
    + split; [by eexists|]. intros _.
      apply not_Forall_Exists in Hall; [|apply _].
      apply Exists_exists in Hall as (c & Hc & Hn). by exists c.
  - unfold metric_of_name.
    destruct (list_find _ plotted_variable_objects) as [[i v]|] eqn:Hfind; cbn.
    + split; [|by intros [? [=]]]. intros Hn. exfalso. apply Hn.
      apply list_find_Some in Hfind as (Hi & <- & _).
      change (metric_name v ∈ metric_name <$> plotted_variable_objects).
      apply list_elem_of_fmap_2. by eapply list_elem_of_lookup_2.
    + split; [by eexists|]. intros _.
      change (n ∉ metric_name <$> plotted_variable_objects).
      intros (v & -> & Hv)%list_elem_of_fmap.
      apply list_find_None in Hfind. rewrite Forall_forall in Hfind.
      by apply (Hfind v Hv).
  - split; [done|by intros [? [=]]].
  - split; [done|by intros [? [=]]].
  - unfold within. destruct (decide _) as [Hin|Hout].
    + split; [done|by intros [? [=]]].
    + split; [by eexists|done].
Qed.

Lemma validate_raises_ValueError (o : GreatCovidDashboard) (a : Assignment) (e : exn) :
  validate o a = Raise e → ∃ msg, e = ValueError msg.
Proof.
  destruct a; cbn [validate]; repeat case_match; intros [= <-]; by eexists.
Qed.

(** Inside the domain the assignment is accepted. *)
Lemma param_set_accepts (s : Session) (a : Assignment) :
  ¬ outside_domain (self s) a → (param_set a s).1 = Ok tt.
Proof.
  intros Hin. rewrite param_set_eq.
  destruct (validate (self s) a) as [f|e] eqn:Hv; [done|].
  destruct (validate_raises_ValueError _ _ _ Hv) as [msg ->].
  exfalso. apply Hin, validate_outside. by exists msg.
Qed.

(** C7.  An assignment of a value outside the declared domain of its
    parameter (a date outside the current bounds, a list with a country
    that is not among the choices, a metric that is not one of the three)
    raises [ValueError] and leaves the whole session as it was, whether
    made directly or through the dashboard's update. *)
Theorem out_of_domain_assignment_is_rejected (w : World) (layout : list Layout)
    (s : Session) (a : Assignment) :
  outside_domain (self s) a →
  ∃ msg,
    param_set a s = (Raise (ValueError msg), s) ∧
    update w layout a s = (Raise (ValueError msg), s).
Proof.
  intros (msg & Hv)%validate_outside. exists msg.
  assert (param_set a s = (Raise (ValueError msg), s)) as Hp.
  { by rewrite param_set_eq, Hv. }
  split; [done|].
  unfold update, mbind, M_bind, bind, gets. cbn beta iota. by rewrite Hp.
Qed.

Lemma recompute_ok (w : World) (vs : list View) (s : Session) :
  ∃ out s', recompute w vs s = (Ok out, s') ∧ out.*1 = vs.
Proof.
  revert s. induction vs as [|v vs IH]; intros s; [by eexists _, _|].
  cbn [recompute]. unfold mbind, M_bind, bind, attempt, mret, M_ret, ret.
  destruct (call w v s) as [r s1].
  destruct (IH s1) as (out & s' & -> & <-). by eexists _, _.
Qed.

Lemma elem_of_watchers (layout : list Layout) (p : ParamName) (v : View) :
  v ∈ watchers layout p ↔ v ∈ methods_of layout ∧ p ∈ depends v.
Proof. unfold watchers. rewrite list_elem_of_filter. tauto. Qed.

(** What a view shows is determined by the parameters it declares (and
    by the frame): the declarations of [param.depends] leave nothing out. *)
Lemma declared_dependencies_suffice (v : View) (o o' : GreatCovidDashboard)
    (df : DataFrame) :
  (∀ p, p ∈ depends v → param_value p o = param_value p o') →
  view_of v o df = view_of v o' df.
Proof.
  intros Hp.
  destruct v; cbn [view_of depends] in *; f_equal.
  - pose proof (Hp p_countries ltac:(repeat constructor)) as [= Hc].
    pose proof (Hp p_plotted_variable ltac:(repeat constructor)) as [= Hv].
    pose proof (Hp p_use_log_scale ltac:(repeat constructor)) as [= Hl].
    pose proof (Hp p_plot_type ltac:(repeat constructor)) as [= Hk].
    unfold plot_of. by rewrite Hc, Hv, Hl, Hk.
  - pose proof (Hp p_plotted_variable ltac:(repeat constructor)) as [= Hv].
    pose proof (Hp p_use_log_scale ltac:(repeat constructor)) as [= Hl].
    pose proof (Hp p_map_plot_date ltac:(repeat constructor)) as [= Hd].
    unfold map_plot_of, on_date, log_column. by rewrite Hv, Hl, Hd.
  - pose proof (Hp p_map_plot_date ltac:(repeat constructor)) as [= Hd].
    pose proof (Hp p_countries ltac:(repeat constructor)) as [= Hc].
    unfold selected_day_numbers_of. by rewrite Hd, Hc.
Qed.

(** C10.  After an accepted assignment to one parameter, the views that
    are called again are views of the layout that declare this parameter
    in their [param.depends]; when the value changed they are all of
    those, otherwise none.  An assignment to [use_log_scale] therefore
    never calls [selected_day_numbers] again, which declares only
    [map_plot_date] and [countries], and whose table is the same for two
    objects that agree on these two. *)
Theorem recompute_follows_declared_dependencies (w : World)
    (layout : list Layout) (a : Assignment) (s : Session)
    (out : list (View * result Rendering)) (s' : Session) :
  update w layout a s = (Ok out, s') →
  out.*1 = (if changes (self s) a then watchers layout (assigned a) else []) ∧
  (∀ v, v ∈ out.*1 → v ∈ methods_of layout ∧ assigned a ∈ depends v) ∧
  (assigned a = p_use_log_scale → v_selected_day_numbers ∉ out.*1) ∧
  depends v_selected_day_numbers = [p_map_plot_date; p_countries] ∧
  (∀ o o' df, map_plot_date o = map_plot_date o' → countries o = countries o' →
     selected_day_numbers_of o df = selected_day_numbers_of o' df).
Proof.
  intros Hrun.
  assert (out.*1 = if changes (self s) a then watchers layout (assigned a) else [])
    as Hout.
  { revert Hrun. unfold update, mbind, M_bind, bind, gets, id. cbn beta iota.
    destruct (param_set a s) as [[[]|e] s1]; [|done].
    destruct (changes (self s) a).
    - destruct (recompute_ok w (watchers layout (assigned a)) s1)
        as (out' & s'' & -> & <-). by intros [= <- _].
    - by intros [= <- _]. }
  assert (∀ v, v ∈ out.*1 → v ∈ methods_of layout ∧ assigned a ∈ depends v) as Hdep.
  { intros v. rewrite Hout. destruct (changes (self s) a).
    - apply elem_of_watchers.
    - by intros ?%elem_of_nil. }
  split; [done|]. split; [done|]. split; [|split; [done|]].
  - intros Ha Hv. apply Hdep in Hv as [_ Hv]. rewrite Ha in Hv.
    apply list_elem_of_In in Hv. cbn in Hv. intuition discriminate.
  - intros o o' df Hd Hc. unfold selected_day_numbers_of. by rewrite Hd, Hc.
Qed.

End Claims.

(** ** The claims on the sample data *)

Section Examples.
Local Existing Instance Sample.libraries.

Lemma dashboard_is_created :
  new Sample.april [] [] = (Ok tt, Sample.dashboard).
Proof. vm_compute. reflexivity. Defined.

Lemma dashboard_is_reachable : reachable Sample.dashboard.
Proof. exact (reachable_new Sample.april [] [] _ dashboard_is_created). Defined.

Lemma both_is_reachable : reachable Sample.both.
Proof.
  exact (reachable_after Sample.april
           (call_param_set (SetCountries ["Slovakia"; "Czechia"]))
           _ dashboard_is_reachable).
Defined.

(** The dashboard starts on the last day of the data, within bounds that
    span the data. *)
Example dashboard_starts_on_last_day :
  map_plot_date (self Sample.dashboard) = date 2020 4 2 ∧
  map_plot_date_bounds (self Sample.dashboard) = (date 2020 4 1, date 2020 4 2) ∧
  countries_objects (self Sample.dashboard)
    = ["Australia"; "Czechia"; "Diamond Princess"; "Slovakia"].
Proof. vm_compute. done. Qed.

(** The two states of Australia are summed; the ship has no code. *)
Example april_rows :
  (λ r, (Country r, Date r, Confirmed r, Recovered r, iso_alpha r))
    <$> rows (_covid_data (self Sample.dashboard))
  = [ ("Australia", date 2020 4 1, Int (i64 3150), Float (Sample.Dec 343 0), Some "AUS");
      ("Czechia", date 2020 4 1, Int (i64 1000), Float (Sample.Dec 61 0), Some "CZE");
      ("Czechia", date 2020 4 2, Int (i64 1100), Float (Sample.Dec 71 0), Some "CZE");
      ("Diamond Princess", date 2020 4 1, Int (i64 712), Float (Sample.Dec 603 0), None);
      ("Slovakia", date 2020 4 1, Int (i64 500), Float (Sample.Dec 3 0), Some "SVK");
      ("Slovakia", date 2020 4 2, Int (i64 550), Float (Sample.Dec 3 0), Some "SVK") ].
Proof. vm_compute. reflexivity. Qed.

(** A line without country and a line without date are in no group; and
    a sum beyond the 64-bit range wraps around. *)
Example lines_without_key_are_dropped :
  (λ r, (Country r, Date r, Confirmed r)) <$> rows (loaded More.csv_gaps)
  = [ ("Czechia", date 2020 6 2, Int (i64 9364)) ] ∧
  (λ r, (Country r, Date r, Confirmed r)) <$> rows (loaded More.csv_large)
  = [ ("Czechia", date 2020 6 2, Int (i64 (- 2 ^ 63))) ].
Proof. vm_compute. done. Qed.

(** A file without lines leaves the dashboard with a cache without dates:
    the reload raises after it has stored the frame, and from then on
    every read raises, in June as in April, without asking for the file
    again. *)
Example file_without_lines :
  update_covid_data More.blank Sample.dashboard
    = (Raise (AttributeError "'float' object has no attribute 'date'"), More.dateless) ∧
  _covid_data (self More.dateless) = Unparsed [] ∧
  (∀ w, ∃ msg, covid_data w More.dateless = (Raise (TypeError msg), More.dateless)) ∧
  ∃ msg, plot Sample.june More.dateless = (Raise (TypeError msg), More.dateless).
Proof.
  split; [vm_compute; reflexivity|]. split; [vm_compute; reflexivity|].
  split; [|by eexists; vm_compute].
  intros w. eexists. apply covid_data_unreadable. vm_compute. reflexivity.
Qed.

(** The load of April goes through, with the ship left without a code. *)
Lemma country_code_failure_is_recovered_witness :
  remote Sample.april = Ok Sample.csv_april ∧
  ∃ df,
    get_covid_data Sample.april Sample.dashboard
      = (Ok df, {| self := self Sample.dashboard;
                   journal := journal Sample.dashboard ++ [HttpGet csv_url] |}) ∧
    (∀ r, r ∈ rows df →
       match iso3166_countries_get (Country r) with
       | Ok c => iso_alpha r = Some (alpha3 c)
       | Raise _ => iso_alpha r = None
       end).
Proof.
  split; [reflexivity|].
  destruct (country_code_failure_is_recovered
              Sample.april Sample.csv_april Sample.dashboard eq_refl)
    as (_ & df & Hrun & _ & Hiso).
  exists df. split; [exact Hrun|exact Hiso].
Defined.

(** On 3 April the data of 2 April is fresh: two reads, no load. *)
Lemma read_twice_is_idempotent_witness :
  Date_max (_covid_data (self Sample.dashboard)) = Some (date 2020 4 2) ∧
  today Sample.april - date 2020 4 2 ≤ 1 ∧
  covid_data Sample.april Sample.dashboard
    = (Ok (_covid_data (self Sample.dashboard)), Sample.dashboard) ∧
  covid_data Sample.april (covid_data Sample.april Sample.dashboard).2
    = (Ok (_covid_data (self Sample.dashboard)), Sample.dashboard).
Proof.
  assert (Date_max (_covid_data (self Sample.dashboard)) = Some (date 2020 4 2))
    as Hm by (vm_compute; reflexivity).
  assert (today Sample.april - date 2020 4 2 ≤ 1) as Ht by (vm_compute; discriminate).
  split; [exact Hm|]. split; [exact Ht|].
  exact (read_twice_is_idempotent Sample.april Sample.april Sample.dashboard
           (date 2020 4 2) Hm Ht Ht).
Defined.

(** In June the April data is stale and a read reloads; in April it is not. *)
Example june_read_reloads :
  journal (covid_data Sample.june Sample.dashboard).2
    = journal Sample.dashboard ++ reload_events ∧
  (covid_data Sample.april Sample.dashboard).2 = Sample.dashboard.
Proof. vm_compute. done. Qed.

(** The table of 2 April for Czechia and Slovakia has one row for each. *)
Lemma summary_has_at_most_one_row_per_country_witness :
  reachable Sample.both ∧
  selected_day_numbers Sample.april Sample.both
    = (Ok Sample.table_2_april, Sample.both) ∧
  ∀ c, (length (filter (λ e, e.1 = c) (ov_table Sample.table_2_april)) ≤ 1)%nat.
Proof.
  assert (selected_day_numbers Sample.april Sample.both
          = (Ok Sample.table_2_april, Sample.both)) as Hrun
    by (vm_compute; reflexivity).
  split; [exact both_is_reachable|]. split; [exact Hrun|].
  intros c.
  destruct (summary_has_at_most_one_row_per_country
              Sample.april Sample.both both_is_reachable) as (_ & _ & _ & Htab).
  exact (proj1 (Htab _ _ Hrun c)).
Defined.

(** The example of the specification: with Czechia selected and the
    metric [Confirmed], one series, with 1000 on 1 April. *)
Lemma one_series_per_selected_country_witness :
  plot Sample.april Sample.dashboard
    = (Ok Sample.czechia_confirmed, Sample.dashboard) ∧
  choices_current (self Sample.dashboard) ∧
  (∀ c, c ∈ countries (self Sample.dashboard) →
        c ∈ countries_objects (self Sample.dashboard)) ∧
  fresh Sample.april (_covid_data (self Sample.dashboard)) ∧
  NoDup (trace_name <$> ts_traces Sample.czechia_confirmed) ∧
  (∀ c, c ∈ trace_name <$> ts_traces Sample.czechia_confirmed
        ↔ c ∈ countries (self Sample.dashboard)).
Proof.
  assert (choices_current (self Sample.dashboard)) as Hcur
    by (vm_compute; reflexivity).
  assert (plot Sample.april Sample.dashboard
          = (Ok Sample.czechia_confirmed, Sample.dashboard)) as Hrun
    by (vm_compute; reflexivity).
  assert (∀ c, c ∈ countries (self Sample.dashboard) →
               c ∈ countries_objects (self Sample.dashboard)) as Hknown.
  { intros c Hc. vm_compute in Hc. apply list_elem_of_singleton in Hc. subst c.
    apply list_elem_of_In. vm_compute. auto. }
  assert (fresh Sample.april (_covid_data (self Sample.dashboard))) as Hf.
  { exists (date 2020 4 2). split; [vm_compute; reflexivity|vm_compute; discriminate]. }
  split; [exact Hrun|]. split; [exact Hcur|]. split; [exact Hknown|].
  split; [exact Hf|].
  destruct (one_series_per_selected_country
              Sample.april Sample.dashboard _ _ Hrun)
    as (Hnd & _ & Hall & _).
  split; [exact Hnd|exact (proj2 (Hall Hcur Hknown Hf))].
Defined.

(** C4, counterexample.  Australia and Czechia are selected in April,
    both among the countries then known, and the assignment is accepted.
    In June the file has no Australia any more: [plot] reloads and draws
    Czechia alone, so that a selected known country has no series. *)
Lemma known_selection_loses_a_series :
  choices_current (self Sample.dashboard) ∧
  param_set (SetCountries ["Australia"; "Czechia"]) Sample.dashboard
    = (Ok tt, More.two_countries) ∧
  countries (self More.two_countries) = ["Australia"; "Czechia"] ∧
  Forall (λ c, c ∈ countries_objects (self More.two_countries))
         (countries (self More.two_countries)) ∧
  ∃ fig s',
    plot Sample.june More.two_countries = (Ok fig, s') ∧
    trace_name <$> ts_traces fig = ["Czechia"] ∧
    "Australia" ∈ countries (self More.two_countries) ∧
    "Australia" ∉ trace_name <$> ts_traces fig.
Proof.
  split; [vm_compute; reflexivity|]. split; [vm_compute; reflexivity|].
  split; [vm_compute; reflexivity|].
  split; [apply (bool_decide_unpack _); vm_compute; exact I|].
  destruct (plot Sample.june More.two_countries) as [[fig|e] s'] eqn:Hrun;
    [|vm_compute in Hrun; discriminate].
  vm_compute in Hrun. injection Hrun as <- _.
  eexists _, _. split; [reflexivity|]. split; [vm_compute; reflexivity|].
  split; [left|].
  intros Hin%list_elem_of_In. vm_compute in Hin. intuition discriminate.
Qed.

(** C2, counterexample.  In June the frame cached in April is stale:
    [plot] reloads, and the cached frame, the date bounds and the country
    choices of the object are no longer what they were. *)
Lemma stale_view_changes_state :
  more_than_one_day_older Sample.june (_covid_data (self Sample.dashboard)) ∧
  self (plot Sample.june Sample.dashboard).2 ≠ self Sample.dashboard ∧
  Date_max (_covid_data (self Sample.dashboard)) = Some (date 2020 4 2) ∧
  Date_max (_covid_data (self (plot Sample.june Sample.dashboard).2))
    = Some (date 2020 6 2) ∧
  map_plot_date_bounds (self Sample.dashboard) = (date 2020 4 1, date 2020 4 2) ∧
  map_plot_date_bounds (self (plot Sample.june Sample.dashboard).2)
    = (date 2020 6 1, date 2020 6 2) ∧
  countries_objects (self (plot Sample.june Sample.dashboard).2)
    = ["Czechia"; "Slovakia"].
Proof.
  split.
  { exists (date 2020 4 2). split; [vm_compute; reflexivity|by vm_compute]. }
  split.
  { intros Heq. apply (f_equal map_plot_date_bounds) in Heq.
    vm_compute in Heq. discriminate. }
  vm_compute. done.
Qed.

(** In April the same call changes nothing; in June it leaves the object
    that the reload leaves. *)
Lemma views_are_pure_on_fresh_data_witness :
  ¬ more_than_one_day_older Sample.april (_covid_data (self Sample.dashboard)) ∧
  Date_max (_covid_data (self Sample.dashboard)) = Some (date 2020 4 2) ∧
  (plot Sample.april Sample.dashboard).2 = Sample.dashboard ∧
  (plot Sample.april Sample.dashboard).1
    = Ok (plot_of (self Sample.dashboard) (_covid_data (self Sample.dashboard))) ∧
  more_than_one_day_older Sample.june (_covid_data (self Sample.dashboard)) ∧
  self (plot Sample.june Sample.dashboard).2
    = self (update_covid_data Sample.june Sample.dashboard).2 ∧
  _covid_data (self (update_covid_data Sample.june Sample.dashboard).2)
    = loaded Sample.csv_june.
Proof.
  assert (Date_max (_covid_data (self Sample.dashboard)) = Some (date 2020 4 2))
    as Hm by (vm_compute; reflexivity).
  assert (¬ more_than_one_day_older Sample.april (_covid_data (self Sample.dashboard)))
    as Hf.
  { intros (m & Hm' & Hlt). rewrite Hm in Hm'. injection Hm' as <-.
    vm_compute in Hlt. discriminate. }
  assert (more_than_one_day_older Sample.june (_covid_data (self Sample.dashboard)))
    as Hst.
  { exists (date 2020 4 2). split; [exact Hm|by vm_compute]. }
  destruct (views_are_pure_on_fresh_data Sample.april Sample.dashboard)
    as (_ & Hfresh & _).
  destruct (views_are_pure_on_fresh_data Sample.june Sample.dashboard)
    as (_ & _ & Hstale).
  destruct (Hfresh Hf) as ((Hsame & _) & _ & Hval).
  destruct (Hstale Hst) as (Hplot & _ & _ & Hfile).
  split; [exact Hf|]. split; [exact Hm|]. split; [exact Hsame|].
  split; [exact (proj1 (Hval _ Hm))|].
  split; [exact Hst|]. split; [exact Hplot|].
  refine (proj1 (Hfile Sample.csv_june (date 2020 6 1) (date 2020 6 2) eq_refl _ _));
    vm_compute; reflexivity.
Defined.

(** The map of 2 April with the log scale on: the cached frame is as it
    was, and the rows shown are the cached rows of that day. *)
Lemma log_scale_leaves_stored_values_witness :
  reachable Sample.dashboard ∧
  map_plot Sample.april (with_log_scale true Sample.dashboard)
    = (Ok Sample.log_map_2_april, with_log_scale true Sample.dashboard) ∧
  _covid_data (self (map_plot Sample.april (with_log_scale true Sample.dashboard)).2)
    = _covid_data (self Sample.dashboard) ∧
  rows (ch_data Sample.log_map_2_april)
    = rows (on_date (self Sample.dashboard) (_covid_data (self Sample.dashboard))).
Proof.
  assert (map_plot Sample.april (with_log_scale true Sample.dashboard)
          = (Ok Sample.log_map_2_april, with_log_scale true Sample.dashboard)) as Hrun
    by (vm_compute; reflexivity).
  assert (¬ more_than_one_day_older Sample.april (_covid_data (self Sample.dashboard)))
    as Hf.
  { intros (m & Hm & Hlt). vm_compute in Hm. injection Hm as <-.
    vm_compute in Hlt. discriminate. }
  destruct (log_scale_leaves_stored_values Sample.april Sample.dashboard)
    as (_ & Hcache & _ & Hfig).
  split; [exact dashboard_is_reachable|]. split; [exact Hrun|].
  split; [exact (Hcache Hf)|].
  exact (proj1 (proj2 (proj2 (proj2 (Hfig _ _ Hrun))))).
Defined.

(** C1.  The code at the input where it departs from the claim.  The
    dashboard made in April has 2 April selected, within its bounds.  In
    June the file starts on 1 June: the reload, here through a stale read
    of [covid_data], moves the bounds to 1 June and 2 June, a later
    maximum, and leaves 2 April selected: a date outside the new bounds,
    where clamping gives 1 June.  The comment at the declaration of
    [map_plot_date] announces that [update_covid_data] changes the
    selected date as well as the bounds, and [__init__] on the same file
    does select a date within the bounds, the last day. *)
Lemma reload_does_not_clamp :
  Date_max (_covid_data (self Sample.dashboard)) = Some (date 2020 4 2) ∧
  map_plot_date (self Sample.dashboard) = date 2020 4 2 ∧
  within (map_plot_date_bounds (self Sample.dashboard))
         (map_plot_date (self Sample.dashboard)) ∧
  covid_data Sample.june Sample.dashboard
    = (Ok (_covid_data (self (update_covid_data Sample.june Sample.dashboard).2)),
       (update_covid_data Sample.june Sample.dashboard).2) ∧
  Date_max (_covid_data (self (update_covid_data Sample.june Sample.dashboard).2))
    = Some (date 2020 6 2) ∧
  map_plot_date_bounds (self (update_covid_data Sample.june Sample.dashboard).2)
    = (date 2020 6 1, date 2020 6 2) ∧
  map_plot_date (self (update_covid_data Sample.june Sample.dashboard).2)
    = date 2020 4 2 ∧
  ¬ within (map_plot_date_bounds (self (update_covid_data Sample.june Sample.dashboard).2))
           (map_plot_date (self (update_covid_data Sample.june Sample.dashboard).2)) ∧
  clamp (date 2020 6 1, date 2020 6 2) (date 2020 4 2) = date 2020 6 1 ∧
  map_plot_date (self (update_covid_data Sample.june Sample.dashboard).2)
    ≠ clamp (map_plot_date_bounds
               (self (update_covid_data Sample.june Sample.dashboard).2))
            (map_plot_date (self Sample.dashboard)) ∧
  map_plot_date (self (new Sample.june [] []).2) = date 2020 6 2 ∧
  within (map_plot_date_bounds (self (new Sample.june [] []).2))
         (map_plot_date (self (new Sample.june [] []).2)).
Proof.
  vm_compute. repeat split; try done.
  intros [Hlo _]. by apply Hlo.
Qed.

(** 1 May is outside the bounds of the dashboard made in April. *)
Lemma out_of_domain_assignment_is_rejected_witness :
  outside_domain (self Sample.dashboard) (SetMapPlotDate (date 2020 5 1)) ∧
  ∃ msg,
    param_set (SetMapPlotDate (date 2020 5 1)) Sample.dashboard
      = (Raise (ValueError msg), Sample.dashboard) ∧
    update Sample.april Sample.layout (SetMapPlotDate (date 2020 5 1)) Sample.dashboard
      = (Raise (ValueError msg), Sample.dashboard).
Proof.
  assert (outside_domain (self Sample.dashboard) (SetMapPlotDate (date 2020 5 1)))
    as Hout.
  { intros [_ Hle]. vm_compute in Hle. by apply Hle. }
  split; [exact Hout|].
  exact (out_of_domain_assignment_is_rejected
           Sample.april Sample.layout Sample.dashboard _ Hout).
Defined.

(** A country that is not among the choices, and a metric that is not
    one of the three, are outside the domain as well. *)
Example other_values_outside_domain :
  outside_domain (self Sample.dashboard) (SetCountries ["Czechia"; "Atlantis"]) ∧
  outside_domain (self Sample.dashboard) (SetPlottedVariable "Cases").
Proof.
  split.
  - exists "Atlantis". split; [by right; left|].
    intros Hin%list_elem_of_In. vm_compute in Hin. intuition discriminate.
  - intros Hin%list_elem_of_In. vm_compute in Hin. intuition discriminate.
Qed.

(** Switching the log scale on calls [plot] and [map_plot] again, and
    not [selected_day_numbers]. *)
Lemma recompute_follows_declared_dependencies_witness :
  ∃ out s',
    update Sample.april Sample.layout (SetUseLogScale true) Sample.dashboard
      = (Ok out, s') ∧
    out.*1 = [v_plot; v_map_plot] ∧
    v_selected_day_numbers ∉ out.*1.
Proof.
  destruct (update Sample.april Sample.layout (SetUseLogScale true) Sample.dashboard)
    as [[out|e] s'] eqn:Hrun; [|vm_compute in Hrun; discriminate].
  exists out, s'. split; [reflexivity|].
  destruct (recompute_follows_declared_dependencies _ _ _ _ _ _ Hrun)
    as (Hout & _ & Hnot & _).
  split; [|exact (Hnot eq_refl)].
  rewrite Hout. vm_compute. reflexivity.
Defined.

End Examples.

(** * Further properties of the code *)

(** ** The aggregation *)

Section LoaderMore.
Context `{Libraries}.

Lemma key_le_trans : Transitive key_le.
Proof.
  intros [c1 d1] [c2 d2] [c3 d3]. unfold key_le. cbn [fst snd].
  repeat case_decide; subst; intros Ha Hb; try done; try lia.
  - destruct H1. by apply (anti_symm String.le).
  - by trans c2.
Qed.

Lemma key_le_total : Total key_le.
Proof.
  intros [c1 d1] [c2 d2]. unfold key_le. cbn [fst snd].
  repeat case_decide; subst; try done; try lia.
  apply (total String.le).
Qed.

Lemma StronglySorted_group_keys (raw : list RawRow) :
  StronglySorted key_le (group_keys raw).
Proof.
  unfold group_keys.
  apply (@StronglySorted_merge_sort _ key_le _ key_le_trans key_le_total).
Qed.

Lemma StronglySorted_lookup {A} (R : relation A) (l : list A) (i j : nat) (x y : A) :
  StronglySorted R l → (i < j)%nat →
  l !! i = Some x → l !! j = Some y → R x y.
Proof.
  intros Hs. revert i j. induction Hs as [|a l Hs IH Hall]; intros i j Hij Hi Hj.
  - done.
  - destruct j as [|j]; [lia|]. cbn in Hj.
    destruct i as [|i]; cbn in Hi.
    + injection Hi as <-. rewrite Forall_forall in Hall.
      apply Hall. by eapply list_elem_of_lookup_2.
    + apply (IH i j); [lia|done..].
Qed.

(** X1.  The frame [get_covid_data] builds is ordered by country, and by
    date within a country: of two rows, the earlier one has the smaller
    country name or, for the same country, the strictly earlier date. *)
Theorem loaded_rows_are_ordered (raw : list RawRow) (df : DataFrame)
    (i j : nat) (r1 r2 : Row) :
  aggregate raw = Ok df →
  (i < j)%nat →
  rows df !! i = Some r1 →
  rows df !! j = Some r2 →
  String.le (Country r1) (Country r2) ∧
  (Country r1 = Country r2 → Date r1 < Date r2).
Proof.
  rewrite aggregate_ok. intros [= <-] Hij Hi Hj.
  assert ((row_key <$> rows (loaded raw)) !! i = Some (row_key r1)) as Hki
    by (by rewrite list_lookup_fmap, Hi).
  assert ((row_key <$> rows (loaded raw)) !! j = Some (row_key r2)) as Hkj
    by (by rewrite list_lookup_fmap, Hj).
  rewrite loaded_keys in Hki, Hkj.
  pose proof (StronglySorted_lookup _ _ _ _ _ _
                (StronglySorted_group_keys raw) Hij Hki Hkj) as Hle.
  assert (row_key r1 ≠ row_key r2) as Hne.
  { intros Heq. rewrite <- Heq in Hkj.
    pose proof (NoDup_lookup _ _ _ _ (NoDup_group_keys raw) Hki Hkj). lia. }
  unfold key_le, row_key in *. cbn [fst snd] in *.
  destruct (decide (Country r1 = Country r2)) as [Hc|Hc].
  - split; [by rewrite Hc|]. intros _.
    destruct (decide (Date r1 = Date r2)) as [Hd|Hd]; [|lia].
    destruct Hne. by rewrite Hc, Hd.
  - done.
Qed.

Lemma total_zero {A} (ks : list A) : column_total ((λ _, 0) <$> ks) = 0.
Proof.
  unfold column_total. induction ks as [|k ks IH]; [done|]. cbn. by rewrite IH.
Qed.

Lemma total_plus {A} (f g : A → Z) (ks : list A) :
  column_total ((λ k, f k + g k) <$> ks)
  = column_total (f <$> ks) + column_total (g <$> ks).
Proof.
  unfold column_total. induction ks as [|k ks IH]; [done|].
  cbn [fmap list_fmap foldr] in *. rewrite IH. lia.
Qed.

Lemma total_indicator {A} `{EqDecision A} (ks : list A) (k0 : A) (v : Z) :
  NoDup ks → k0 ∈ ks →
  column_total ((λ k, if decide (k0 = k) then v else 0) <$> ks) = v.
Proof.
  unfold column_total.
  induction ks as [|k ks IH]; intros Hnd Hin; [by apply elem_of_nil in Hin|].
  apply NoDup_cons in Hnd as [Hk Hnd]. cbn [fmap list_fmap foldr].
  destruct (decide (k0 = k)) as [->|Hne].
  - assert (foldr Z.add 0 ((λ k', if decide (k = k') then v else 0) <$> ks) = 0)
      as ->; [|lia].
    clear IH Hin Hnd. induction ks as [|k' ks IH]; [done|].
    apply not_elem_of_cons in Hk as [Hkk Hk]. cbn [fmap list_fmap foldr].
    rewrite decide_False by done. by rewrite IH.
  - apply elem_of_cons in Hin as [->|Hin]; [done|].
    rewrite IH; [lia|done..].
Qed.

(** Summing group by group is summing the lines that have a key. *)
Lemma group_totals (g : RawRow → Z) (raw : list RawRow) (ks : list (string * Z)) :
  NoDup ks →
  (∀ x k, x ∈ raw → raw_key x = Some k → k ∈ ks) →
  column_total ((λ k, column_total (g <$> group_of k raw)) <$> ks)
  = column_total (g <$> keyed raw).
Proof.
  intros Hnd. induction raw as [|x raw IH]; intros Hin.
  - apply total_zero.
  - assert (∀ y k, y ∈ raw → raw_key y = Some k → k ∈ ks) as Hin'.
    { intros y k Hy. apply Hin. by right. }
    unfold keyed. rewrite filter_cons. fold (keyed raw).
    destruct (raw_key x) as [kx|] eqn:Hkx.
    + rewrite decide_True by (by eexists).
      assert (∀ k, column_total (g <$> group_of k (x :: raw))
                   = (if decide (kx = k) then g x else 0)
                     + column_total (g <$> group_of k raw)) as Hk.
      { intros k. unfold group_of. rewrite filter_cons, Hkx.
        destruct (decide (kx = k)) as [->|Hne].
        - by rewrite decide_True.
        - rewrite decide_False by congruence. done. }
      erewrite list_fmap_ext; [|intros ? k ?; apply Hk].
      rewrite (total_plus (λ k, if decide (kx = k) then g x else 0)).
      rewrite total_indicator; [|done|by apply (Hin x); [left|]].
      rewrite (IH Hin'). done.
    + rewrite decide_False by (by intros [? [=]]).
      rewrite <- (IH Hin'). f_equal. apply list_fmap_ext. intros _ k _.
      unfold group_of. rewrite filter_cons, Hkx. by rewrite decide_False.
Qed.

(** *** Arithmetic on 64 bits *)

Lemma in_int64_bounds (z : Z) : in_int64 z = true ↔ - 2 ^ 63 ≤ z < 2 ^ 63.
Proof.
  unfold in_int64. rewrite andb_true_iff, Z.leb_le, Z.ltb_lt. done.
Qed.

Lemma wrap64_id (z : Z) : in_int64 z = true → wrap64 z = z.
Proof.
  intros Hz%in_int64_bounds. unfold wrap64.
  rewrite Z.mod_small; [lia|].
  change (2 ^ 64) with (2 ^ 63 + 2 ^ 63). lia.
Qed.

Lemma wrap64_plus_l (a b : Z) : wrap64 (wrap64 a + b) = wrap64 (a + b).
Proof.
  unfold wrap64. f_equal.
  replace ((a + 2 ^ 63) mod 2 ^ 64 - 2 ^ 63 + b + 2 ^ 63)
    with ((a + 2 ^ 63) mod 2 ^ 64 + b) by lia.
  rewrite Zplus_mod_idemp_l. f_equal. lia.
Qed.

Lemma wrap64_plus_r (a b : Z) : wrap64 (a + wrap64 b) = wrap64 (a + b).
Proof. by rewrite (Z.add_comm a), wrap64_plus_l, Z.add_comm. Qed.

Lemma int64_eq (a b : int64) : int64_val a = int64_val b → a = b.
Proof.
  destruct a as [a Ha], b as [b Hb]. cbn. intros ->.
  f_equal. apply proof_irrel.
Qed.

Lemma i64_val (a : int64) : i64 (int64_val a) = a.
Proof. apply int64_eq. cbn. apply wrap64_id, int64_range. Qed.

Lemma int64_sum_val (l : list int64) :
  int64_val (int64_sum l) = wrap64 (column_total (int64_val <$> l)).
Proof.
  unfold int64_sum.
  assert (∀ a, int64_val (foldl int64_add a l)
               = wrap64 (int64_val a + column_total (int64_val <$> l))) as Hgen.
  { induction l as [|x l IH]; intros a.
    - cbn. rewrite Z.add_0_r. symmetry. apply wrap64_id, int64_range.
    - cbn [foldl fmap list_fmap]. rewrite IH. unfold column_total. cbn [foldr].
      cbn [int64_add i64 int64_val]. rewrite wrap64_plus_l. f_equal. lia. }
  rewrite Hgen. by cbn.
Qed.

Lemma wrap64_total (f : string * Z → Z) (ks : list (string * Z)) :
  wrap64 (column_total ((λ k, wrap64 (f k)) <$> ks))
  = wrap64 (column_total (f <$> ks)).
Proof.
  unfold column_total. induction ks as [|k ks IH]; [done|].
  cbn [fmap list_fmap foldr].
  rewrite wrap64_plus_l, <- wrap64_plus_r, IH, wrap64_plus_r. done.
Qed.

Lemma total_omap {A} (f : A → option int64) (l : list A) :
  column_total (int64_val <$> omap f l)
  = column_total ((λ x, from_option int64_val 0 (f x)) <$> l).
Proof.
  unfold column_total. induction l as [|x l IH]; [done|].
  cbn [omap list_omap fmap list_fmap foldr]. fold (omap f l).
  destruct (f x) as [i|]; cbn [from_option fmap list_fmap foldr]; by rewrite IH.
Qed.

Lemma omap_id_fmap {A B} (f : A → option B) (l : list A) :
  omap id (f <$> l) = omap f l.
Proof.
  induction l as [|x l IH]; [done|].
  cbn [fmap list_fmap omap list_omap]. fold (omap id (f <$> l)). fold (omap f l).
  rewrite IH. done.
Qed.

(** In a column without empty cell the sums are 64-bit integers, and
    their sum is the sum of the cells of all the lines that have a key. *)
Lemma int64_column_totals (f : RawRow → option int64) (raw : list RawRow) :
  Forall (λ x, is_Some (f x)) raw →
  let column := (λ k, agg_sum (f <$> raw) (f <$> group_of k raw)) <$> group_keys raw in
  column = Int <$> int64_cells column ∧
  int64_sum (int64_cells column) = int64_sum (omap f (keyed raw)).
Proof.
  intros Hall column.
  assert (column = Int <$> ((λ k, int64_sum (omap f (group_of k raw)))
                              <$> group_keys raw)) as Hcol.
  { unfold column. rewrite <- list_fmap_compose. apply list_fmap_ext.
    intros _ k _. unfold agg_sum. rewrite bool_decide_eq_true_2.
    - cbn. by rewrite omap_id_fmap.
    - by apply Forall_fmap. }
  assert (int64_cells column
          = (λ k, int64_sum (omap f (group_of k raw))) <$> group_keys raw) as Hcells.
  { rewrite Hcol. unfold int64_cells. generalize (group_keys raw).
    intros ks. induction ks as [|k ks IH]; [done|].
    cbn [fmap list_fmap omap list_omap]. f_equal. exact IH. }
  split; [by rewrite Hcells|].
  apply int64_eq. rewrite !int64_sum_val, Hcells, <- list_fmap_compose.
  rewrite (list_fmap_ext _ (λ k, wrap64 (column_total
             ((λ x, from_option int64_val 0 (f x)) <$> group_of k raw))) (group_keys raw)).
  2:{ intros _ k _. cbn. by rewrite int64_sum_val, total_omap. }
  rewrite (wrap64_total (λ k, column_total
             ((λ x, from_option int64_val 0 (f x)) <$> group_of k raw))).
  rewrite total_omap. f_equal.
  apply group_totals; [apply NoDup_group_keys|].
  intros x k Hx Hk. apply elem_of_group_keys. rewrite <- Hk.
  by apply list_elem_of_fmap_2.
Qed.

(** X2.  The aggregation keeps the totals of the columns of integers.
    Where no cell of a CSV column is empty, the column is of dtype
    [int64], every sum in the frame is a 64-bit integer, and the 64-bit
    sum of the frame's column is the 64-bit sum of the cells of the CSV
    lines that have a country and a date (the lines [groupby] keeps): both
    wrap around alike.  This holds of each of the three columns. *)
Theorem aggregation_keeps_totals (raw : list RawRow) (df : DataFrame) :
  aggregate raw = Ok df →
  (Forall (λ x, is_Some (raw_Confirmed x)) raw →
   Confirmed <$> rows df = Int <$> int64_cells (Confirmed <$> rows df) ∧
   int64_sum (int64_cells (Confirmed <$> rows df))
     = int64_sum (omap raw_Confirmed (keyed raw))) ∧
  (Forall (λ x, is_Some (raw_Recovered x)) raw →
   Recovered <$> rows df = Int <$> int64_cells (Recovered <$> rows df) ∧
   int64_sum (int64_cells (Recovered <$> rows df))
     = int64_sum (omap raw_Recovered (keyed raw))) ∧
  (Forall (λ x, is_Some (raw_Deaths x)) raw →
   Deaths <$> rows df = Int <$> int64_cells (Deaths <$> rows df) ∧
   int64_sum (int64_cells (Deaths <$> rows df))
     = int64_sum (omap raw_Deaths (keyed raw))).
Proof.
  rewrite aggregate_ok. intros [= <-].
  rewrite rows_loaded. unfold groupby_agg. rewrite <- !list_fmap_compose.
  split; [|split]; intros Hall.
  - apply (int64_column_totals raw_Confirmed raw Hall).
  - apply (int64_column_totals raw_Recovered raw Hall).
  - apply (int64_column_totals raw_Deaths raw Hall).
Qed.

Lemma filter_unique_image {A B} `{EqDecision B} (f : A → B) (l : list A) (x : A) :
  NoDup (f <$> l) → x ∈ l → filter (λ y, f y = f x) l = [x].
Proof.
  induction l as [|a l IH]; intros Hnd Hin; [by apply elem_of_nil in Hin|].
  rewrite fmap_cons in Hnd. apply NoDup_cons in Hnd as [Ha Hnd].
  apply elem_of_cons in Hin as [->|Hin].
  - rewrite filter_cons_True by done. f_equal.
    destruct (filter (λ y, f y = f a) l) as [|y l'] eqn:Hf; [done|].
    assert (y ∈ filter (λ y, f y = f a) l) as Hy by (rewrite Hf; left).
    apply list_elem_of_filter in Hy as [Hy1 Hy2].
    destruct Ha. rewrite <- Hy1. by apply list_elem_of_fmap_2.
  - rewrite filter_cons_False; [by apply IH|].
    intros Heq. apply Ha. rewrite Heq. by apply list_elem_of_fmap_2.
Qed.

Lemma omap_Some_fmap {A B} (f : A → option B) (l : list A) :
  Forall (λ x, is_Some (f x)) l → Some <$> omap f l = f <$> l.
Proof.
  induction 1 as [|x l [y Hy] _ IH]; [done|].
  cbn [omap list_omap fmap list_fmap]. fold (omap f l). rewrite Hy. cbn.
  by rewrite IH.
Qed.

(** A cell that is alone in its group, in a column without empty cell,
    is its own sum. *)
Lemma agg_sum_alone (column : list (option int64)) (i : int64) :
  Forall is_Some column → agg_sum column [Some i] = Int i.
Proof.
  intros Hall. unfold agg_sum. rewrite bool_decide_eq_true_2 by done.
  f_equal. apply int64_eq. rewrite int64_sum_val. cbn.
  rewrite Z.add_0_r. apply wrap64_id, int64_range.
Qed.

(** X3.  Where the CSV has one line per country and date (every line has
    both, and no two lines share them: no states), the aggregation changes
    nothing: the frame has as many rows as the CSV has lines, and each
    line is found in it with its own coordinates and with the sums of its
    own cells alone, which in a column without empty cell are the cells
    themselves. *)
Theorem aggregation_without_states (raw : list RawRow) (df : DataFrame) :
  NoDup (raw_key <$> raw) →
  Forall (λ x, is_Some (raw_key x)) raw →
  aggregate raw = Ok df →
  length (rows df) = length raw ∧
  (∀ column i, Forall is_Some column → agg_sum column [Some i] = Int i) ∧
  ∀ x, x ∈ raw →
    ∃ r, r ∈ rows df ∧
      raw_Country x = Some (Country r) ∧ raw_Date x = Some (Date r) ∧
      Confirmed r = agg_sum (raw_Confirmed <$> raw) [raw_Confirmed x] ∧
      Recovered r = agg_sum (raw_Recovered <$> raw) [raw_Recovered x] ∧
      Deaths r = agg_sum (raw_Deaths <$> raw) [raw_Deaths x] ∧
      Lat r = raw_Lat x ∧ Long r = raw_Long x.
Proof.
  intros Hnd Hkeys. rewrite aggregate_ok. intros [= <-].
  assert (NoDup (omap raw_key raw)) as Hnd'.
  { apply (NoDup_fmap_1 Some). by rewrite omap_Some_fmap. }
  split; [|split; [apply agg_sum_alone|]].
  - rewrite <- (length_fmap row_key), loaded_keys.
    unfold group_keys. rewrite merge_sort_Permutation.
    rewrite <- (length_fmap raw_key raw), <- (omap_Some_fmap raw_key raw Hkeys).
    rewrite length_fmap.
    apply Permutation_length, NoDup_Permutation;
      [apply NoDup_unique|done|apply elem_of_unique].
  - intros x Hx.
    rewrite Forall_forall in Hkeys. destruct (Hkeys x Hx) as [[c d] Hk].
    assert ((c, d) ∈ group_keys raw) as Hin.
    { apply elem_of_group_keys. rewrite <- Hk. by apply list_elem_of_fmap_2. }
    exists (set_iso_alpha (agg_row raw (c, d) (group_of (c, d) raw)) (code_of c)).
    split.
    { rewrite rows_loaded. unfold groupby_agg. rewrite <- list_fmap_compose.
      apply list_elem_of_fmap. by exists (c, d). }
    unfold group_of. rewrite <- Hk, (filter_unique_image raw_key raw x Hnd Hx).
    unfold raw_key in Hk.
    destruct (raw_Country x) as [c'|]; [|done].
    destruct (raw_Date x) as [d'|]; [|done].
    injection Hk as -> ->. cbn.
    by destruct (raw_Lat x), (raw_Long x).
Qed.

End LoaderMore.

(** ** Reloads that fail, and reloads that repeat *)

Section ReloadMore.
Context `{Libraries}.

(** X4.  When [read_csv] raises, the reload raises the same exception
    and the object is as it was: only the journal shows the attempt.  On a
    stale cache the read of [covid_data] and each of the three views end
    the same way. *)
Theorem failed_request_leaves_object (w : World) (s : Session) (e : exn) :
  remote w = Raise e →
  let s' := {| self := self s; journal := journal s ++ reload_events |} in
  update_covid_data w s = (Raise e, s') ∧
  (more_than_one_day_older w (_covid_data (self s)) →
   covid_data w s = (Raise e, s') ∧
   plot w s = (Raise e, s') ∧
   map_plot w s = (Raise e, s') ∧
   selected_day_numbers w s = (Raise e, s')).
Proof.
  intros Hr s'.
  assert (update_covid_data w s = (Raise e, s')) as Hu.
  { by rewrite update_covid_data_eq, Hr. }
  split; [done|]. intros Hst%is_stale_spec.
  assert (covid_data w s = (Raise e, s')) as Hread.
  { by rewrite covid_data_eq, Hst, Hu. }
  pose proof (plot_eq w s) as Hp.
  pose proof (map_plot_eq w s) as Hm.
  pose proof (selected_day_numbers_eq w s) as Hn.
  rewrite Hread in Hp, Hm, Hn. done.
Qed.

Lemma loaded_nil : loaded [] = empty_frame.
Proof. reflexivity. Qed.

(** X5.  Reloading twice from the same file is reloading once: the
    second reload ends as the first did and leaves the object the first
    one left. *)
Theorem reload_twice_is_reload_once (w : World) (s : Session) :
  let s' := (update_covid_data w s).2 in
  (update_covid_data w s').1 = (update_covid_data w s).1 ∧
  self (update_covid_data w s').2 = self s'.
Proof.
  cbn zeta. rewrite (update_covid_data_eq w s). cbn zeta.
  destruct (remote w) as [raw|e] eqn:Hr.
  - destruct (Date_min (loaded raw)) as [lo|] eqn:Hlo;
      [destruct (Date_max (loaded raw)) as [hi|] eqn:Hhi|];
      cbn [snd]; rewrite update_covid_data_eq; cbn zeta;
      rewrite Hr, Hlo, ?Hhi; done.
  - cbn [snd]. rewrite update_covid_data_eq. cbn zeta. by rewrite Hr.
Qed.

(** X6.  Neither a reload nor a read of [covid_data] ever changes a
    parameter value: the selected countries, metric, scale, plot type and
    date are after the call what they were before, however it ends. *)
Theorem reload_keeps_selection (w : World) (s : Session) :
  selection (self (update_covid_data w s).2) = selection (self s) ∧
  selection (self (covid_data w s).2) = selection (self s).
Proof.
  split; [|apply covid_data_selection].
  rewrite update_covid_data_eq. cbn zeta.
  destruct (remote w) as [raw|e]; [|done].
  by destruct (Date_min (loaded raw)); [destruct (Date_max (loaded raw))|].
Qed.

Lemma covid_data_stale_ok (w : World) (s : Session) (raw : list RawRow) (lo hi : Z) :
  is_stale w (_covid_data (self s)) = Ok true →
  remote w = Ok raw →
  Date_min (loaded raw) = Some lo →
  Date_max (loaded raw) = Some hi →
  covid_data w s
  = (Ok (loaded raw), {| self := reloaded (loaded raw) lo hi (self s);
                         journal := journal s ++ reload_events |}).
Proof.
  intros Hst Hr Hlo Hhi.
  rewrite covid_data_eq, Hst, update_covid_data_eq, Hr. cbn zeta.
  by rewrite Hlo, Hhi.
Qed.

Lemma requests_reload (j : list event) :
  requests (j ++ reload_events) = S (requests j).
Proof.
  unfold requests. rewrite filter_app, length_app.
  change (length (filter (λ e, e = HttpGet csv_url) reload_events)) with 1%nat. lia.
Qed.

(** The journal after [n] reloads. *)
Ltac read_stale Hst Hr Hlo Hhi :=
  rewrite (covid_data_stale_ok _ _ _ _ _ Hst Hr Hlo Hhi);
  cbn beta iota; cbn [self journal].

(** X7.  A view on a stale cache, where the file gives a frame with
    rows, loads once if the file is up to date.
    If the file itself is more than a day behind, the cache stays stale
    and every read of [covid_data] loads again: [plot] and [map_plot]
    request the file twice, [selected_day_numbers] three times. *)
Theorem views_reload_at_every_read (w : World) (s : Session)
    (raw : list RawRow) (df : DataFrame) :
  more_than_one_day_older w (_covid_data (self s)) →
  remote w = Ok raw →
  aggregate raw = Ok df →
  rows df ≠ [] →
  if decide (more_than_one_day_older w df) then
    requests (journal (plot w s).2) = (requests (journal s) + 2)%nat ∧
    requests (journal (map_plot w s).2) = (requests (journal s) + 2)%nat ∧
    requests (journal (selected_day_numbers w s).2) = (requests (journal s) + 3)%nat
  else
    requests (journal (plot w s).2) = (requests (journal s) + 1)%nat ∧
    requests (journal (map_plot w s).2) = (requests (journal s) + 1)%nat ∧
    requests (journal (selected_day_numbers w s).2) = (requests (journal s) + 1)%nat.
Proof.
  intros Hst%is_stale_spec Hr. rewrite aggregate_ok. intros [= <-] Hrows.
  destruct (loaded_dated raw Hrows) as (lo & hi & Hlo & Hhi).
  destruct (decide _) as [Hst'|Hf].
  - apply is_stale_spec in Hst'.
    assert (∀ o j, is_stale w (_covid_data
              (self {| self := reloaded (loaded raw) lo hi o; journal := j |})) = Ok true)
      as Hst2 by done.
    split; [|split].
    + unfold plot, mbind, M_bind, bind, gets, lift, mret, M_ret, ret.
      read_stale Hst Hr Hlo Hhi. read_stale (Hst2 (self s) (journal s ++ reload_events)) Hr Hlo Hhi.
      rewrite loc_where_. cbn [snd journal]. rewrite !requests_reload. lia.
    + unfold map_plot, mbind, M_bind, bind, gets, lift, mret, M_ret, ret.
      read_stale Hst Hr Hlo Hhi. read_stale (Hst2 (self s) (journal s ++ reload_events)) Hr Hlo Hhi.
      rewrite (is_stale_Ok_dt_date _ _ _ Hst'). cbn beta iota. rewrite loc_on_date.
      destruct (use_log_scale _); cbn [snd journal]; rewrite !requests_reload; lia.
    + unfold selected_day_numbers, mbind, M_bind, bind, gets, lift, mret, M_ret, ret.
      read_stale Hst Hr Hlo Hhi. read_stale (Hst2 (self s) (journal s ++ reload_events)) Hr Hlo Hhi.
      rewrite (is_stale_Ok_dt_date _ _ _ Hst'). cbn beta iota.
      read_stale (Hst2 (reloaded (loaded raw) lo hi (self s))
                       ((journal s ++ reload_events) ++ reload_events)) Hr Hlo Hhi.
      rewrite <- list_fmap_compose, mask_and_fmap, loc_where_. cbn [snd journal].
      rewrite !requests_reload. lia.
  - assert (is_stale w (loaded raw) = Ok false) as Hf'.
    { rewrite (is_stale_dated w _ hi Hhi). f_equal. apply bool_decide_eq_false.
      intros Hlt. apply Hf. exists hi. split; [done|lia]. }
    assert (∀ o j, is_stale w (_covid_data
              (self {| self := reloaded (loaded raw) lo hi o; journal := j |})) = Ok false)
      as Hf2 by done.
    split; [|split].
    + unfold plot, mbind, M_bind, bind, gets, lift, mret, M_ret, ret.
      read_stale Hst Hr Hlo Hhi. rewrite (covid_data_fresh _ _ (Hf2 _ _)).
      cbn beta iota. rewrite loc_where_. cbn [snd journal].
      rewrite requests_reload. lia.
    + unfold map_plot, mbind, M_bind, bind, gets, lift, mret, M_ret, ret.
      read_stale Hst Hr Hlo Hhi. rewrite (covid_data_fresh _ _ (Hf2 _ _)).
      cbn beta iota. cbn [self reloaded set_objects set_bounds set__covid_data _covid_data].
      rewrite (is_stale_Ok_dt_date _ _ _ Hf'). cbn beta iota. rewrite loc_on_date.
      destruct (use_log_scale _); cbn [snd journal]; rewrite requests_reload; lia.
    + unfold selected_day_numbers, mbind, M_bind, bind, gets, lift, mret, M_ret, ret.
      read_stale Hst Hr Hlo Hhi. rewrite (covid_data_fresh _ _ (Hf2 _ _)).
      cbn beta iota. cbn [self reloaded set_objects set_bounds set__covid_data _covid_data].
      rewrite (is_stale_Ok_dt_date _ _ _ Hf'). cbn beta iota.
      rewrite (covid_data_fresh _ _ (Hf2 _ _)).
      cbn beta iota. cbn [self reloaded set_objects set_bounds set__covid_data _covid_data].
      rewrite <- list_fmap_compose, mask_and_fmap, loc_where_. cbn [snd journal].
      rewrite requests_reload. lia.
Qed.

End ReloadMore.

(** ** What the views show *)

Section ViewsMore.
Context `{Libraries}.

(** X8.  Whatever is selected, [plot] draws one trace for each selected
    country that occurs in the frame it read, and nothing else: a selected
    country without data is left out silently, and an empty selection
    gives a figure without traces.  The figure carries the plot type, the
    metric and the scale of the object. *)
Theorem plot_draws_selected_countries_with_data (w : World) (s : Session)
    (fig : TimeSeries) (s' : Session) :
  plot w s = (Ok fig, s') →
  NoDup (trace_name <$> ts_traces fig) ∧
  (∀ c, c ∈ trace_name <$> ts_traces fig ↔
        c ∈ countries (self s) ∧ c ∈ Country <$> rows (_covid_data (self s'))) ∧
  (countries (self s) = [] → ts_traces fig = []) ∧
  ts_kind fig = plot_type (self s) ∧
  ts_y fig = metric_name (plotted_variable (self s)) ∧
  ts_log_y fig = use_log_scale (self s).
Proof.
  intros Hrun.
  pose proof (plot_eq w s) as Hv.
  destruct (covid_data w s) as [[df|e] s1] eqn:Hread.
  2:{ rewrite Hv in Hrun. discriminate. }
  destruct Hv as [j Hv]. rewrite Hv in Hrun. injection Hrun as Hfig Hs'. subst fig s'.
  apply covid_data_returns_cache in Hread as ->. cbn [self].
  unfold plot_of, px_plot. cbn [ts_traces ts_kind ts_y ts_log_y].
  set (data := where_ _ _).
  assert (∀ c, c ∈ unique (Country <$> rows data) ↔
               c ∈ countries (self s) ∧ c ∈ Country <$> rows (_covid_data (self s1)))
    as Hnames.
  { intros c. rewrite elem_of_unique, !list_elem_of_fmap. unfold data.
    setoid_rewrite rows_where_. setoid_rewrite list_elem_of_filter.
    setoid_rewrite bool_decide_eq_true. split.
    - intros (r & -> & Hin & Hr). split; [done|by exists r].
    - intros (Hc & r & -> & Hr). by exists r. }
  rewrite <- list_fmap_compose.
  assert (trace_name ∘ (λ c, {| trace_name := c;
            trace_points := (λ r, (Date r, metric (plotted_variable (self s)) r))
                              <$> filter (λ r, Country r = c) (rows data) |})
          = id) as -> by done.
  rewrite list_fmap_id. split; [apply NoDup_unique|]. split; [done|].
  split; [|done]. intros Hnil.
  destruct (unique (Country <$> rows data)) as [|c l] eqn:Hu; [done|].
  assert (c ∈ c :: l) as Hc by left.
  apply Hnames in Hc as [Hc _]. rewrite Hnil in Hc. by apply elem_of_nil in Hc.
Qed.

Lemma filter_nil_forall {A} (P : A → Prop) `{∀ x, Decision (P x)} (l : list A) :
  (∀ x, x ∈ l → ¬ P x) → filter P l = [].
Proof.
  intros Hall. destruct (filter P l) as [|x l'] eqn:Hf; [done|].
  assert (x ∈ filter P l) as Hx by (rewrite Hf; left).
  apply list_elem_of_filter in Hx as [Hp Hx]. destruct (Hall x Hx Hp).
Qed.

(** X9.  A selected date outside the range of dates of the frame that is
    read (as after a reload that moved the bounds away from it) raises
    nothing: the table of [selected_day_numbers] and the frame given to
    the map are empty. *)
Theorem date_outside_data_shows_nothing (w : World) (s : Session) (lo hi : Z) :
  ¬ within (lo, hi) (map_plot_date (self s)) →
  (∀ tab s', selected_day_numbers w s = (Ok tab, s') →
     Date_min (_covid_data (self s')) = Some lo →
     Date_max (_covid_data (self s')) = Some hi →
     ov_table tab = [] ∧ ov_date tab = map_plot_date (self s)) ∧
  (∀ fig s', map_plot w s = (Ok fig, s') →
     Date_min (_covid_data (self s')) = Some lo →
     Date_max (_covid_data (self s')) = Some hi →
     rows (ch_data fig) = []).
Proof.
  intros Hout.
  assert (∀ df, Date_min df = Some lo → Date_max df = Some hi →
            ∀ r, r ∈ rows df → Date r ≠ map_plot_date (self s)) as Hno.
  { intros df [_ Hlo]%Date_min_spec [_ Hhi]%Date_max_spec r Hr Heq.
    apply Hout. unfold within. cbn [fst snd]. rewrite <- Heq.
    split; [by apply Hlo|by apply Hhi]. }
  split.
  - intros tab s' Hrun Hlo Hhi.
    pose proof (selected_day_numbers_eq w s) as Hv.
    destruct (covid_data w s) as [[df|e] s1] eqn:Hread.
    2:{ rewrite Hv in Hrun. discriminate. }
    destruct Hv as [j Hv]. rewrite Hv in Hrun.
    injection Hrun as Htab Hs'. subst tab s'.
    apply covid_data_returns_cache in Hread as ->. cbn [self] in *.
    unfold selected_day_numbers_of. cbn [ov_table ov_date]. split; [|done].
    rewrite rows_where_, filter_nil_forall; [done|].
    intros r Hr [Hd _]%andb_true_iff. apply bool_decide_eq_true in Hd.
    by apply (Hno _ Hlo Hhi r Hr).
  - intros fig s' Hrun Hlo Hhi.
    pose proof (map_plot_eq w s) as Hv.
    destruct (covid_data w s) as [[df|e] s1] eqn:Hread.
    2:{ rewrite Hv in Hrun. discriminate. }
    destruct Hv as [j Hv]. rewrite Hv in Hrun.
    injection Hrun as Hfig Hs'. subst fig s'.
    apply covid_data_returns_cache in Hread as ->. cbn [self] in *.
    assert (rows (on_date (self s) (_covid_data (self s1))) = []) as Hrows.
    { unfold on_date. rewrite rows_where_, filter_nil_forall; [done|].
      intros r Hr Hd. apply bool_decide_eq_true in Hd.
      by apply (Hno _ Hlo Hhi r Hr). }
    unfold map_plot_of.
    destruct (use_log_scale (self s)); cbn [ch_data px_choropleth];
      by rewrite ?rows_assign.
Qed.

(** X10.  In a reachable state, every selected country that has a row
    for the selected date in the frame that is read has exactly one row in
    the table of [selected_day_numbers], and it carries the three numbers
    of that cached row. *)
Theorem table_row_of_selected_country (w : World) (s : Session)
    (tab : Overview) (s' : Session) (r : Row) :
  reachable s →
  selected_day_numbers w s = (Ok tab, s') →
  r ∈ rows (_covid_data (self s')) →
  Date r = map_plot_date (self s) →
  Country r ∈ countries (self s) →
  filter (λ e, e.1 = Country r) (ov_table tab)
  = [(Country r, (Confirmed r, Recovered r, Deaths r))].
Proof.
  intros Hs Hrun Hr Hd Hc.
  pose proof (selected_day_numbers_eq w s) as Hv.
  pose proof (keeps_covid_data one_row_per_key one_row_per_key_loaded w s
                (reachable_one_row_per_key s Hs)) as Hk.
  destruct (covid_data w s) as [[df|e] s1] eqn:Hread.
  2:{ rewrite Hv in Hrun. discriminate. }
  destruct Hv as [j Hv]. rewrite Hv in Hrun. injection Hrun as Htab Hs'. subst tab s'.
  apply covid_data_returns_cache in Hread as ->. cbn [snd self] in *.
  unfold selected_day_numbers_of. cbn [ov_table].
  rewrite rows_where_, (filter_fmap _ (λ e, e.1 = Country r)). cbn [fst].
  rewrite list_filter_filter.
  rewrite (list_filter_iff _ (λ y, row_key y = row_key r)).
  - by rewrite (filter_unique_image row_key _ r Hk Hr).
  - intros y. unfold row_key. rewrite andb_true_iff, !bool_decide_eq_true. split.
    + intros (Hyc & Hyd & _). by rewrite Hyc, Hyd, Hd.
    + intros [= Hyc Hyd]. rewrite Hyc, Hyd. done.
Qed.

Lemma StronglySorted_filter {A} (R : relation A) (P : A → Prop)
    `{∀ x, Decision (P x)} (l : list A) :
  StronglySorted R l → StronglySorted R (filter P l).
Proof.
  induction 1 as [|x l Hs IH Hall]; [constructor|].
  rewrite filter_cons. destruct (decide (P x)); [|done].
  constructor; [done|].
  rewrite Forall_forall in Hall. apply Forall_forall.
  intros y [_ Hy]%list_elem_of_filter. by apply Hall.
Qed.

Lemma StronglySorted_fmap_inv {A B} (R : relation B) (f : A → B) (l : list A) :
  StronglySorted R (f <$> l) → StronglySorted (λ x y, R (f x) (f y)) l.
Proof.
  induction l as [|x l IH]; [constructor|].
  rewrite fmap_cons. intros [Hall Hs]%StronglySorted_cons.
  constructor; [by apply IH|].
  rewrite Forall_forall in Hall.
  apply Forall_forall. intros y Hy. apply Hall. by apply list_elem_of_fmap_2.
Qed.

Lemma key_le_country (k1 k2 : string * Z) : key_le k1 k2 → String.le k1.1 k2.1.
Proof. unfold key_le. case_decide as Heq; [by rewrite Heq|done]. Qed.

Lemma reachable_sorted (s : Session) :
  reachable s → StronglySorted key_le (row_key <$> rows (_covid_data (self s))).
Proof.
  apply (reachable_cache (λ df, StronglySorted key_le (row_key <$> rows df))).
  - intros raw. rewrite loaded_keys. apply StronglySorted_group_keys.
  - constructor.
Qed.

(** X11.  In a reachable state the table of [selected_day_numbers] lists
    its countries in increasing order of their names. *)
Theorem table_is_ordered_by_country (w : World) (s : Session)
    (tab : Overview) (s' : Session) :
  reachable s →
  selected_day_numbers w s = (Ok tab, s') →
  StronglySorted String.le ((ov_table tab).*1).
Proof.
  intros Hs Hrun.
  pose proof (selected_day_numbers_eq w s) as Hv.
  pose proof (reachable_sorted _ (reachable_after w call_covid_data s Hs)) as Hk.
  cbn [after] in Hk.
  destruct (covid_data w s) as [[df|e] s1] eqn:Hread.
  2:{ rewrite Hv in Hrun. discriminate. }
  destruct Hv as [j Hv]. rewrite Hv in Hrun. injection Hrun as Htab Hs'. subst tab s'.
  apply covid_data_returns_cache in Hread as ->. cbn [snd self] in *.
  unfold selected_day_numbers_of. cbn [ov_table].
  rewrite <- list_fmap_compose, rows_where_.
  apply StronglySorted_fmap_inv in Hk.
  apply (StronglySorted_fmap _ (λ r1 r2, key_le (row_key r1) (row_key r2))).
  - intros r1 r2. apply key_le_country.
  - by apply StronglySorted_filter.
Qed.

End ViewsMore.

(** ** How the object changes, and what it always satisfies *)

Section Invariants.
Context `{Libraries}.

Lemma moves_bind {A B} (m : M A) (k : A → M B) :
  moves m → (∀ a, moves (k a)) → moves (m ≫= k).
Proof.
  intros Hm Hk s. unfold mbind, M_bind, bind.
  specialize (Hm s). destruct (m s) as [[a|e] s1]; [|done].
  etrans; [exact Hm|apply Hk].
Qed.

Lemma moves_ret {A} (a : A) : moves (mret a).
Proof. by intros s. Qed.

Lemma moves_gets {A} (f : GreatCovidDashboard → A) : moves (gets f).
Proof. by intros s. Qed.

Lemma moves_lift {A} (r : result A) : moves (lift r).
Proof. by intros s. Qed.

Lemma moves_info (msg : string) : moves (info msg).
Proof. by intros s. Qed.

Lemma moves_attempt {A} (m : M A) : moves m → moves (attempt m).
Proof. intros Hm s. unfold attempt. specialize (Hm s). by destruct (m s). Qed.

Lemma moves_update_covid_data (w : World) : moves (update_covid_data w).
Proof.
  intros s. rewrite update_covid_data_eq. cbn zeta.
  destruct (remote w) as [raw|e]; [|done].
  destruct (Date_min (loaded raw)) as [lo|] eqn:Hlo.
  - destruct (Date_max (loaded raw)) as [hi|] eqn:Hhi; cbn [snd self].
    + apply rtc_once. by apply step_reload.
    + apply rtc_once, step_blank. by apply Date_max_None.
  - cbn [snd self]. apply rtc_once, step_blank. by apply Date_min_None.
Qed.

Lemma moves_covid_data (w : World) : moves (covid_data w).
Proof.
  intros s. rewrite covid_data_eq.
  destruct (is_stale w _) as [[]|e]; [|done..].
  pose proof (moves_update_covid_data w s) as Hu.
  by destruct (update_covid_data w s) as [[[]|e] s'].
Qed.

Lemma moves_call (w : World) (v : View) : moves (call w v).
Proof.
  destruct v; cbn [call]; (apply moves_bind; [|intros; apply moves_ret]); intros s.
  - rewrite plot_self. apply moves_covid_data.
  - rewrite map_plot_self. apply moves_covid_data.
  - rewrite selected_day_numbers_self. apply moves_covid_data.
Qed.

Lemma moves_recompute (w : World) (vs : list View) : moves (recompute w vs).
Proof.
  induction vs as [|v vs IH]; cbn [recompute]; [apply moves_ret|].
  apply moves_bind; [apply moves_attempt, moves_call|]. intros r.
  apply moves_bind; [done|]. intros rs. apply moves_ret.
Qed.

Lemma moves_param_set (a : Assignment) : moves (param_set a).
Proof.
  intros s. rewrite param_set_eq.
  destruct (validate (self s) a) as [f|e] eqn:Hv; [|done].
  cbn [snd self]. apply rtc_once. by eapply step_assign.
Qed.

Lemma moves_set_params (params : list Assignment) : moves (set_params params).
Proof.
  induction params as [|a params IH]; cbn [set_params]; [apply moves_ret|].
  apply moves_bind; [apply moves_param_set|done].
Qed.

Lemma moves_update (w : World) (layout : list Layout) (a : Assignment) :
  moves (update w layout a).
Proof.
  unfold update. apply moves_bind; [apply moves_gets|]. intros old.
  apply moves_bind; [apply moves_param_set|]. intros _.
  destruct (changes old a); [apply moves_recompute|apply moves_ret].
Qed.

Lemma moves___init__ (w : World) (params : list Assignment) :
  moves (__init__ w params).
Proof.
  unfold __init__.
  apply moves_bind; [apply moves_info|]. intros _.
  apply moves_bind; [apply moves_set_params|]. intros _.
  apply moves_bind.
  { intros s. cbn [modify snd self]. apply rtc_once.
    rewrite <- loaded_nil. by apply step_blank. }
  intros _.
  apply moves_bind; [apply moves_update_covid_data|]. intros _.
  apply moves_bind; [apply moves_gets|]. intros df.
  apply moves_bind; [apply moves_lift|]. intros d.
  apply moves_bind; [apply moves_param_set|]. intros _.
  apply moves_info.
Qed.

Lemma reachable_steps (s : Session) :
  reachable s → rtc step class_defaults (self s).
Proof.
  induction 1 as [w params log s Hnew|w c s Hs IH].
  - unfold new in Hnew.
    pose proof (moves___init__ w params {| self := class_defaults; journal := log |})
      as Hm.
    by rewrite Hnew in Hm.
  - etrans; [exact IH|]. destruct c; cbn [after].
    + apply moves_update_covid_data.
    + apply moves_covid_data.
    + rewrite plot_self. apply moves_covid_data.
    + rewrite map_plot_self. apply moves_covid_data.
    + rewrite selected_day_numbers_self. apply moves_covid_data.
    + done.
    + apply moves_param_set.
    + apply moves_update.
Qed.

Lemma reachable_invariant (Q : GreatCovidDashboard → Prop) (s : Session) :
  Q class_defaults →
  (∀ o o', step o o' → Q o → Q o') →
  reachable s → Q (self s).
Proof.
  intros Q0 Qstep Hs. apply reachable_steps in Hs.
  revert Hs. apply (rtc_ind_r Q); [done|].
  intros o o' _ Hstep HQ. by eapply Qstep.
Qed.

Lemma validate_frame (o : GreatCovidDashboard) (a : Assignment) f :
  validate o a = Ok f →
  ∀ o', _covid_data (f o') = _covid_data o' ∧
        map_plot_date_bounds (f o') = map_plot_date_bounds o' ∧
        countries_objects (f o') = countries_objects o'.
Proof.
  destruct a; cbn [validate]; repeat case_match; intros [= <-]; done.
Qed.

(** X12.  In every reachable state the cached frame is a frame that
    [get_covid_data] has returned for some CSV: no other code writes it.
    In particular each of its rows carries the ISO code that the lookup
    gives for its country, and none where the lookup fails. *)
Theorem cache_is_always_a_loaded_frame (s : Session) :
  reachable s →
  (∃ raw, aggregate raw = Ok (_covid_data (self s))) ∧
  ∀ r, r ∈ rows (_covid_data (self s)) →
    match iso3166_countries_get (Country r) with
    | Ok c => iso_alpha r = Some (alpha3 c)
    | Raise _ => iso_alpha r = None
    end.
Proof.
  intros Hs.
  assert (∃ raw, _covid_data (self s) = loaded raw) as [raw Hraw].
  { revert Hs. apply (reachable_cache (λ df, ∃ raw, df = loaded raw)).
    - intros raw. by exists raw.
    - exists []. by rewrite loaded_nil. }
  rewrite Hraw. split.
  - exists raw. apply aggregate_ok.
  - intros r Hr. rewrite (loaded_iso_alpha raw r Hr).
    unfold code_of, iso3166_countries_get.
    by destruct (iso3166_table (Country r)).
Qed.

(** X13.  In every reachable state the date bounds are in order and the
    country choices are listed in increasing order without repetition. *)
Theorem bounds_and_choices_are_ordered (s : Session) :
  reachable s →
  (map_plot_date_bounds (self s)).1 ≤ (map_plot_date_bounds (self s)).2 ∧
  NoDup (countries_objects (self s)) ∧
  StronglySorted String.le (countries_objects (self s)).
Proof.
  apply (reachable_invariant
           (λ o, (map_plot_date_bounds o).1 ≤ (map_plot_date_bounds o).2 ∧
                 NoDup (countries_objects o) ∧
                 StronglySorted String.le (countries_objects o))).
  - split; [by vm_compute|]. split.
    + apply NoDup_singleton.
    + repeat constructor.
  - intros o o' Hstep (Hb & Hnd & Hsort).
    destruct Hstep as [o raw lo hi Hlo Hhi|o raw Hrows|o a f Hv].
    + cbn. split; [|split].
      * destruct (Date_min_spec _ _ Hlo) as [(r & -> & Hr)%list_elem_of_fmap _].
        destruct (Date_max_spec _ _ Hhi) as [_ Hle]. by apply Hle.
      * unfold sorted. rewrite merge_sort_Permutation. apply NoDup_unique.
      * unfold sorted. apply StronglySorted_merge_sort; apply _.
    + done.
    + destruct (validate_frame _ _ _ Hv o) as (_ & -> & ->). done.
Qed.

(** X14.  In every reachable state with rows in the cache, the bounds of
    [map_plot_date] are the least and the greatest date of the cached
    frame and the choices of [countries] are its countries: a reload sets
    the three together, and nothing else touches them. *)
Theorem bounds_and_choices_follow_the_cache (s : Session) :
  reachable s →
  rows (_covid_data (self s)) ≠ [] →
  Date_min (_covid_data (self s)) = Some (map_plot_date_bounds (self s)).1 ∧
  Date_max (_covid_data (self s)) = Some (map_plot_date_bounds (self s)).2 ∧
  choices_current (self s) ∧
  ∀ c, c ∈ countries_objects (self s) ↔ c ∈ Country <$> rows (_covid_data (self s)).
Proof.
  intros Hs Hrows.
  assert (Date_min (_covid_data (self s)) = Some (map_plot_date_bounds (self s)).1 ∧
          Date_max (_covid_data (self s)) = Some (map_plot_date_bounds (self s)).2 ∧
          choices_current (self s)) as (Hlo & Hhi & Hc).
  { revert Hs Hrows.
    apply (reachable_invariant
             (λ o, rows (_covid_data o) ≠ [] →
                   Date_min (_covid_data o) = Some (map_plot_date_bounds o).1 ∧
                   Date_max (_covid_data o) = Some (map_plot_date_bounds o).2 ∧
                   choices_current o)).
    - done.
    - intros o o' Hstep IH.
      destruct Hstep as [o raw lo hi Hlo Hhi|o raw Hrows|o a f Hv].
      + intros _. cbn. done.
      + intros Hne. by destruct Hne.
      + unfold choices_current.
        destruct (validate_frame _ _ _ Hv o) as (-> & -> & ->). done. }
  repeat (split; [done|]). intros c. by apply choices_current_elem.
Qed.

End Invariants.

(** ** Construction *)

Section Construction.
Context `{Libraries}.

(** X15.  Constructing the dashboard without arguments on a file that
    has rows succeeds: the cache is the loaded frame, the bounds are its
    least and greatest dates, the selected date is the greatest, and the
    journal has the two lines of [__init__] around one reload.  The other
    parameters keep their class defaults; in particular Czechia stays
    selected whether or not the file has it. *)
Theorem construction_selects_last_day (w : World) (log : list event)
    (raw : list RawRow) (df : DataFrame) (lo hi : Z) :
  remote w = Ok raw →
  aggregate raw = Ok df →
  Date_min df = Some lo →
  Date_max df = Some hi →
  let s := (new w [] log).2 in
  (new w [] log).1 = Ok tt ∧
  _covid_data (self s) = df ∧
  map_plot_date_bounds (self s) = (lo, hi) ∧
  map_plot_date (self s) = hi ∧
  within (map_plot_date_bounds (self s)) (map_plot_date (self s)) ∧
  countries_objects (self s) = sorted (unique (Country <$> rows df)) ∧
  countries (self s) = ["Czechia"] ∧
  plotted_variable (self s) = MConfirmed ∧
  use_log_scale (self s) = false ∧
  plot_type (self s) = px_bar ∧
  journal s = log ++ [LogInfo logger_name "Initializing"] ++ reload_events
                  ++ [LogInfo logger_name "Initialized"].
Proof.
  intros Hr. rewrite aggregate_ok. intros [= <-] Hlo Hhi.
  assert (lo ≤ hi) as Hle.
  { destruct (Date_min_spec _ _ Hlo) as [(r & -> & Hin)%list_elem_of_fmap _].
    destruct (Date_max_spec _ _ Hhi) as [_ Hmax]. by apply Hmax. }
  assert (new w [] log
          = (Ok tt,
             {| self := set_map_plot_date hi
                          (reloaded (loaded raw) lo hi
                             (set__covid_data empty_frame class_defaults));
                journal := log ++ [LogInfo logger_name "Initializing"]
                               ++ reload_events
                               ++ [LogInfo logger_name "Initialized"] |})) as Hnew.
  { unfold new, __init__, mbind, M_bind, bind. cbn [set_params].
    unfold info at 1, emit at 1, mret, M_ret, ret, modify at 1.
    cbn beta iota. cbn [self journal].
    rewrite update_covid_data_eq, Hr. cbn zeta. rewrite Hlo, Hhi.
    unfold gets, lift. cbn beta iota.
    cbn [self journal reloaded _covid_data set_objects set_bounds set__covid_data].
    rewrite to_date_max, Hhi. rewrite param_set_eq.
    cbn [validate self map_plot_date_bounds fst snd reloaded set_objects
         set_bounds set__covid_data].
    rewrite decide_True by lia. unfold info, emit. cbn [self journal].
    by rewrite <- !app_assoc. }
  cbn zeta. rewrite Hnew. cbn. unfold within. cbn. repeat split; try done; lia.
Qed.

(** X16.  When [read_csv] raises during construction, the construction
    raises the same exception: the journal shows the start and the
    attempted reload, and never the line "Initialized". *)
Theorem construction_fails_with_the_request (w : World) (log : list event) (e : exn) :
  remote w = Raise e →
  (new w [] log).1 = Raise e ∧
  journal (new w [] log).2
    = log ++ [LogInfo logger_name "Initializing"] ++ reload_events ∧
  LogInfo logger_name "Initialized" ∉ [LogInfo logger_name "Initializing"] ++ reload_events.
Proof.
  intros Hr.
  assert (new w [] log
          = (Raise e,
             {| self := set__covid_data empty_frame class_defaults;
                journal := log ++ [LogInfo logger_name "Initializing"]
                               ++ reload_events |})) as Hnew.
  { unfold new, __init__, mbind, M_bind, bind. cbn [set_params].
    unfold info at 1, emit at 1, mret, M_ret, ret, modify at 1.
    cbn beta iota. cbn [self journal].
    rewrite update_covid_data_eq, Hr. cbn zeta. cbn [self journal].
    by rewrite <- app_assoc. }
  rewrite Hnew. split; [done|]. split; [done|].
  intros Hin%list_elem_of_In. cbn in Hin. intuition discriminate.
Qed.

Lemma outside_domain_ext (o o' : GreatCovidDashboard) (a : Assignment) :
  countries_objects o' = countries_objects o →
  map_plot_date_bounds o' = map_plot_date_bounds o →
  outside_domain o a → outside_domain o' a.
Proof. destruct a; cbn [outside_domain]; intros Ho Hb; rewrite ?Ho, ?Hb; done. Qed.

Lemma set_params_rejects (params : list Assignment) (a : Assignment) (s : Session) :
  a ∈ params →
  outside_domain (self s) a →
  ∃ msg s', set_params params s = (Raise (ValueError msg), s') ∧
            journal s' = journal s.
Proof.
  revert s. induction params as [|b params IH]; intros s Hin Hout;
    [by apply elem_of_nil in Hin|].
  cbn [set_params]. unfold mbind, M_bind, bind. rewrite param_set_eq.
  destruct (validate (self s) b) as [f|e] eqn:Hv.
  - apply elem_of_cons in Hin as [->|Hin].
    { apply validate_outside in Hout as [msg Hmsg]. congruence. }
    destruct (validate_frame _ _ _ Hv (self s)) as (_ & Hb & Ho).
    destruct (IH {| self := f (self s); journal := journal s |} Hin)
      as (msg & s' & -> & Hj).
    { by apply (outside_domain_ext (self s)). }
    by exists msg, s'.
  - destruct (validate_raises_ValueError _ _ _ Hv) as [msg ->]. by exists msg, s.
Qed.

(** X17.  Arguments of the constructor are checked against the class
    declarations before anything is loaded.  If one of them is outside its
    declared domain (for [countries], any list that is not made of
    ["Czechia"] alone), the construction raises [ValueError] and no
    request has been made: the journal has only the line "Initializing". *)
Theorem construction_checks_arguments_first (w : World) (log : list event)
    (params : list Assignment) (a : Assignment) :
  a ∈ params →
  outside_domain class_defaults a →
  ∃ msg,
    (new w params log).1 = Raise (ValueError msg) ∧
    journal (new w params log).2 = log ++ [LogInfo logger_name "Initializing"] ∧
    requests (journal (new w params log).2) = requests log.
Proof.
  intros Hin Hout.
  destruct (set_params_rejects params a
              {| self := class_defaults;
                 journal := log ++ [LogInfo logger_name "Initializing"] |} Hin Hout)
    as (msg & s' & Hset & Hj).
  assert (new w params log = (Raise (ValueError msg), s')) as Hnew.
  { unfold new, __init__, mbind, M_bind, bind.
    unfold info at 1, emit at 1. cbn beta iota. cbn [self journal].
    by rewrite Hset. }
  exists msg. rewrite Hnew. cbn [fst snd]. rewrite Hj. cbn [journal].
  split; [done|]. split; [done|].
  unfold requests. rewrite filter_app, length_app.
  change (length (filter (λ e, e = HttpGet csv_url)
                         [LogInfo logger_name "Initializing"])) with 0%nat.
  lia.
Qed.

End Construction.

(** ** The simple dashboard *)

Section SimpleDashboard.
Context `{Libraries}.

Lemma basic_rows_loaded (raw : list RawRow) :
  basic <$> rows (loaded raw) = CovidDashboard.covid_data raw.
Proof.
  rewrite rows_loaded. unfold groupby_agg, CovidDashboard.covid_data.
  rewrite <- !list_fmap_compose. by apply list_fmap_ext.
Qed.

(** X18.  On the same CSV the enhanced loader returns the rows of the
    simple one, in the same order and with the same three sums, with the
    coordinates and the ISO code added; so both classes offer the same
    country choices. *)
Theorem loaders_agree (raw : list RawRow) (df : DataFrame) :
  aggregate raw = Ok df →
  basic <$> rows df = CovidDashboard.covid_data raw ∧
  CovidDashboard.countries_objects (CovidDashboard.covid_data raw)
    = sorted (unique (Country <$> rows df)).
Proof.
  rewrite aggregate_ok. intros [= <-].
  split; [apply basic_rows_loaded|].
  unfold CovidDashboard.countries_objects.
  rewrite <- basic_rows_loaded, <- list_fmap_compose. done.
Qed.

Lemma take_mask_basic (P : string → bool) (l : list Row) :
  take_mask (basic <$> l) ((λ r, P (CovidDashboard.Country r)) <$> (basic <$> l))
  = basic <$> take_mask l ((λ r, P (Country r)) <$> l).
Proof.
  induction l as [|r l IH]; [done|].
  cbn [fmap list_fmap take_mask] in *. rewrite IH.
  change (CovidDashboard.Country (basic r)) with (Country r).
  by destruct (P (Country r)).
Qed.

Lemma px_plot_basic (kind : PlotKind) (l : list Row) (df : DataFrame)
    (y : Metric) (log_y : bool) :
  rows df = l →
  CovidDashboard.px_plot kind (basic <$> l) y log_y = px_plot kind df y log_y.
Proof.
  intros <-. unfold CovidDashboard.px_plot, px_plot. f_equal.
  rewrite <- list_fmap_compose.
  assert (CovidDashboard.Country ∘ basic = Country) as -> by done.
  apply list_fmap_ext. intros _ c _. f_equal.
  rewrite (filter_fmap basic (λ r, CovidDashboard.Country r = c)).
  rewrite <- list_fmap_compose. apply list_fmap_ext.
  intros _ r _. cbn. by destruct y.
Qed.

(** X19.  The enhanced dashboard draws what the simple one draws: with
    the same selection, on the frame of the same CSV and while that frame
    is fresh (it holds dates, the most recent one at most one day older
    than today), [GreatCovidDashboard.plot] returns the figure of
    [CovidDashboard.plot], and changes nothing. *)
Theorem dashboards_draw_the_same_figure (w : World) (s : Session)
    (raw : list RawRow) (o : CovidDashboard.t) :
  aggregate raw = Ok (_covid_data (self s)) →
  fresh w (_covid_data (self s)) →
  same_selection o (self s) →
  plot w s = (Ok (CovidDashboard.plot (CovidDashboard.covid_data raw) o), s).
Proof.
  intros Hagg Hf%is_stale_fresh (Hc & Hv & Hl & Hk).
  rewrite (plot_fresh w s Hf). do 2 f_equal.
  rewrite aggregate_ok in Hagg. injection Hagg as Hagg.
  rewrite <- basic_rows_loaded, Hagg.
  unfold CovidDashboard.plot, plot_of. rewrite Hc, Hv, Hl, Hk.
  pose proof (take_mask_basic (λ c, bool_decide (c ∈ countries (self s)))
                (rows (_covid_data (self s)))) as Hmask.
  cbn beta in Hmask. rewrite Hmask.
  symmetry. apply px_plot_basic. apply rows_where_mask.
Qed.

End SimpleDashboard.

(** ** The further properties on the sample data *)

Section MoreExamples.
Local Existing Instance Sample.libraries.

(** The first two rows of the April frame: Australia, then Czechia. *)
Lemma loaded_rows_are_ordered_witness :
  ∃ r1 r2,
    rows (loaded Sample.csv_april) !! 0%nat = Some r1 ∧
    rows (loaded Sample.csv_april) !! 1%nat = Some r2 ∧
    String.le (Country r1) (Country r2) ∧
    (Country r1 = Country r2 → Date r1 < Date r2).
Proof.
  destruct (rows (loaded Sample.csv_april) !! 0%nat) as [r1|] eqn:H1;
    [|vm_compute in H1; discriminate].
  destruct (rows (loaded Sample.csv_april) !! 1%nat) as [r2|] eqn:H2;
    [|vm_compute in H2; discriminate].
  exists r1, r2. split; [reflexivity|]. split; [reflexivity|].
  exact (loaded_rows_are_ordered Sample.csv_april (loaded Sample.csv_april)
           0 1 r1 r2 (aggregate_ok _) (Nat.lt_0_succ 0) H1 H2).
Defined.

(** The file with gaps: of its three lines one has a country and a
    date, and the frame holds its 9364 confirmed cases and no more. *)
Lemma aggregation_keeps_totals_witness :
  aggregate More.csv_gaps = Ok (loaded More.csv_gaps) ∧
  Forall (λ x, is_Some (raw_Confirmed x)) More.csv_gaps ∧
  int64_sum (omap raw_Confirmed (keyed More.csv_gaps)) = i64 9364 ∧
  int64_sum (int64_cells (Confirmed <$> rows (loaded More.csv_gaps)))
    = int64_sum (omap raw_Confirmed (keyed More.csv_gaps)).
Proof.
  assert (Forall (λ x, is_Some (raw_Confirmed x)) More.csv_gaps) as Hall.
  { apply (bool_decide_unpack _). vm_compute. exact I. }
  split; [apply aggregate_ok|]. split; [exact Hall|].
  split; [vm_compute; reflexivity|].
  exact (proj2 (proj1 (aggregation_keeps_totals More.csv_gaps _ (aggregate_ok _))
                  Hall)).
Defined.

(** The June file has no states: three lines, three rows. *)
Lemma aggregation_without_states_witness :
  NoDup (raw_key <$> Sample.csv_june) ∧
  Forall (λ x, is_Some (raw_key x)) Sample.csv_june ∧
  length (rows (loaded Sample.csv_june)) = length Sample.csv_june.
Proof.
  assert (NoDup (raw_key <$> Sample.csv_june)) as Hnd.
  { apply (bool_decide_unpack _). vm_compute. exact I. }
  assert (Forall (λ x, is_Some (raw_key x)) Sample.csv_june) as Hkeys.
  { apply (bool_decide_unpack _). vm_compute. exact I. }
  split; [exact Hnd|]. split; [exact Hkeys|].
  exact (proj1 (aggregation_without_states Sample.csv_june _ Hnd Hkeys
                  (aggregate_ok _))).
Defined.

(** Without network in June, [plot] raises and the object is untouched. *)
Lemma failed_request_leaves_object_witness :
  remote More.offline = Raise (IOError "URLError") ∧
  more_than_one_day_older More.offline (_covid_data (self Sample.dashboard)) ∧
  plot More.offline Sample.dashboard
    = (Raise (IOError "URLError"),
       {| self := self Sample.dashboard;
          journal := journal Sample.dashboard ++ reload_events |}).
Proof.
  assert (more_than_one_day_older More.offline (_covid_data (self Sample.dashboard)))
    as Hst.
  { exists (date 2020 4 2). split; [vm_compute; reflexivity|by vm_compute]. }
  split; [reflexivity|]. split; [exact Hst|].
  exact (proj1 (proj2 (proj2 (failed_request_leaves_object
                                More.offline Sample.dashboard _ eq_refl) Hst))).
Defined.

(** In June the file is still that of April: [plot] asks for it twice. *)
Lemma views_reload_at_every_read_witness :
  more_than_one_day_older More.behind (_covid_data (self Sample.dashboard)) ∧
  more_than_one_day_older More.behind (loaded Sample.csv_april) ∧
  requests (journal (plot More.behind Sample.dashboard).2)
    = (requests (journal Sample.dashboard) + 2)%nat ∧
  requests (journal (selected_day_numbers More.behind Sample.dashboard).2)
    = (requests (journal Sample.dashboard) + 3)%nat.
Proof.
  assert (more_than_one_day_older More.behind (_covid_data (self Sample.dashboard)))
    as Hst.
  { exists (date 2020 4 2). split; [vm_compute; reflexivity|by vm_compute]. }
  assert (more_than_one_day_older More.behind (loaded Sample.csv_april)) as Hst'.
  { exists (date 2020 4 2). split; [vm_compute; reflexivity|by vm_compute]. }
  split; [exact Hst|]. split; [exact Hst'|].
  assert (rows (loaded Sample.csv_april) ≠ []) as Hrows.
  { intros Hnil. vm_compute in Hnil. discriminate. }
  pose proof (views_reload_at_every_read More.behind Sample.dashboard
                Sample.csv_april (loaded Sample.csv_april) Hst eq_refl
                (aggregate_ok _) Hrows) as Hx.
  destruct (decide (more_than_one_day_older More.behind (loaded Sample.csv_april)))
    as [_|Hn]; [|destruct (Hn Hst')].
  exact (conj (proj1 Hx) (proj2 (proj2 Hx))).
Defined.

(** Australia and Czechia selected in April; in June the file has no
    Australia any more: [plot] reloads and draws Czechia alone. *)
Lemma plot_draws_selected_countries_with_data_witness :
  ∃ fig s',
    plot Sample.june
         (param_set (SetCountries ["Australia"; "Czechia"]) Sample.dashboard).2
      = (Ok fig, s') ∧
    NoDup (trace_name <$> ts_traces fig) ∧
    trace_name <$> ts_traces fig = ["Czechia"].
Proof.
  destruct (plot Sample.june
              (param_set (SetCountries ["Australia"; "Czechia"]) Sample.dashboard).2)
    as [[fig|e] s'] eqn:Hrun; [|vm_compute in Hrun; discriminate].
  pose proof Hrun as Hval. vm_compute in Hval. injection Hval as Hfig _.
  exists fig, s'. split; [reflexivity|].
  split; [exact (proj1 (plot_draws_selected_countries_with_data _ _ _ _ Hrun))|].
  rewrite <- Hfig. vm_compute. reflexivity.
Defined.

(** In June the selected 2 April has no data: the table is empty. *)
Lemma date_outside_data_shows_nothing_witness :
  ¬ within (date 2020 6 1, date 2020 6 2) (map_plot_date (self Sample.dashboard)) ∧
  ∃ tab s',
    selected_day_numbers Sample.june Sample.dashboard = (Ok tab, s') ∧
    ov_table tab = [].
Proof.
  assert (¬ within (date 2020 6 1, date 2020 6 2)
              (map_plot_date (self Sample.dashboard))) as Hout.
  { intros [Hlo _]. vm_compute in Hlo. by apply Hlo. }
  split; [exact Hout|].
  destruct (selected_day_numbers Sample.june Sample.dashboard)
    as [[tab|e] s'] eqn:Hrun; [|vm_compute in Hrun; discriminate].
  assert (s' = (selected_day_numbers Sample.june Sample.dashboard).2) as Hs'
    by (by rewrite Hrun).
  exists tab, s'. split; [reflexivity|].
  refine (proj1 (proj1 (date_outside_data_shows_nothing
                          Sample.june Sample.dashboard _ _ Hout) tab s' Hrun _ _));
    rewrite Hs'; vm_compute; reflexivity.
Defined.

(** Czechia's row of 2 April is the one row of Czechia in the table. *)
Lemma table_row_of_selected_country_witness :
  selected_day_numbers Sample.april Sample.both
    = (Ok Sample.table_2_april, Sample.both) ∧
  filter (λ e, e.1 = "Czechia") (ov_table Sample.table_2_april)
    = [("Czechia", (Int (i64 1100), Float (Sample.Dec 71 0), Int (i64 44)))].
Proof.
  assert (selected_day_numbers Sample.april Sample.both
          = (Ok Sample.table_2_april, Sample.both)) as Hrun
    by (vm_compute; reflexivity).
  split; [exact Hrun|].
  refine (table_row_of_selected_country Sample.april Sample.both _ _
            (Sample.row_2_april "Czechia" "CZE" 1100 71 44
               (Sample.Dec 498175 (-4)) (Sample.Dec 15473 (-3)))
            both_is_reachable Hrun _ _ _).
  - apply list_elem_of_In. vm_compute.
    repeat (first [left; reflexivity|right]).
  - vm_compute. reflexivity.
  - apply list_elem_of_In. vm_compute.
    repeat (first [left; reflexivity|right]).
Defined.

(** Czechia comes before Slovakia in the table of 2 April. *)
Lemma table_is_ordered_by_country_witness :
  selected_day_numbers Sample.april Sample.both
    = (Ok Sample.table_2_april, Sample.both) ∧
  StronglySorted String.le ((ov_table Sample.table_2_april).*1).
Proof.
  assert (selected_day_numbers Sample.april Sample.both
          = (Ok Sample.table_2_april, Sample.both)) as Hrun
    by (vm_compute; reflexivity).
  split; [exact Hrun|].
  exact (table_is_ordered_by_country Sample.april Sample.both _ _
           both_is_reachable Hrun).
Defined.

(** The dashboard of April. *)
Lemma cache_is_always_a_loaded_frame_witness :
  reachable Sample.dashboard ∧
  ∃ raw, aggregate raw = Ok (_covid_data (self Sample.dashboard)).
Proof.
  split; [exact dashboard_is_reachable|].
  exact (proj1 (cache_is_always_a_loaded_frame _ dashboard_is_reachable)).
Defined.

(** Its choices: Australia, Czechia, Diamond Princess, Slovakia. *)
Lemma bounds_and_choices_are_ordered_witness :
  reachable Sample.dashboard ∧
  NoDup (countries_objects (self Sample.dashboard)) ∧
  StronglySorted String.le (countries_objects (self Sample.dashboard)).
Proof.
  split; [exact dashboard_is_reachable|].
  exact (proj2 (bounds_and_choices_are_ordered _ dashboard_is_reachable)).
Defined.

(** Its upper bound is the last day of the April file. *)
Lemma bounds_and_choices_follow_the_cache_witness :
  reachable Sample.dashboard ∧
  rows (_covid_data (self Sample.dashboard)) ≠ [] ∧
  Date_max (_covid_data (self Sample.dashboard))
    = Some (map_plot_date_bounds (self Sample.dashboard)).2.
Proof.
  assert (rows (_covid_data (self Sample.dashboard)) ≠ []) as Hne.
  { intros Hnil. vm_compute in Hnil. discriminate. }
  split; [exact dashboard_is_reachable|]. split; [exact Hne|].
  exact (proj1 (proj2 (bounds_and_choices_follow_the_cache _
                         dashboard_is_reachable Hne))).
Defined.

(** A file with Slovakia alone: the dashboard is created with Czechia
    selected, which is not among its choices. *)
Lemma construction_selects_last_day_witness :
  remote More.slovakia_only = Ok More.csv_slovakia ∧
  Date_max (loaded More.csv_slovakia) = Some (date 2020 4 1) ∧
  (new More.slovakia_only [] []).1 = Ok tt ∧
  map_plot_date (self (new More.slovakia_only [] []).2) = date 2020 4 1 ∧
  countries (self (new More.slovakia_only [] []).2) = ["Czechia"] ∧
  countries_objects (self (new More.slovakia_only [] []).2) = ["Slovakia"].
Proof.
  assert (Date_min (loaded More.csv_slovakia) = Some (date 2020 4 1)) as Hlo
    by (vm_compute; reflexivity).
  assert (Date_max (loaded More.csv_slovakia) = Some (date 2020 4 1)) as Hhi
    by (vm_compute; reflexivity).
  destruct (construction_selects_last_day More.slovakia_only [] More.csv_slovakia
              (loaded More.csv_slovakia) (date 2020 4 1) (date 2020 4 1)
              eq_refl (aggregate_ok _) Hlo Hhi)
    as (Hok & _ & _ & Hd & _ & Hobj & Hc & _).
  split; [reflexivity|]. split; [exact Hhi|]. split; [exact Hok|].
  split; [exact Hd|]. split; [exact Hc|].
  rewrite Hobj. vm_compute. reflexivity.
Defined.

(** Without network no dashboard is created. *)
Lemma construction_fails_with_the_request_witness :
  remote More.offline = Raise (IOError "URLError") ∧
  (new More.offline [] []).1 = Raise (IOError "URLError").
Proof.
  split; [reflexivity|].
  exact (proj1 (construction_fails_with_the_request More.offline [] _ eq_refl)).
Defined.

(** [GreatCovidDashboard(countries=["Slovakia"])] fails, though the file
    has Slovakia, and nothing is requested. *)
Lemma construction_checks_arguments_first_witness :
  outside_domain class_defaults (SetCountries ["Slovakia"]) ∧
  ∃ msg,
    (new Sample.april [SetCountries ["Slovakia"]] []).1 = Raise (ValueError msg) ∧
    requests (journal (new Sample.april [SetCountries ["Slovakia"]] []).2) = 0%nat.
Proof.
  assert (outside_domain class_defaults (SetCountries ["Slovakia"])) as Hout.
  { exists "Slovakia". split; [left|].
    intros Hin%list_elem_of_In. vm_compute in Hin. intuition discriminate. }
  split; [exact Hout|].
  destruct (construction_checks_arguments_first Sample.april []
              [SetCountries ["Slovakia"]] (SetCountries ["Slovakia"])
              ltac:(left) Hout) as (msg & Hr & _ & Hn).
  exists msg. split; [exact Hr|exact Hn].
Defined.

(** The two frames of the April file. *)
Lemma loaders_agree_witness :
  aggregate Sample.csv_april = Ok (loaded Sample.csv_april) ∧
  basic <$> rows (loaded Sample.csv_april)
    = CovidDashboard.covid_data Sample.csv_april.
Proof.
  split; [apply aggregate_ok|].
  exact (proj1 (loaders_agree Sample.csv_april _ (aggregate_ok _))).
Defined.

(** Both dashboards, on the April file, draw Czechia's confirmed cases. *)
Lemma dashboards_draw_the_same_figure_witness :
  aggregate Sample.csv_april = Ok (_covid_data (self Sample.dashboard)) ∧
  fresh Sample.april (_covid_data (self Sample.dashboard)) ∧
  same_selection CovidDashboard.defaults (self Sample.dashboard) ∧
  CovidDashboard.plot (CovidDashboard.covid_data Sample.csv_april)
                      CovidDashboard.defaults
    = Sample.czechia_confirmed ∧
  plot Sample.april Sample.dashboard
    = (Ok (CovidDashboard.plot (CovidDashboard.covid_data Sample.csv_april)
                               CovidDashboard.defaults),
       Sample.dashboard).
Proof.
  assert (aggregate Sample.csv_april = Ok (_covid_data (self Sample.dashboard)))
    as Hagg by (vm_compute; reflexivity).
  assert (same_selection CovidDashboard.defaults (self Sample.dashboard)) as Hsel
    by (vm_compute; repeat split).
  assert (fresh Sample.april (_covid_data (self Sample.dashboard))) as Hf.
  { exists (date 2020 4 2). split; [vm_compute; reflexivity|vm_compute; discriminate]. }
  split; [exact Hagg|]. split; [exact Hf|]. split; [exact Hsel|].
  split; [vm_compute; reflexivity|].
  exact (dashboards_draw_the_same_figure Sample.april Sample.dashboard
           Sample.csv_april CovidDashboard.defaults Hagg Hf Hsel).
Defined.

End MoreExamples.
